(** * The experiment runner of flwr_p2p: data normalisation and partitioning

    A shallow embedding of [src/experiments/base_experiment_runner.py]
    ([BaseExperimentRunner]): Python values and exceptions, the NumPy
    operations the runner calls, the runner's methods as programs of a
    state-and-exception monad over the object's attributes, and the
    properties of the splitting strategies. *)

From Stdlib Require Import String.
From Stdlib Require Import List Arith ZArith QArith Qround Lia Bool Permutation.
From Stdlib Require Import Floats.SpecFloat.
Import ListNotations.

Close Scope Q_scope.
Local Open Scope nat_scope.
Local Open Scope list_scope.

Set Implicit Arguments.

(* ================================================================= *)
(** ** Python: exceptions, results, sequences *)

(** The exception classes the runner and the library calls it makes can
    raise.  [ValueError] and [AssertionError] carry their message. *)
Inductive exn : Type :=
| AssertionError (msg : string)
| ValueError (msg : string)
| IndexError
| TypeError
| AttributeError
| UnboundLocalError
| ZeroDivisionError
| OverflowError.

Inductive result (A : Type) : Type :=
| Ok (a : A)
| Raise (e : exn).

Arguments Ok {A} a.
Arguments Raise {A} e.

Definition rbind {A B} (r : result A) (f : A -> result B) : result B :=
  match r with
  | Ok a => f a
  | Raise e => Raise e
  end.

Definition is_Ok {A} (r : result A) : bool :=
  match r with
  | Ok _ => true
  | Raise _ => false
  end.

(** [range(start, stop, step)] for a positive [step]: the caller raises
    [ValueError] on a zero step before building the list. *)
Definition py_range (start stop step : nat) : list nat :=
  map (fun j => start + j * step) (seq 0 ((stop - start + (step - 1)) / step)).

(** [l[i:j]] for non-negative bounds. *)
Definition py_slice {A} (l : list A) (i j : nat) : list A :=
  firstn (j - i) (skipn i l).

(** Python's index normalisation: a negative index counts from the end. *)
Definition py_index (len : nat) (k : Z) : result nat :=
  if (0 <=? k)%Z then
    (if (k <? Z.of_nat len)%Z then Ok (Z.to_nat k) else Raise IndexError)
  else
    (if (- Z.of_nat len <=? k)%Z then Ok (Z.to_nat (Z.of_nat len + k)) else Raise IndexError).

(** The bound of a slice: a negative bound counts from the end, and every
    bound is clamped to the sequence. *)
Definition py_slice_bound (len : nat) (k : Z) : nat :=
  if (0 <=? k)%Z then Nat.min (Z.to_nat k) len
  else Z.to_nat (Z.max 0 (Z.of_nat len + k)).

(** [l[:k]] and [l[k:]]. *)
Definition py_slice_to {A} (l : list A) (k : Z) : list A :=
  firstn (py_slice_bound (length l) k) l.

Definition py_slice_from {A} (l : list A) (k : Z) : list A :=
  skipn (py_slice_bound (length l) k) l.

(** [l[k]] on a Python list. *)
Definition py_getitem {A} (l : list A) (k : Z) : result A :=
  rbind (py_index (length l) k)
        (fun i => match nth_error l i with
                  | Some a => Ok a
                  | None => Raise IndexError
                  end).

(** In-place update of the slot [i] of a list (the slot exists). *)
Fixpoint list_update {A} (l : list A) (i : nat) (f : A -> A) : list A :=
  match l, i with
  | [], _ => []
  | a :: l', 0 => f a :: l'
  | a :: l', S i' => a :: list_update l' i' f
  end.

(* ================================================================= *)
(** ** NumPy arrays *)

(** An array is its shape and its elements in row-major (C) order. *)
Record ndarray (A : Type) : Type := NDArray { shape : list nat; flat : list A }.

Arguments NDArray {A} shape flat.

Definition prod_dims (dims : list nat) : nat := fold_right Nat.mul 1 dims.

(** [a.size] *)
Definition size {A} (a : ndarray A) : nat := prod_dims (shape a).

(** The invariant of every array NumPy builds. *)
Definition well_shaped {A} (a : ndarray A) : Prop := length (flat a) = size a.

(** [a.shape[k]] *)
Definition shape_at {A} (a : ndarray A) (k : nat) : result nat :=
  match nth_error (shape a) k with
  | Some d => Ok d
  | None => Raise IndexError
  end.

(** [a.shape[0]] where the control flow has already indexed [a] along its
    first axis (so the axis exists). *)
Definition shape0 {A} (a : ndarray A) : nat := hd 0 (shape a).

(** Number of elements of one entry along the first axis. *)
Definition row_size {A} (a : ndarray A) : nat := prod_dims (tl (shape a)).

(** [n] consecutive chunks of [k] elements. *)
Fixpoint chunks {A} (k n : nat) (l : list A) : list (list A) :=
  match n with
  | 0 => []
  | S n' => firstn k l :: chunks k n' (skipn k l)
  end.

(** The entries of [a] along its first axis, each in row-major order. *)
Definition rows {A} (a : ndarray A) : list (list A) :=
  chunks (row_size a) (shape0 a) (flat a).

(** The array with the given entries along the first axis and the other
    axes of [a]. *)
Definition with_rows {A} (a : ndarray A) (rs : list (list A)) : ndarray A :=
  NDArray (length rs :: tl (shape a)) (concat rs).

Definition map_array {A B} (f : A -> B) (a : ndarray A) : ndarray B :=
  NDArray (shape a) (map f (flat a)).

(** [np.reshape(a, [-1] + known)]: the unknown first dimension is inferred;
    NumPy refuses when the known dimensions multiply to zero or do not
    divide the size. *)
Definition np_reshape_infer {A} (a : ndarray A) (known : list nat) : result (ndarray A) :=
  let k := prod_dims known in
  if (k =? 0) || negb (size a mod k =? 0)
  then Raise (ValueError "cannot reshape array"%string)
  else Ok (NDArray (size a / k :: known) (flat a)).

(** [np.isin(a, values)] *)
Definition np_isin (a : ndarray nat) (values : list nat) : ndarray bool :=
  map_array (fun v => existsb (Nat.eqb v) values) a.

(** [b[:, 0]] on a two-dimensional array. *)
Definition column0 {A} (d : A) (b : ndarray A) : result (list A) :=
  match shape b with
  | [_; c] => if c =? 0 then Raise IndexError else Ok (map (hd d) (rows b))
  | _ => Raise IndexError
  end.

Definition select {A} (mask : list bool) (rs : list A) : list A :=
  map snd (filter fst (combine mask rs)).

(** [a[mask]] for a one-dimensional boolean [mask]: the mask must be as long
    as the first axis. *)
Definition mask_index {A} (a : ndarray A) (mask : list bool) : result (ndarray A) :=
  match shape a with
  | [] => Raise IndexError
  | n :: _ =>
      if length mask =? n then Ok (with_rows a (select mask (rows a)))
      else Raise IndexError
  end.

Fixpoint take_rows {A} (rs : list A) (indices : list nat) : result (list A) :=
  match indices with
  | [] => Ok []
  | i :: rest =>
      match nth_error rs i with
      | Some r => rbind (take_rows rs rest) (fun out => Ok (r :: out))
      | None => Raise IndexError
      end
  end.

(** [a[indices]] for a one-dimensional array of non-negative indices. *)
Definition int_index {A} (a : ndarray A) (indices : list nat) : result (ndarray A) :=
  match shape a with
  | [] => Raise IndexError
  | _ :: _ => rbind (take_rows (rows a) indices) (fun rs => Ok (with_rows a rs))
  end.

(** [a[i]] : the [i]-th entry along the first axis, an array of one
    dimension less. *)
Definition get_row {A} (a : ndarray A) (i : nat) : result (ndarray A) :=
  match shape a with
  | [] => Raise IndexError
  | _ :: inner =>
      match nth_error (rows a) i with
      | Some r => Ok (NDArray inner r)
      | None => Raise IndexError
      end
  end.

(** [a[i:j]] along the first axis. *)
Definition slice_rows {A} (a : ndarray A) (i j : nat) : ndarray A :=
  with_rows a (py_slice (rows a) i j).

Fixpoint split_by_sizes {A} (sizes : list nat) (l : list A) : list (list A) :=
  match sizes with
  | [] => []
  | k :: rest => firstn k l :: split_by_sizes rest (skipn k l)
  end.

(** The section sizes of [np.array_split]: [total mod sections] sections of
    one more than [total / sections] entries, then the others. *)
Definition section_sizes (total sections : nat) : list nat :=
  repeat (total / sections + 1) (total mod sections)
  ++ repeat (total / sections) (sections - total mod sections).

(** [np.array_split(a, sections)] along the first axis. *)
Definition np_array_split {A} (a : ndarray A) (sections : nat) : result (list (ndarray A)) :=
  if sections =? 0 then Raise (ValueError "number sections must be larger than 0."%string)
  else Ok (map (with_rows a) (split_by_sizes (section_sizes (shape0 a) sections) (rows a))).

(** [np.asarray(l)] for a list of arrays of one shape; the empty list gives
    the empty one-dimensional array. *)
Definition np_asarray {A} (l : list (ndarray A)) : ndarray A :=
  match l with
  | [] => NDArray [0] []
  | r :: _ => NDArray (length l :: shape r) (concat (map (@flat A) l))
  end.

(** [np.asarray(l)] for a list of scalars. *)
Definition np_asarray_scalars {A} (l : list A) : ndarray A :=
  NDArray [length l] l.

(* ----------------------------------------------------------------- *)
(** *** Single-precision arithmetic *)

(** IEEE 754 binary32, by the Standard Library's specification of
    floating-point arithmetic: 24 bits of precision, exponent bound 128. *)
Definition float32 : Type := spec_float.

Definition f32_of_Z (z : Z) : float32 := binary_normalize 24 128 z 0 false.

Definition f32_div (x y : float32) : float32 := SFdiv 24 128 x y.

Definition f32_leb (x y : float32) : bool := SFleb x y.

(** [a.astype(np.float32)] on an integer array. *)
Definition astype_float32 (a : ndarray Z) : ndarray float32 := map_array f32_of_Z a.

(** [a / k] for a float32 array and a Python integer: the quotient stays in
    single precision. *)
Definition np_true_divide (a : ndarray float32) (k : Z) : ndarray float32 :=
  map_array (fun v => f32_div v (f32_of_Z k)) a.

(* ================================================================= *)
(** ** The class-partitioned split *)

Declare Scope result_scope.
Delimit Scope result_scope with res.
Notation "x <- m ;; k" := (rbind m (fun x => k))
  (at level 61, m at next level, right associativity) : result_scope.

(** The blocks of classes: [classes[i : i + k]] for [i] in
    [range(0, len(classes), k)], with [k = int(len(classes) / num_partitions)]. *)
Definition partitioned_classes (num_partitions : nat) : result (list (list nat)) :=
  let classes := seq 0 10 in
  if num_partitions =? 0 then Raise ZeroDivisionError
  else
    let num_classes_per_partition := length classes / num_partitions in
    if num_classes_per_partition =? 0
    then Raise (ValueError "range() arg 3 must not be zero"%string)
    else Ok (map (fun i => py_slice classes i (i + num_classes_per_partition))
                 (py_range 0 (length classes) num_classes_per_partition)).

(** The boolean mask of one block: [np.isin(y_train, partition)], and its
    first column when [y_train] has two dimensions.  With any other number
    of dimensions neither branch binds [selected]. *)
Definition selected_mask (y_train : ndarray nat) (partition : list nat) : result (list bool) :=
  match length (shape y_train) with
  | 2 => column0 false (np_isin y_train partition)
  | 1 => Ok (flat (np_isin y_train partition))
  | _ => Raise UnboundLocalError
  end.

(** What the first assertion of the loop raises. *)
Definition size_assertion_error : exn :=
  AssertionError "partitioned dataset should be smaller than original dataset".

(** The body of the loop over the blocks, threading the two result lists. *)
Fixpoint split_loop {A} (x_train : ndarray A) (y_train : ndarray nat)
  (blocks : list (list nat))
  (partitioned_x_train : list (ndarray A)) (partitioned_y_train : list (ndarray nat))
  : result (list (ndarray A) * list (ndarray nat)) :=
  match blocks with
  | [] => Ok (partitioned_x_train, partitioned_y_train)
  | partition :: rest =>
      (selected <- selected_mask y_train partition ;;
       x_train_selected <- mask_index x_train selected ;;
       if negb (shape0 x_train_selected <? shape0 x_train)
       then Raise size_assertion_error
       else
         y_train_selected <- mask_index y_train selected ;;
         if negb (shape0 x_train_selected =? shape0 y_train_selected)
         then Raise (AssertionError EmptyString)
         else split_loop x_train y_train rest
                (partitioned_x_train ++ [x_train_selected])
                (partitioned_y_train ++ [y_train_selected]))%res
  end.

Definition split_training_data_into_paritions {A}
  (x_train : ndarray A) (y_train : ndarray nat) (num_partitions : nat)
  : result (list (ndarray A) * list (ndarray nat)) :=
  (blocks <- partitioned_classes num_partitions ;;
   split_loop x_train y_train blocks [] [])%res.

(* ================================================================= *)
(** ** The skewed split: grouping by label and dealing out *)

(** [len(a)] *)
Definition py_len {A} (a : ndarray A) : result nat :=
  match shape a with
  | [] => Raise TypeError
  | n :: _ => Ok n
  end.

(** [label = y_train[i]] used as a list index: an integer only when
    [y_train] has one dimension. *)
Definition label_at (y_train : ndarray nat) (i : nat) : result nat :=
  match shape y_train with
  | [_] => match nth_error (flat y_train) i with
           | Some l => Ok l
           | None => Raise IndexError
           end
  | _ => Raise TypeError
  end.

(** The first loop of [create_skewed_partition_split]: entry [i] is appended
    to the bucket of its label. *)
Fixpoint group_by_label {A} (x_train : ndarray A) (y_train : ndarray nat)
  (indices : list nat)
  (x_train_by_label : list (list (ndarray A))) (y_train_by_label : list (list nat))
  : result (list (list (ndarray A)) * list (list nat)) :=
  match indices with
  | [] => Ok (x_train_by_label, y_train_by_label)
  | i :: rest =>
      (label <- label_at y_train i ;;
       if negb (label <? length x_train_by_label) then Raise IndexError
       else
         x_i <- get_row x_train i ;;
         group_by_label x_train y_train rest
           (list_update x_train_by_label label (fun b => b ++ [x_i]))
           (list_update y_train_by_label label (fun b => b ++ [label])))%res
  end.

(* ----------------------------------------------------------------- *)
(** *** Double-precision arithmetic *)

(** Python's [float]: IEEE 754 binary64, by the same specification (53
    bits of precision, exponent bound 1024). *)
Definition float64 : Type := spec_float.

(** The double nearest to an integer (ties to even). *)
Definition f64_of_nat (n : nat) : float64 := binary_normalize 53 1024 (Z.of_nat n) 0 false.

Definition f64_mul (x y : float64) : float64 := SFmul 53 1024 x y.

Definition f64_leb (x y : float64) : bool := SFleb x y.

(** The conversion of an integer operand of a float operation:
    [OverflowError] for an integer beyond the doubles. *)
Definition py_float (n : nat) : result float64 :=
  match f64_of_nat n with
  | S754_infinity _ => Raise OverflowError
  | x => Ok x
  end.

(** [int(f)]: truncation towards zero; [OverflowError] for an infinity and
    [ValueError] for a NaN. *)
Definition py_int_f64 (f : float64) : result Z :=
  match f with
  | S754_zero _ => Ok 0%Z
  | S754_finite sign m e =>
      let magnitude := if (0 <=? e)%Z then Z.shiftl (Zpos m) e else Z.shiftr (Zpos m) (- e) in
      Ok (if sign then (- magnitude)%Z else magnitude)
  | S754_infinity _ => Raise OverflowError
  | S754_nan => Raise (ValueError "cannot convert float NaN to integer")
  end.

(** [int(num_samples * skew_factor)]: the integer is converted to a
    double, the product is rounded to a double, and [int] truncates it. *)
Definition num_samples_for_node_1 (num_samples : nat) (skew_factor : float64) : result Z :=
  (x <- py_float num_samples ;;
   py_int_f64 (f64_mul x skew_factor))%res.

(** The second loop: class [i] is cut at [int(num_samples * skew_factor)];
    the head goes to the slot [int(i / 5)], the tail to the slot
    [int(i / 5) - 1]. *)
Fixpoint skew_loop {A} (skew_factor : float64)
  (x_train_by_label : list (list (ndarray A))) (y_train_by_label : list (list nat))
  (classes : list nat)
  (skewed_partitioned_x_train : list (list (ndarray A)))
  (skewed_partitioned_y_train : list (list nat))
  : result (list (list (ndarray A)) * list (list nat)) :=
  match classes with
  | [] => Ok (skewed_partitioned_x_train, skewed_partitioned_y_train)
  | i :: rest =>
      (xs <- py_getitem x_train_by_label (Z.of_nat i) ;;
       k <- num_samples_for_node_1 (length xs) skew_factor ;;
       ys <- py_getitem y_train_by_label (Z.of_nat i) ;;
       head_x <- py_index (length skewed_partitioned_x_train) (Z.of_nat (i / 5)) ;;
       head_y <- py_index (length skewed_partitioned_y_train) (Z.of_nat (i / 5)) ;;
       let sx := list_update skewed_partitioned_x_train head_x
                   (fun p => p ++ py_slice_to xs k) in
       let sy := list_update skewed_partitioned_y_train head_y
                   (fun p => p ++ py_slice_to ys k) in
       tail_x <- py_index (length sx) (Z.of_nat (i / 5) - 1) ;;
       tail_y <- py_index (length sy) (Z.of_nat (i / 5) - 1) ;;
       skew_loop skew_factor x_train_by_label y_train_by_label rest
         (list_update sx tail_x (fun p => p ++ py_slice_from xs k))
         (list_update sy tail_y (fun p => p ++ py_slice_from ys k)))%res
  end.

(* ================================================================= *)
(** ** The runner object *)

(** The attributes the modelled methods read.  The four data attributes are
    bound by [get_original_data] and only for a known dataset; the two
    partition attributes are bound by the code that uses the runner. *)
Record runner : Type := Runner {
  num_nodes : nat;
  batch_size : nat;
  lr : float64;
  dataset : string;
  net : string;
  x_train : option (ndarray Z);
  y_train : option (ndarray nat);
  x_test : option (ndarray Z);
  y_test : option (ndarray nat);
  partitioned_x_train : option (list (ndarray float32));
  partitioned_y_train : option (list (ndarray nat))
}.

Definition set_original_data (r : runner)
  (train test : ndarray Z * ndarray nat) : runner :=
  Runner (num_nodes r) (batch_size r) (lr r) (dataset r) (net r)
         (Some (fst train)) (Some (snd train)) (Some (fst test)) (Some (snd test))
         (partitioned_x_train r) (partitioned_y_train r).

(** What the four return values of a splitting strategy are. *)
Definition split_result : Type :=
  (list (ndarray float32) * list (ndarray nat) * ndarray float32 * ndarray nat)%type.

Definition test_labels (r : split_result) : ndarray nat := snd r.
Definition test_images (r : split_result) : ndarray float32 := snd (fst r).
Definition train_labels (r : split_result) : list (ndarray nat) := snd (fst (fst r)).
Definition train_images (r : split_result) : list (ndarray float32) := fst (fst (fst r)).

(* ================================================================= *)
(** ** The per-node training dataloader *)

(** [get_train_dataloader_for_node] is a generator function.  A generator
    object is modelled by its control point and local variables. *)
Inductive dataloader : Type :=
| Created (node_idx : Z)
    (** the body has not started *)
| AtWhile (partition_idx : Z)
    (partitioned_x_train : list (ndarray float32)) (partitioned_y_train : list (ndarray nat))
    (** about to test [while True] *)
| InFor (partition_idx : Z)
    (partitioned_x_train : list (ndarray float32)) (partitioned_y_train : list (ndarray nat))
    (remaining : list nat)
    (** inside the [for] loop, [remaining] being what is left of its range *)
| Finished.
    (** the body has returned or raised *)

(** What one step of the body does. *)
Inductive event : Type :=
| Yield (x_train_batch : ndarray float32) (y_train_batch : ndarray nat)
| Silent
| StopIteration
| Throw (e : exn).

Definition step (r : runner) (g : dataloader) : event * dataloader :=
  match g with
  | Created node_idx =>
      match partitioned_x_train r, partitioned_y_train r with
      | Some px, Some py => (Silent, AtWhile node_idx px py)
      | _, _ => (Throw AttributeError, Finished)
      end
  | AtWhile partition_idx px py =>
      match py_getitem px partition_idx with
      | Raise e => (Throw e, Finished)
      | Ok x =>
          match py_len x with
          | Raise e => (Throw e, Finished)
          | Ok n =>
              if batch_size r =? 0
              then (Throw (ValueError "range() arg 3 must not be zero"%string), Finished)
              else (Silent, InFor partition_idx px py (py_range 0 n (batch_size r)))
          end
      end
  | InFor partition_idx px py [] => (Silent, AtWhile partition_idx px py)
  | InFor partition_idx px py (i :: remaining) =>
      match py_getitem px partition_idx with
      | Raise e => (Throw e, Finished)
      | Ok x =>
          match py_getitem py partition_idx with
          | Raise e => (Throw e, Finished)
          | Ok y =>
              (Yield (slice_rows x i (i + batch_size r)) (slice_rows y i (i + batch_size r)),
               InFor partition_idx px py remaining)
          end
      end
  | Finished => (StopIteration, Finished)
  end.

(** [next(g)]: the body runs to its next yield, return or exception.  [None]
    when [fuel] steps were not enough. *)
Fixpoint next (fuel : nat) (r : runner) (g : dataloader) : option (event * dataloader) :=
  match fuel with
  | 0 => None
  | S fuel' =>
      match step r g with
      | (Silent, g') => next fuel' r g'
      | (ev, g') => Some (ev, g')
      end
  end.

(** Exhausting the generator ([for batch in g: ...], [list(g)]): the batches
    it yields until it stops.  [None] when [fuel] steps were not enough. *)
Fixpoint exhaust (fuel : nat) (r : runner) (g : dataloader)
  : option (result (list (ndarray float32 * ndarray nat))) :=
  match fuel with
  | 0 => None
  | S fuel' =>
      match step r g with
      | (Silent, g') => exhaust fuel' r g'
      | (Yield x y, g') =>
          match exhaust fuel' r g' with
          | Some (Ok batches) => Some (Ok ((x, y) :: batches))
          | other => other
          end
      | (StopIteration, _) => Some (Ok [])
      | (Throw e, _) => Some (Raise e)
      end
  end.

(** The first [k] calls of [next], each with [fuel] steps at most. *)
Fixpoint batches (k fuel : nat) (r : runner) (g : dataloader)
  : option (list (ndarray float32 * ndarray nat)) :=
  match k with
  | 0 => Some []
  | S k' =>
      match next fuel r g with
      | Some (Yield x y, g') =>
          match batches k' fuel r g' with
          | Some rest => Some ((x, y) :: rest)
          | None => None
          end
      | _ => None
      end
  end.

(* ================================================================= *)
(** ** The runner's methods *)

Section Monad.

(** The world outside the object: NumPy's global random generator and the
    deep-learning framework behind the dataset loaders and model builders. *)
Variable Env : Type.

Record state : Type := State { self : runner; env : Env }.

(** Computations that read and write the object and the world and may
    raise. *)
Definition M (A : Type) : Type := state -> result A * state.

Definition ret {A} (a : A) : M A := fun s => (Ok a, s).

Definition bind {A B} (m : M A) (f : A -> M B) : M B :=
  fun s => match m s with
           | (Ok a, s') => f a s'
           | (Raise e, s') => (Raise e, s')
           end.

Definition raise {A} (e : exn) : M A := fun s => (Raise e, s).

Definition lift {A} (r : result A) : M A := fun s => (r, s).

(** [self.attr] for an attribute bound in [__init__]. *)
Definition getattr {A} (attr : runner -> A) : M A :=
  fun s => (Ok (attr (self s)), s).

(** [self.attr] for an attribute that may not be bound yet. *)
Definition getattr_bound {A} (attr : runner -> option A) : M A :=
  fun s => match attr (self s) with
           | Some a => (Ok a, s)
           | None => (Raise AttributeError, s)
           end.

(** Assignment to attributes. *)
Definition setattr (update : runner -> runner) : M unit :=
  fun s => (Ok tt, State (update (self s)) (env s)).

(** A call into the world. *)
Definition extern {A} (f : Env -> A * Env) : M A :=
  fun s => let (a, e) := f (env s) in (Ok a, State (self s) e).

End Monad.

Arguments State {Env} self env.
Arguments ret {Env A} a _.
Arguments raise {Env A} e _.
Arguments lift {Env A} r _.

Declare Scope runner_scope.
Delimit Scope runner_scope with M.
Notation "x <- m ;; k" := (bind m (fun x => k))
  (at level 61, m at next level, right associativity) : runner_scope.
Notation "m ;; k" := (bind m (fun _ => k))
  (at level 61, right associativity) : runner_scope.

Section Runner.

Variable Env : Type.

(** [np.random.permutation(n)] *)
Variable np_random_permutation : nat -> Env -> list nat * Env.

(** [mnist.load_data()] and [cifar10.load_data()] *)
Variable mnist_load_data : Env -> (ndarray Z * ndarray nat) * (ndarray Z * ndarray nat) * Env.
Variable cifar10_load_data : Env -> (ndarray Z * ndarray nat) * (ndarray Z * ndarray nat) * Env.

(** The models, [SimpleMnistModel(lr=lr).run()] and
    [ResNetModelBuilder(lr=lr, net=net, weights=weights).run()]: the two
    builders are imported from modules outside this file. *)
Variable Model : Type.
Variable SimpleMnistModel_run : float64 -> Env -> Model * Env.
Variable ResNetModelBuilder_run : float64 -> string -> string -> Env -> Model * Env.

Local Open Scope runner_scope.

(** [[body() for _ in range(n)]] *)
Fixpoint comprehension {A} (n : nat) (body : M Env A) : M Env (list A) :=
  match n with
  | 0 => ret []
  | S n' => a <- body ;; rest <- comprehension n' body ;; ret (a :: rest)
  end.

Definition create_models : M Env (option (list Model)) :=
  ds <- getattr dataset ;;
  nt <- getattr net ;;
  (if String.eqb ds "mnist"
   then (if String.eqb nt "simple" then ret tt
         else raise (AssertionError ("Net not supported: " ++ nt ++ " for mnist")))
   else ret tt) ;;
  if String.eqb nt "simple" then
    n <- getattr num_nodes ;;
    models <- comprehension n (rate <- getattr lr ;; extern (SimpleMnistModel_run rate)) ;;
    ret (Some models)
  else if String.eqb nt "resnet50" then
    n <- getattr num_nodes ;;
    models <- comprehension n
                (rate <- getattr lr ;;
                 extern (ResNetModelBuilder_run rate "ResNet50" "imagenet")) ;;
    ret (Some models)
  else ret None.

Definition get_original_data : M Env unit :=
  ds <- getattr dataset ;;
  if String.eqb ds "mnist" then
    d <- extern mnist_load_data ;;
    setattr (fun r => set_original_data r (fst d) (snd d))
  else if String.eqb ds "cifar10" then
    d <- extern cifar10_load_data ;;
    setattr (fun r => set_original_data r (fst d) (snd d))
  else ret tt.

Definition normalize_data (data : ndarray Z) : M Env (ndarray float32) :=
  image_size <- lift (shape_at data 1) ;;
  ds <- getattr dataset ;;
  reshaped_data <-
    (if String.eqb ds "mnist"
     then lift (np_reshape_infer data [image_size; image_size; 1])
     else if String.eqb ds "cifar10"
     then lift (np_reshape_infer data [image_size; image_size; 3])
     else raise (ValueError ("Dataset not supported: " ++ ds))) ;;
  ret (np_true_divide (astype_float32 reshaped_data) 255).

Definition random_split : M Env split_result :=
  num_partitions <- getattr num_nodes ;;
  x_train0 <- getattr_bound x_train ;;
  x_train1 <- normalize_data x_train0 ;;
  x_test0 <- getattr_bound x_test ;;
  x_test1 <- normalize_data x_test0 ;;
  let num_train := shape0 x_train1 in
  indices <- extern (np_random_permutation num_train) ;;
  x_train2 <- lift (int_index x_train1 indices) ;;
  y_train0 <- getattr_bound y_train ;;
  y_train1 <- lift (int_index y_train0 indices) ;;
  partitioned_x <- lift (np_array_split x_train2 num_partitions) ;;
  partitioned_y <- lift (np_array_split y_train1 num_partitions) ;;
  y_test0 <- getattr_bound y_test ;;
  ret (partitioned_x, partitioned_y, x_test1, y_test0).

(** One round of the final loop of [create_skewed_partition_split]: both
    arrays of a partition are reordered by one random permutation. *)
Definition shuffle_partition (x : ndarray float32) (y : ndarray nat)
  : M Env (ndarray float32 * ndarray nat) :=
  let num_train := shape0 x in
  indices <- extern (np_random_permutation num_train) ;;
  x' <- lift (int_index x indices) ;;
  y' <- lift (int_index y indices) ;;
  ret (x', y').

Definition create_skewed_partition_split (skew_factor : float64) : M Env split_result :=
  x_train0 <- getattr_bound x_train ;;
  x_train1 <- normalize_data x_train0 ;;
  x_test0 <- getattr_bound x_test ;;
  x_test1 <- normalize_data x_test0 ;;
  y_train0 <- getattr_bound y_train ;;
  n <- lift (py_len y_train0) ;;
  by_label <- lift (group_by_label x_train1 y_train0 (py_range 0 n 1)
                      (repeat [] 10) (repeat [] 10)) ;;
  skewed <- lift (skew_loop skew_factor (fst by_label) (snd by_label) (py_range 0 10 1)
                    [[]; []] [[]; []]) ;;
  let x0 := np_asarray (nth 0 (fst skewed) []) in
  let x1 := np_asarray (nth 1 (fst skewed) []) in
  let y0 := np_asarray_scalars (nth 0 (snd skewed) []) in
  let y1 := np_asarray_scalars (nth 1 (snd skewed) []) in
  p0 <- shuffle_partition x0 y0 ;;
  p1 <- shuffle_partition x1 y1 ;;
  y_test0 <- getattr_bound y_test ;;
  ret ([fst p0; fst p1], [snd p0; snd p1], x_test1, y_test0).

Definition create_partitioned_datasets : M Env split_result :=
  num_partitions <- getattr num_nodes ;;
  x_train0 <- getattr_bound x_train ;;
  x_train1 <- normalize_data x_train0 ;;
  x_test0 <- getattr_bound x_test ;;
  x_test1 <- normalize_data x_test0 ;;
  y_train0 <- getattr_bound y_train ;;
  partitioned <- lift (split_training_data_into_paritions x_train1 y_train0 num_partitions) ;;
  y_test0 <- getattr_bound y_test ;;
  ret (fst partitioned, snd partitioned, x_test1, y_test0).

End Runner.

(* ================================================================= *)
(** ** Vocabulary of the properties *)

(** The number of colour channels [normalize_data] gives each dataset. *)
Definition channels (ds : string) : option nat :=
  if String.eqb ds "mnist" then Some 1
  else if String.eqb ds "cifar10" then Some 3
  else None.

(** A pixel divided by 255 in single precision. *)
Definition normalized_pixel (v : Z) : float32 := f32_div (f32_of_Z v) (f32_of_Z 255).

(** [0 <= v <= 1] on single-precision values. *)
Definition in_unit_interval (v : float32) : Prop :=
  f32_leb (f32_of_Z 0) v = true /\ f32_leb v (f32_of_Z 1) = true.

(* ================================================================= *)
(** ** Sample data *)

(** Four 2x2 grey images with their labels, two test images. *)
Definition sample_x_train : ndarray Z :=
  NDArray [4; 2; 2] [0; 255; 51; 102;  10; 20; 30; 40;  255; 255; 0; 0;  1; 2; 3; 4]%Z.

Definition sample_y_train : ndarray nat := NDArray [4] [0; 7; 3; 9].

Definition sample_x_test : ndarray Z :=
  NDArray [2; 2; 2] [5; 6; 7; 8;  200; 201; 202; 203]%Z.

Definition sample_y_test : ndarray nat := NDArray [2] [1; 8].

(** The learning rate 0.001 in double precision. *)
Definition sample_lr : float64 :=
  SFdiv 53 1024 (binary_normalize 53 1024 1 0 false) (binary_normalize 53 1024 1000 0 false).

Definition sample_runner : runner :=
  Runner 2 2 sample_lr "mnist" "simple"
         (Some sample_x_train) (Some sample_y_train)
         (Some sample_x_test) (Some sample_y_test)
         None None.

(** A world with nothing in it, for running the methods on sample data. *)
Definition sample_state : state unit := State sample_runner tt.

(** Six pixels in two rows of three: not a whole number of 3x3 images. *)
Definition ragged_data : ndarray Z := NDArray [2; 3] [1; 2; 3; 4; 5; 6]%Z.

(** The label of an entry of [y_train]: the entry itself when [y_train] has
    one dimension, its first column when it has two. *)
Definition label_of (row : list nat) : nat := hd 0 row.

Definition in_block (block : list nat) (label : nat) : bool :=
  existsb (Nat.eqb label) block.

(** A label array as the loaders give it: one-dimensional, or
    two-dimensional with at least one column. *)
Definition label_array (y : ndarray nat) : Prop :=
  well_shaped y
  /\ ((exists n, shape y = [n]) \/ (exists n c, shape y = [n; c] /\ 0 < c)).

(** The training samples: every entry of [x] with the entry of [y] at the
    same index. *)
Definition samples {A B} (x : ndarray A) (y : ndarray B) : list (list A * list B) :=
  combine (rows x) (rows y).

(** A block holds the label of every training sample. *)
Definition covers (block : list nat) (y : ndarray nat) : bool :=
  forallb (fun row => in_block block (label_of row)) (rows y).

(** The mask the loop computes for a block. *)
Definition block_mask (block : list nat) (y : ndarray nat) : list bool :=
  map (fun row => in_block block (label_of row)) (rows y).

(** The partition of a block: the entries of [a] at the indices whose label
    lies in the block. *)
Definition partition_of {A} (block : list nat) (y : ndarray nat) (a : ndarray A) : ndarray A :=
  with_rows a (select (block_mask block y) (rows a)).

(** One training sample, three training samples. *)
Definition one_block_x : ndarray Z := NDArray [2; 1] [7; 8]%Z.
Definition one_block_y : ndarray nat := NDArray [2] [1; 2].
Definition four_x : ndarray Z := NDArray [4; 1] [10; 11; 12; 13]%Z.
Definition four_y : ndarray nat := NDArray [4] [0; 3; 6; 9].

(** An array [normalize_data] accepts for the dataset [ds]. *)
Definition normalizable (ds : string) (data : ndarray Z) : Prop :=
  exists image_size C,
    shape_at data 1 = Ok image_size
    /\ channels ds = Some C
    /\ 0 < image_size
    /\ size data mod (image_size * image_size * C) = 0.

(** What [normalize_data] returns for it. *)
Definition normalized (ds : string) (data : ndarray Z) : ndarray float32 :=
  match shape_at data 1, channels ds with
  | Ok image_size, Some C =>
      NDArray [size data / (image_size * image_size * C); image_size; image_size; C]
              (map normalized_pixel (flat data))
  | _, _ => NDArray [0] []
  end.

(** The object holds a training set and a test set as [get_original_data]
    stores them: images that [normalize_data] accepts and one entry of
    labels per training image. *)
Definition loaded (r : runner)
  (xt : ndarray Z) (yt : ndarray nat) (xe : ndarray Z) (ye : ndarray nat) : Prop :=
  x_train r = Some xt /\ y_train r = Some yt /\ x_test r = Some xe /\ y_test r = Some ye
  /\ well_shaped xt /\ well_shaped yt
  /\ normalizable (dataset r) xt /\ normalizable (dataset r) xe
  /\ exists inner, shape yt = shape0 (normalized (dataset r) xt) :: inner.

(** The entries of [a] at the given indices. *)
Definition rows_at {A} (a : ndarray A) (indices : list nat) : list (list A) :=
  map (fun i => nth i (rows a) []) indices.

(** The training samples of all partitions, partition after partition. *)
Definition partition_samples {A B} (px : list (ndarray A)) (py : list (ndarray B))
  : list (list A * list B) :=
  concat (map (fun p => samples (fst p) (snd p)) (combine px py)).

(** A generator of permutations that reverses. *)
Definition reversing_permutation (n : nat) (e : unit) : list nat * unit := (rev (seq 0 n), e).

(** The entries [a[0], a[1], ...] as arrays. *)
Definition entries {A} (a : ndarray A) : list (ndarray A) :=
  map (NDArray (tl (shape a))) (rows a).

(** The training samples of a one-dimensional label array: every entry of
    [x] with its label. *)
Definition labelled {A} (x : ndarray A) (y : ndarray nat) : list (list A * nat) :=
  combine (rows x) (flat y).

(** The samples of one class, in their original order. *)
Definition of_class {T} (c : nat) (l : list (T * nat)) : list (T * nat) :=
  filter (fun p => snd p =? c) l.

(** A double in [0, 1]. *)
Definition unit_double (s : float64) : Prop :=
  valid_binary 53 1024 s = true
  /\ f64_leb (f64_of_nat 0) s = true /\ f64_leb s (f64_of_nat 1) = true.

(** Where a class of [n] samples is cut: at [int(n * s)] as the code
    computes it, within the bounds of the slice [[:k]]. *)
Definition skew_count (n : nat) (s : float64) : nat :=
  match num_samples_for_node_1 n s with
  | Ok k => py_slice_bound n k
  | Raise _ => 0
  end.

(** What the node [j] is dealt of the class [c]: the samples before the
    cut when [c] is one of its own classes ([c / 5 = j]), the remaining
    ones otherwise. *)
Definition dealt {T} (s : float64) (j c : nat) (l : list T) : list T :=
  if c / 5 =? j then firstn (skew_count (length l) s) l
  else skipn (skew_count (length l) s) l.

(** What the node [j] is dealt of all ten classes. *)
Definition node_share {T} (s : float64) (j : nat) (l : list (T * nat)) : list (T * nat) :=
  concat (map (fun c => dealt s j c (of_class c l)) (seq 0 10)).

(** The class blocks of a number of partitions (none when the blocks
    cannot be built). *)
Definition class_blocks (num_partitions : nat) : list (list nat) :=
  match partitioned_classes num_partitions with
  | Ok blocks => blocks
  | Raise _ => []
  end.

(** A call returned the stored test labels themselves and the normalised
    copy of the stored test images. *)
Definition returns_test_set (r : runner) (res : result split_result) : Prop :=
  match res with
  | Ok v =>
      y_test r = Some (test_labels v)
      /\ exists xe, x_test r = Some xe /\ test_images v = normalized (dataset r) xe
  | Raise _ => True
  end.

(** [n] successive calls of a builder: the models it made and the world it
    left. *)
Fixpoint built {Env Model} (build : Env -> Model * Env) (n : nat) (e : Env)
  : list Model * Env :=
  match n with
  | 0 => ([], e)
  | S n' =>
      let (m, e1) := build e in
      let (ms, e2) := built build n' e1 in
      (m :: ms, e2)
  end.

(** Builders for a world that counts the models built so far: a model is
    its architecture and its serial number. *)
Definition counting_simple (rate : float64) (e : nat) : (string * nat) * nat :=
  (("simple"%string, e), S e).

Definition counting_resnet (rate : float64) (arch weights : string) (e : nat)
  : (string * nat) * nat :=
  ((arch, e), S e).

(** A runner whose only partition holds one 1x1 image, with batches of
    one. *)
Definition loader_runner : runner :=
  Runner 1 1 sample_lr "mnist" "simple" None None None None
         (Some [NDArray [1; 1; 1; 1] [S754_zero false]])
         (Some [NDArray [1] [3]]).

(** The control points of a dataloader that has not failed. *)
Definition live (r : runner) (node_idx : Z) (g : dataloader) : Prop :=
  exists px py,
    partitioned_x_train r = Some px /\ partitioned_y_train r = Some py
    /\ (g = Created node_idx
        \/ g = AtWhile node_idx px py
        \/ exists remaining, g = InFor node_idx px py remaining).

(** A computation that leaves the object [r] as it is and whose result,
    when it returns, satisfies [Q]. *)
Definition reads {Env A} (r : runner) (m : M Env A) (Q : A -> Prop) : Prop :=
  forall s, self s = r ->
    self (snd (m s)) = r
    /\ match fst (m s) with
       | Ok a => Q a
       | Raise _ => True
       end.

(** The [j]-th batch of an endless walk over a partition [x], [y] by
    batches of [b] entries: the walk wraps around after
    [ceil(len(x) / b)] batches. *)
Definition batch_at (x : ndarray float32) (y : ndarray nat) (b j : nat)
  : ndarray float32 * ndarray nat :=
  let batches_per_pass := (shape0 x + (b - 1)) / b in
  let i := (j mod batches_per_pass) * b in
  (slice_rows x i (i + b), slice_rows y i (i + b)).

(* ----------------------------------------------------------------- *)
(** *** Skew factors *)

(** The rational a finite double stands for. *)
Definition f64_to_Q (f : float64) : Q :=
  match f with
  | S754_finite sign m e =>
      Qmult (inject_Z (if sign then Zneg m else Zpos m)) (Qpower (2 # 1) e)
  | _ => 0%Q
  end.

(** The double nearest to [p / q]. *)
Definition f64_ratio (p q : nat) : float64 := SFdiv 53 1024 (f64_of_nat p) (f64_of_nat q).

(** The default argument [skew_factor: float = 0.90]: the double nearest
    to nine tenths. *)
Definition default_skew_factor_f64 : float64 := f64_ratio 9 10.

(** [k] images of one pixel, all of the class 0, and one test image. *)
Definition one_class_runner (k : nat) : runner :=
  Runner 2 2 sample_lr "mnist" "simple"
         (Some (NDArray [k; 1; 1] (repeat 7%Z k))) (Some (NDArray [k] (repeat 0 k)))
         (Some (NDArray [1; 1; 1] [9%Z])) (Some (NDArray [1] [0]))
         None None.

(** Six images of one pixel: three of the class 0, two of the class 7, one
    of the class 3. *)
Definition skewed_x_train : ndarray Z := NDArray [6; 1; 1] [10; 20; 30; 40; 50; 60]%Z.
Definition skewed_y_train : ndarray nat := NDArray [6] [0; 7; 0; 3; 7; 0].

Definition skewed_runner : runner :=
  Runner 2 2 sample_lr "mnist" "simple"
         (Some skewed_x_train) (Some skewed_y_train)
         (Some sample_x_test) (Some sample_y_test) None None.

(** The number of labels in each partition of labels. *)
Definition partition_sizes (res : result split_result) : option (list nat) :=
  match res with
  | Ok v => Some (map (fun q => length (flat q)) (train_labels v))
  | Raise _ => None
  end.

(* ================================================================= *)
(** ** The constructor *)

(** The configuration dictionary, by the keys [__init__] reads: [None] for
    a key the dictionary does not hold. *)
Record config : Type := Config {
  cfg_num_nodes : option nat;
  cfg_batch_size : option nat;
  cfg_epochs : option nat;
  cfg_steps_per_epoch : option nat;
  cfg_lr : option float64;
  cfg_test_steps : option nat;
  cfg_use_async : option bool;
  cfg_federated_type : option string;
  cfg_strategy : option string;
  cfg_data_split : option string;
  cfg_dataset : option string;
  cfg_net : option string
}.

(** The attributes [__init__] binds that no method of the class reads. *)
Record settings : Type := Settings {
  stored_config : config;
  epochs : nat;
  steps_per_epoch : nat;
  test_steps : option nat;
  use_async : bool;
  federated_type : string;
  strategy_name : string;
  data_split : string;
  tracking : bool
}.

(** What a call of the constructor ends with: the object, or the
    [KeyError] of the first key the dictionary does not hold, or the
    exception of [get_original_data]. *)
Inductive constructed (Env : Type) : Type :=
| Constructed (extra : settings) (s : state Env)
| KeyError (key : string)
| Failed (e : exn).

Arguments Constructed {Env} extra s.
Arguments KeyError {Env} key.
Arguments Failed {Env} e.

(** [config[key]] *)
Definition subscript {Env A} (key : string) (value : option A)
  (k : A -> constructed Env) : constructed Env :=
  match value with
  | Some a => k a
  | None => KeyError key
  end.

Section Constructor.

Variable Env : Type.
Variable mnist_load_data : Env -> (ndarray Z * ndarray nat) * (ndarray Z * ndarray nat) * Env.
Variable cifar10_load_data : Env -> (ndarray Z * ndarray nat) * (ndarray Z * ndarray nat) * Env.

(** [BaseExperimentRunner(config, tracking)] in the world [e]. *)
Definition init (cfg : config) (tracking_flag : bool) (e : Env) : constructed Env :=
  subscript "num_nodes" (cfg_num_nodes cfg) (fun num_nodes_v =>
  subscript "batch_size" (cfg_batch_size cfg) (fun batch_size_v =>
  subscript "epochs" (cfg_epochs cfg) (fun epochs_v =>
  subscript "steps_per_epoch" (cfg_steps_per_epoch cfg) (fun steps_per_epoch_v =>
  subscript "lr" (cfg_lr cfg) (fun lr_v =>
  let test_steps_v := cfg_test_steps cfg in
  subscript "use_async" (cfg_use_async cfg) (fun use_async_v =>
  subscript "federated_type" (cfg_federated_type cfg) (fun federated_type_v =>
  subscript "strategy" (cfg_strategy cfg) (fun strategy_v =>
  subscript "data_split" (cfg_data_split cfg) (fun data_split_v =>
  subscript "dataset" (cfg_dataset cfg) (fun dataset_v =>
  subscript "net" (cfg_net cfg) (fun net_v =>
  let extra := Settings cfg epochs_v steps_per_epoch_v test_steps_v use_async_v
                        federated_type_v strategy_v data_split_v tracking_flag in
  let fresh := Runner num_nodes_v batch_size_v lr_v dataset_v net_v
                      None None None None None None in
  match get_original_data mnist_load_data cifar10_load_data (State fresh e) with
  | (Ok _, s) => Constructed extra s
  | (Raise err, _) => Failed err
  end))))))))))).

End Constructor.

(* ================================================================= *)
(** ** More vocabulary *)

(** [u < v] on single-precision values. *)
Definition f32_ltb (x y : float32) : bool := SFltb x y.

(** A key is in the dictionary. *)
Definition holds {A} (value : option A) : bool :=
  match value with
  | Some _ => true
  | None => false
  end.

(** The keys [__init__] subscripts, in the order of the source, each with
    whether the dictionary holds it. *)
Definition required_keys (cfg : config) : list (string * bool) :=
  [ ("num_nodes"%string, holds (cfg_num_nodes cfg));
    ("batch_size"%string, holds (cfg_batch_size cfg));
    ("epochs"%string, holds (cfg_epochs cfg));
    ("steps_per_epoch"%string, holds (cfg_steps_per_epoch cfg));
    ("lr"%string, holds (cfg_lr cfg));
    ("use_async"%string, holds (cfg_use_async cfg));
    ("federated_type"%string, holds (cfg_federated_type cfg));
    ("strategy"%string, holds (cfg_strategy cfg));
    ("data_split"%string, holds (cfg_data_split cfg));
    ("dataset"%string, holds (cfg_dataset cfg));
    ("net"%string, holds (cfg_net cfg)) ].

(** A configuration with every key, for MNIST and two nodes. *)
Definition sample_config : config :=
  Config (Some 2) (Some 32) (Some 256) (Some 8) (Some sample_lr) None
         (Some false) (Some "concurrent"%string) (Some "fedavg"%string)
         (Some "random"%string) (Some "mnist"%string) (Some "simple"%string).

(** A configuration with the five keys that the dictionary of the
    [__main__] block of the source holds. *)
Definition main_config : config :=
  Config (Some 2) (Some 32) (Some 256) (Some 8) (Some sample_lr) None
         None None None None None None.

(** Loaders for a world with nothing in it: the sample data. *)
Definition sample_load_data (e : unit)
  : (ndarray Z * ndarray nat) * (ndarray Z * ndarray nat) * unit :=
  ((sample_x_train, sample_y_train), (sample_x_test, sample_y_test), e).

(** What the constructor returns for [sample_config] with these loaders. *)
Definition sample_settings : settings :=
  Settings sample_config 256 8 None false "concurrent" "fedavg" "random" false.

Definition sample_constructed : state unit :=
  State (Runner 2 32 sample_lr "mnist" "simple"
                (Some sample_x_train) (Some sample_y_train)
                (Some sample_x_test) (Some sample_y_test) None None) tt.

(** A configuration for a dataset the runner has no loader for, and what
    the constructor returns for it. *)
Definition unsupported_config : config :=
  Config (Some 2) (Some 32) (Some 256) (Some 8) (Some sample_lr) None
         (Some false) (Some "concurrent"%string) (Some "fedavg"%string)
         (Some "random"%string) (Some "fashion_mnist"%string) (Some "simple"%string).

Definition unsupported_settings : settings :=
  Settings unsupported_config 256 8 None false "concurrent" "fedavg" "random" false.

Definition unsupported_constructed : state unit :=
  State (Runner 2 32 sample_lr "fashion_mnist" "simple" None None None None None None) tt.

(** The sample training images with their channel axis written out. *)
Definition sample_x_train_channel : ndarray Z := NDArray [4; 2; 2; 1] (flat sample_x_train).

(** Four pixels in a row: an array of one dimension. *)
Definition flat_pixels : ndarray Z := NDArray [4] [1; 2; 3; 4]%Z.

(** Labels of three dimensions, and three labels for four images. *)
Definition cube_labels : ndarray nat := NDArray [4; 1; 1] [0; 7; 3; 9].
Definition three_labels : ndarray nat := NDArray [3] [0; 7; 3].

(** A partition of three 1x1 images, and an empty one. *)
Definition pass_x : ndarray float32 :=
  NDArray [3; 1; 1; 1] [normalized_pixel 0; normalized_pixel 51; normalized_pixel 255].
Definition pass_y : ndarray nat := NDArray [3] [4; 1; 8].
Definition empty_x : ndarray float32 := NDArray [0; 1; 1; 1] [].
Definition empty_y : ndarray nat := NDArray [0] [].

(** A runner with that partition and batches of two, and a runner of two
    nodes of which the second has the empty partition. *)
Definition pass_runner : runner :=
  Runner 1 2 sample_lr "mnist" "simple" None None None None
         (Some [pass_x]) (Some [pass_y]).

Definition sparse_runner : runner :=
  Runner 2 2 sample_lr "mnist" "simple" None None None None
         (Some [pass_x; empty_x]) (Some [pass_y; empty_y]).

(** Two 1x1 colour images with their labels in the layout of the CIFAR-10
    loader (one row per image), one test image. *)
Definition cifar_x_train : ndarray Z := NDArray [2; 1; 1; 3] [10; 20; 30; 40; 50; 60]%Z.
Definition cifar_y_train : ndarray nat := NDArray [2; 1] [3; 7].
Definition cifar_x_test : ndarray Z := NDArray [1; 1; 1; 3] [1; 2; 3]%Z.
Definition cifar_y_test : ndarray nat := NDArray [1; 1] [5].

Definition cifar_runner : runner :=
  Runner 2 2 sample_lr "cifar10" "resnet50"
         (Some cifar_x_train) (Some cifar_y_train)
         (Some cifar_x_test) (Some cifar_y_test) None None.

(** The sample images with a label beyond the ten classes. *)
Definition wide_y_train : ndarray nat := NDArray [4] [0; 12; 3; 9].

Definition wide_label_runner : runner :=
  Runner 2 2 sample_lr "mnist" "simple"
         (Some sample_x_train) (Some wide_y_train)
         (Some sample_x_test) (Some sample_y_test) None None.

(** The sample data for no node and for six nodes. *)
Definition sample_runner_for (nodes : nat) : runner :=
  Runner nodes 2 sample_lr "mnist" "simple"
         (Some sample_x_train) (Some sample_y_train)
         (Some sample_x_test) (Some sample_y_test) None None.

(** Builders for the world with nothing in it: a model is its
    architecture. *)
Definition plain_simple (rate : float64) (e : unit) : string * unit :=
  ("simple"%string, e).

Definition plain_resnet (rate : float64) (arch weights : string) (e : unit) : string * unit :=
  (arch, e).

(* ================================================================= *)
(** * Properties *)

Unset Implicit Arguments.

(** ** Normalisation *)

Lemma normalized_pixel_range (v : Z) :
  (0 <= v <= 255)%Z -> in_unit_interval (normalized_pixel v).
Proof.
  intros Hv.
  assert (Hall : forallb (fun n => f32_leb (f32_of_Z 0) (normalized_pixel (Z.of_nat n))
                                   && f32_leb (normalized_pixel (Z.of_nat n)) (f32_of_Z 1))
                         (seq 0 256) = true) by (vm_compute; reflexivity).
  rewrite forallb_forall in Hall.
  specialize (Hall (Z.to_nat v)).
  rewrite Z2Nat.id in Hall by lia.
  apply andb_true_iff. apply Hall.
  apply in_seq. lia.
Qed.

Example normalized_pixel_0 : normalized_pixel 0 = S754_zero false.
Proof. reflexivity. Qed.

Example normalized_pixel_255 : normalized_pixel 255 = S754_finite false 8388608 (-23).
Proof. reflexivity. Qed.

Example normalized_pixel_51 : normalized_pixel 51 = S754_finite false 13421773 (-26).
Proof. reflexivity. Qed.

Section Normalisation.

Variable Env : Type.

Lemma channels_cases (ds : string) :
  (ds = "mnist"%string /\ channels ds = Some 1)
  \/ (ds = "cifar10"%string /\ channels ds = Some 3)
  \/ (ds <> "mnist"%string /\ ds <> "cifar10"%string /\ channels ds = None).
Proof.
  unfold channels.
  destruct (String.eqb_spec ds "mnist") as [-> | Hm]; [left; split; reflexivity |].
  destruct (String.eqb_spec ds "cifar10") as [-> | Hc]; [right; left; split; reflexivity |].
  right; right. repeat split; assumption.
Qed.

(** [normalize_data] only reads the object. *)
Lemma normalize_data_frame (data : ndarray Z) (s : state Env) :
  snd (normalize_data data s) = s.
Proof.
  unfold normalize_data, bind, lift, getattr, raise, ret.
  destruct (shape_at data 1); simpl; [| reflexivity].
  destruct (String.eqb _ "mnist").
  - destruct (np_reshape_infer _ _); reflexivity.
  - destruct (String.eqb _ "cifar10").
    + destruct (np_reshape_infer _ _); reflexivity.
    + reflexivity.
Qed.

(** What [normalize_data] computes for a known dataset. *)
Lemma normalize_data_known (data : ndarray Z) (s : state Env) (image_size C : nat) :
  shape_at data 1 = Ok image_size ->
  channels (dataset (self s)) = Some C ->
  normalize_data data s =
    (match np_reshape_infer data [image_size; image_size; C] with
     | Ok reshaped => Ok (np_true_divide (astype_float32 reshaped) 255)
     | Raise e => Raise e
     end, s).
Proof.
  intros Hshape HC.
  unfold normalize_data, bind, lift, getattr, raise, ret. rewrite Hshape. simpl.
  unfold channels in HC.
  destruct (String.eqb (dataset (self s)) "mnist").
  - injection HC as <-. destruct (np_reshape_infer _ _); reflexivity.
  - destruct (String.eqb (dataset (self s)) "cifar10"); [| discriminate].
    injection HC as <-. destruct (np_reshape_infer _ _); reflexivity.
Qed.

Lemma normalize_data_unknown (data : ndarray Z) (s : state Env) (image_size : nat) :
  shape_at data 1 = Ok image_size ->
  channels (dataset (self s)) = None ->
  normalize_data data s =
    (Raise (ValueError ("Dataset not supported: " ++ dataset (self s))), s).
Proof.
  intros Hshape HC.
  unfold normalize_data, bind, lift, getattr, raise, ret. rewrite Hshape. simpl.
  unfold channels in HC.
  destruct (String.eqb (dataset (self s)) "mnist"); [discriminate |].
  destruct (String.eqb (dataset (self s)) "cifar10"); [discriminate |].
  reflexivity.
Qed.

Lemma np_reshape_infer_ok {A} (a : ndarray A) (image_size C : nat) :
  0 < image_size -> 0 < C ->
  size a mod (image_size * image_size * C) = 0 ->
  np_reshape_infer a [image_size; image_size; C] =
    Ok (NDArray [size a / (image_size * image_size * C); image_size; image_size; C] (flat a)).
Proof.
  intros Hi HC Hmod. unfold np_reshape_infer.
  assert (E : prod_dims [image_size; image_size; C] = image_size * image_size * C)
    by (simpl; lia).
  rewrite E.
  assert (Hpos : image_size * image_size * C <> 0) by nia.
  destruct (Nat.eqb_spec (image_size * image_size * C) 0) as [H0 | _]; [contradiction |].
  rewrite Hmod. reflexivity.
Qed.

Lemma np_reshape_infer_fails {A} (a : ndarray A) (image_size C : nat) :
  ~ (0 < image_size /\ size a mod (image_size * image_size * C) = 0) ->
  0 < C ->
  np_reshape_infer a [image_size; image_size; C] = Raise (ValueError "cannot reshape array").
Proof.
  intros Hnot HC. unfold np_reshape_infer.
  assert (E : prod_dims [image_size; image_size; C] = image_size * image_size * C)
    by (simpl; lia).
  rewrite E.
  destruct (Nat.eqb_spec (image_size * image_size * C) 0) as [H0 | Hn]; [reflexivity |].
  destruct (Nat.eqb_spec (size a mod (image_size * image_size * C)) 0) as [Hm | _];
    [| reflexivity].
  exfalso. apply Hnot. split; [| assumption].
  destruct image_size; [simpl in Hn; congruence | lia].
Qed.

Lemma channels_positive (ds : string) (C : nat) : channels ds = Some C -> 0 < C.
Proof.
  destruct (channels_cases ds) as [[_ H] | [[_ H] | [_ [_ H]]]]; rewrite H; intros E;
    try discriminate; injection E as <-; lia.
Qed.

(** C6.  Normalisation postcondition: for a dataset that is "mnist" (C = 1)
    or "cifar10" (C = 3) and an array whose second dimension [image_size] is
    positive, whose size is a multiple of [image_size * image_size * C] and
    whose entries lie in 0..255, [normalize_data] returns, without touching
    the object, the array of shape [N, image_size, image_size, C] that holds
    the input's elements in order, each divided by 255 in single precision,
    and every one of its values lies in [0, 1]. *)
Theorem normalize_data_postcondition
  (data : ndarray Z) (s : state Env) (image_size C : nat) :
  shape_at data 1 = Ok image_size ->
  channels (dataset (self s)) = Some C ->
  0 < image_size ->
  size data mod (image_size * image_size * C) = 0 ->
  Forall (fun v => 0 <= v <= 255)%Z (flat data) ->
  exists out,
    normalize_data data s = (Ok out, s)
    /\ shape out = [size data / (image_size * image_size * C); image_size; image_size; C]
    /\ flat out = map normalized_pixel (flat data)
    /\ Forall in_unit_interval (flat out).
Proof.
  intros Hshape HC Hpos Hmod Hrange.
  rewrite (normalize_data_known data s _ _ Hshape HC).
  rewrite (np_reshape_infer_ok data _ _ Hpos (channels_positive _ _ HC) Hmod).
  eexists. split; [reflexivity |].
  simpl. rewrite map_map. fold normalized_pixel.
  repeat split.
  rewrite Forall_forall in *. intros v Hin.
  apply in_map_iff in Hin. destruct Hin as (z & <- & Hz).
  apply normalized_pixel_range. apply Hrange. assumption.
Qed.

(** C7, as amended.  For an array with a second dimension [image_size],
    [normalize_data] raises its own "Dataset not supported" [ValueError]
    if and only if the dataset is neither "mnist" nor "cifar10"; for those
    two datasets, with C channels, it returns if and only if [image_size]
    is positive and the size of the array is a multiple of
    [image_size * image_size * C], and otherwise raises the [ValueError]
    of [np.reshape]. *)
Theorem normalize_data_raises (data : ndarray Z) (s : state Env) (image_size : nat) :
  shape_at data 1 = Ok image_size ->
  (fst (normalize_data data s)
     = Raise (ValueError ("Dataset not supported: " ++ dataset (self s)))
   <-> (dataset (self s) <> "mnist"%string /\ dataset (self s) <> "cifar10"%string))
  /\ (forall C, channels (dataset (self s)) = Some C ->
        (is_Ok (fst (normalize_data data s)) = true
         <-> (0 < image_size /\ size data mod (image_size * image_size * C) = 0))
        /\ (is_Ok (fst (normalize_data data s)) = false ->
            fst (normalize_data data s) = Raise (ValueError "cannot reshape array"))).
Proof.
  intros Hshape. split.
  - destruct (channels_cases (dataset (self s))) as [[E HC] | [[E HC] | [Hm [Hc HC]]]].
    + rewrite (normalize_data_known data s _ _ Hshape HC). simpl. split.
      * intros H. exfalso. unfold np_reshape_infer in H.
        destruct (_ || _) in H; [| discriminate].
        rewrite E in H. discriminate.
      * intros [Hm _]. contradiction.
    + rewrite (normalize_data_known data s _ _ Hshape HC). simpl. split.
      * intros H. exfalso. unfold np_reshape_infer in H.
        destruct (_ || _) in H; [| discriminate].
        rewrite E in H. discriminate.
      * intros [_ Hc]. contradiction.
    + rewrite (normalize_data_unknown data s _ Hshape HC). simpl. split; auto.
  - intros C HC. rewrite (normalize_data_known data s _ _ Hshape HC). simpl.
    pose proof (channels_positive _ _ HC) as HCpos.
    split.
    + split.
      * intros Hok.
        destruct (Nat.eq_dec image_size 0) as [-> | Hnz].
        { unfold np_reshape_infer in Hok. simpl in Hok. discriminate. }
        destruct (Nat.eq_dec (size data mod (image_size * image_size * C)) 0) as [Hm | Hm].
        { split; [lia | assumption]. }
        rewrite np_reshape_infer_fails in Hok; [discriminate | | assumption].
        intros [_ H]. contradiction.
      * intros [Hpos Hmod]. rewrite (np_reshape_infer_ok data _ _ Hpos HCpos Hmod). reflexivity.
    + intros Hfail.
      destruct (Nat.eq_dec image_size 0) as [-> | Hnz]; [reflexivity |].
      destruct (Nat.eq_dec (size data mod (image_size * image_size * C)) 0) as [Hm | Hm].
      * rewrite np_reshape_infer_ok in Hfail by (try assumption; lia). discriminate.
      * rewrite np_reshape_infer_fails; [reflexivity | | assumption].
        intros [_ H]. contradiction.
Qed.

End Normalisation.

(** C7, counterexample.  With the dataset "mnist", six pixels in two rows
    of three are not a whole number of 3x3 images: [normalize_data] raises
    the [ValueError] of [np.reshape]. *)
Lemma normalize_data_raises_for_mnist :
  dataset (self sample_state) = "mnist"%string
  /\ fst (normalize_data ragged_data sample_state) = Raise (ValueError "cannot reshape array").
Proof. split; reflexivity. Qed.

(* ================================================================= *)
(** ** The definitions on small inputs *)

Example py_range_0_5_2 : py_range 0 5 2 = [0; 2; 4].
Proof. reflexivity. Qed.

Example py_index_last : py_index 2 (-1) = Ok 1.
Proof. reflexivity. Qed.

Example py_slice_to_negative : py_slice_to [1; 2; 3] (-1) = [1; 2].
Proof. reflexivity. Qed.

Example partitioned_classes_2 :
  partitioned_classes 2 = Ok [[0; 1; 2; 3; 4]; [5; 6; 7; 8; 9]].
Proof. reflexivity. Qed.

Example partitioned_classes_3 :
  partitioned_classes 3 = Ok [[0; 1; 2]; [3; 4; 5]; [6; 7; 8]; [9]].
Proof. reflexivity. Qed.

Example partitioned_classes_0 : partitioned_classes 0 = Raise ZeroDivisionError.
Proof. reflexivity. Qed.

Example partitioned_classes_11 :
  partitioned_classes 11 = Raise (ValueError "range() arg 3 must not be zero").
Proof. reflexivity. Qed.

Example section_sizes_10_3 : section_sizes 10 3 = [4; 3; 3].
Proof. reflexivity. Qed.

Example rows_sample_x_train :
  rows sample_x_train
  = [[0; 255; 51; 102]; [10; 20; 30; 40]; [255; 255; 0; 0]; [1; 2; 3; 4]]%Z.
Proof. reflexivity. Qed.

Example mask_index_sample :
  mask_index sample_x_train [true; false; false; true]
  = Ok (NDArray [2; 2; 2] [0; 255; 51; 102; 1; 2; 3; 4]%Z).
Proof. reflexivity. Qed.

Example mask_index_short_mask : mask_index sample_x_train [true; false] = Raise IndexError.
Proof. reflexivity. Qed.

Example num_samples_for_node_1_default :
  num_samples_for_node_1 7 default_skew_factor_f64 = Ok 6%Z.
Proof. reflexivity. Qed.

Example split_sample :
  split_training_data_into_paritions sample_x_train sample_y_train 2
  = Ok ([NDArray [2; 2; 2] [0; 255; 51; 102; 255; 255; 0; 0]%Z;
         NDArray [2; 2; 2] [10; 20; 30; 40; 1; 2; 3; 4]%Z],
        [NDArray [2] [0; 3]; NDArray [2] [7; 9]]).
Proof. reflexivity. Qed.

Example skewed_split_sample_labels :
  option_map (fun v : split_result => map (@flat nat) (train_labels v))
    (match fst (create_skewed_partition_split reversing_permutation (f64_ratio 1 2) sample_state) with
     | Ok v => Some v
     | Raise _ => None
     end)
  = Some [[9; 7]; [3; 0]].
Proof. vm_compute. reflexivity. Qed.

(** The default skew factor is 0x1.ccccccccccccdp-1. *)
Example default_skew_factor_bits :
  default_skew_factor_f64 = S754_finite false 8106479329266893 (-53).
Proof. reflexivity. Qed.

(** For the default skew factor and every class of up to 7000 samples (the
    classes of MNIST and CIFAR-10 are smaller), the cut the code computes in
    double precision is [floor(9 * n / 10)]. *)
Example default_skew_factor_exact :
  forallb (fun n =>
             match num_samples_for_node_1 n default_skew_factor_f64 with
             | Ok k => Z.eqb k (9 * Z.of_nat n / 10)
             | Raise _ => false
             end)
          (seq 0 (7 * 1000 + 1)) = true.
Proof. vm_compute. reflexivity. Qed.

(** The rounding of the product shows in the cut: ten times the double
    nearest to 0.7 rounds up to 7.0, a hundred times the double nearest to
    0.29 rounds to a double below 29. *)
Example num_samples_for_node_1_rounding :
  num_samples_for_node_1 10 (f64_ratio 7 10) = Ok 7%Z
  /\ Qfloor (inject_Z 10 * f64_to_Q (f64_ratio 7 10)) = 6%Z
  /\ num_samples_for_node_1 100 (f64_ratio 29 100) = Ok 28%Z
  /\ Qfloor (inject_Z 100 * (29 # 100)) = 29%Z.
Proof. vm_compute. repeat split; reflexivity. Qed.

(* ================================================================= *)
(** ** Lists and arrays *)

Section ListFacts.

Context {A : Type}.

Lemma chunks_length (k n : nat) (l : list A) : length (chunks k n l) = n.
Proof.
  revert l. induction n as [| n IH]; intros l; simpl; [reflexivity |].
  now rewrite IH.
Qed.

Lemma chunks_concat (k : nat) (rs : list (list A)) :
  Forall (fun r => length r = k) rs ->
  chunks k (length rs) (concat rs) = rs.
Proof.
  induction 1 as [| r rs Hr _ IH]; simpl; [reflexivity |].
  rewrite firstn_app, <- Hr, Nat.sub_diag, firstn_all. simpl. rewrite app_nil_r.
  rewrite skipn_app, Nat.sub_diag, skipn_all. simpl.
  rewrite Hr in *. now rewrite IH.
Qed.

Lemma chunks_Forall_length (k n : nat) (l : list A) :
  n * k <= length l ->
  Forall (fun r => length r = k) (chunks k n l).
Proof.
  revert l. induction n as [| n IH]; intros l Hl; simpl; constructor.
  - rewrite length_firstn. simpl in Hl. lia.
  - apply IH. rewrite length_skipn. simpl in Hl. lia.
Qed.

Lemma concat_chunks (k n : nat) (l : list A) :
  length l = n * k -> concat (chunks k n l) = l.
Proof.
  revert l. induction n as [| n IH]; intros l Hl; simpl.
  - destruct l; [reflexivity | discriminate].
  - rewrite IH by (rewrite length_skipn; simpl in Hl; lia).
    apply firstn_skipn.
Qed.

Lemma select_length_le (mask : list bool) (rs : list A) :
  length (select mask rs) <= length rs.
Proof.
  unfold select. revert rs. induction mask as [| b mask IH]; intros [| r rs]; simpl; try lia.
  destruct b; simpl; specialize (IH rs); lia.
Qed.

Lemma select_Forall (P : A -> Prop) (mask : list bool) (rs : list A) :
  Forall P rs -> Forall P (select mask rs).
Proof.
  unfold select. intros H. revert mask.
  induction H as [| r rs Hr _ IH]; intros [| b mask]; simpl; try constructor.
  destruct b; simpl; [constructor; [assumption | apply IH] | apply IH].
Qed.

(** How many entries a mask selects depends on the mask alone. *)
Lemma select_length (mask : list bool) (rs : list A) :
  length mask = length rs ->
  length (select mask rs) = length (filter (fun b => b) mask).
Proof.
  unfold select. revert rs.
  induction mask as [| b mask IH]; intros [| r rs] H; simpl in *; try discriminate;
    [reflexivity |].
  injection H as H. destruct b; simpl; now rewrite IH.
Qed.

(** A mask selects fewer entries than there are exactly when it is not
    true everywhere. *)
Lemma select_all_iff (mask : list bool) (rs : list A) :
  length mask = length rs ->
  (length (select mask rs) <? length rs) = negb (forallb (fun b => b) mask).
Proof.
  unfold select. revert rs.
  induction mask as [| b mask IH]; intros [| r rs] H; simpl in *; try discriminate;
    [reflexivity |].
  injection H as H. specialize (IH rs H).
  pose proof (select_length_le mask rs) as Hle. unfold select in Hle.
  destruct b; simpl.
  - rewrite <- IH. destruct (Nat.ltb_spec (length (map snd (filter fst (combine mask rs)))) (length rs));
      destruct (Nat.ltb_spec (S (length (map snd (filter fst (combine mask rs))))) (S (length rs)));
      try reflexivity; lia.
  - apply Nat.ltb_lt. lia.
Qed.

End ListFacts.

(** Selecting from two lists by one mask keeps the pairs together. *)
Lemma select_combine {A B} (f : B -> bool) (xs : list A) (ys : list B) :
  length xs = length ys ->
  combine (select (map f ys) xs) (select (map f ys) ys)
  = filter (fun p => f (snd p)) (combine xs ys).
Proof.
  unfold select. revert ys.
  induction xs as [| x xs IH]; intros [| y ys] H; simpl in *; try discriminate;
    [reflexivity |].
  injection H as H. destruct (f y); simpl; now rewrite IH.
Qed.

Lemma chunks_map {A B} (f : A -> B) (k n : nat) (l : list A) :
  chunks k n (map f l) = map (map f) (chunks k n l).
Proof.
  revert l. induction n as [| n IH]; intros l; simpl; [reflexivity |].
  now rewrite firstn_map, skipn_map, IH.
Qed.

Section ArrayFacts.

Context {A : Type}.

Lemma rows_length (a : ndarray A) : length (rows a) = shape0 a.
Proof. apply chunks_length. Qed.

Lemma size_split (a : ndarray A) (n : nat) (inner : list nat) :
  shape a = n :: inner -> size a = n * row_size a.
Proof. unfold size, row_size. intros ->. reflexivity. Qed.

(** Every entry along the first axis has [row_size] elements. *)
Lemma rows_Forall_length (a : ndarray A) (n : nat) (inner : list nat) :
  well_shaped a -> shape a = n :: inner ->
  Forall (fun r => length r = row_size a) (rows a).
Proof.
  intros Hw Hs. unfold rows. apply chunks_Forall_length.
  unfold well_shaped in Hw. rewrite Hw, (size_split a _ _ Hs).
  unfold shape0. rewrite Hs. simpl. lia.
Qed.

Lemma concat_rows (a : ndarray A) (n : nat) (inner : list nat) :
  well_shaped a -> shape a = n :: inner -> concat (rows a) = flat a.
Proof.
  intros Hw Hs. unfold rows. apply concat_chunks.
  unfold well_shaped in Hw. rewrite Hw, (size_split a _ _ Hs).
  unfold shape0. rewrite Hs. reflexivity.
Qed.

(** The entries of an array rebuilt from entries of the right length. *)
Lemma rows_with_rows (a : ndarray A) (rs : list (list A)) :
  Forall (fun r => length r = row_size a) rs ->
  rows (with_rows a rs) = rs.
Proof.
  intros H. unfold rows, with_rows, row_size, shape0. simpl.
  now apply chunks_concat.
Qed.

Lemma with_rows_well_shaped (a : ndarray A) (rs : list (list A)) :
  Forall (fun r => length r = row_size a) rs ->
  well_shaped (with_rows a rs).
Proof.
  intros H. unfold well_shaped, with_rows, size, row_size in *. simpl.
  induction H as [| r rs Hr _ IH]; simpl; [reflexivity |].
  rewrite length_app, IH, Hr. reflexivity.
Qed.

Lemma rows_map_array {B} (f : A -> B) (a : ndarray A) :
  rows (map_array f a) = map (map f) (rows a).
Proof. unfold rows, map_array, row_size, shape0. simpl. apply chunks_map. Qed.

End ArrayFacts.

(* ================================================================= *)
(** ** The class-partitioned split *)

Lemma label_array_rows (y : ndarray nat) :
  label_array y -> Forall (fun r => r <> []) (rows y).
Proof.
  intros [Hw [[n Hs] | [n [c [Hs Hc]]]]].
  - pose proof (rows_Forall_length y _ _ Hw Hs) as H.
    unfold row_size in H. rewrite Hs in H. simpl in H.
    eapply Forall_impl; [| exact H]. intros [| ? ?]; simpl; [discriminate | congruence].
  - pose proof (rows_Forall_length y _ _ Hw Hs) as H.
    unfold row_size in H. rewrite Hs in H. simpl in H.
    eapply Forall_impl; [| exact H]. intros [| ? ?]; simpl; [lia | congruence].
Qed.

Lemma label_array_shape (y : ndarray nat) :
  label_array y -> exists inner, shape y = shape0 y :: inner.
Proof.
  intros [_ [[n Hs] | [n [c [Hs _]]]]]; unfold shape0; rewrite Hs; eauto.
Qed.

(** The mask of a block is computed from the labels, for both layouts of
    [y_train]. *)
Lemma selected_mask_spec (y : ndarray nat) (block : list nat) :
  label_array y -> selected_mask y block = Ok (block_mask block y).
Proof.
  intros Hy. pose proof (label_array_rows _ Hy) as Hne.
  destruct Hy as [Hw [[n Hs] | [n [c [Hs Hc]]]]]; unfold selected_mask, block_mask; rewrite Hs; simpl.
  - f_equal. rewrite <- (concat_rows y _ _ Hw Hs) at 1.
    pose proof (rows_Forall_length y _ _ Hw Hs) as Hlen.
    unfold row_size in Hlen. rewrite Hs in Hlen. simpl in Hlen.
    induction Hlen as [| r rs Hr _ IH]; simpl; [reflexivity |].
    destruct r as [| v [| ? ?]]; try discriminate. simpl. f_equal.
    inversion Hne; subst. now apply IH.
  - unfold column0. simpl. rewrite Hs.
    destruct (Nat.eqb_spec c 0) as [-> | _]; [lia |].
    f_equal. unfold np_isin. rewrite (rows_map_array _ y), map_map.
    apply map_ext_in. intros r Hin.
    rewrite Forall_forall in Hne. specialize (Hne r Hin).
    destruct r; [contradiction | reflexivity].
Qed.

Lemma block_mask_length (block : list nat) (y : ndarray nat) :
  length (block_mask block y) = shape0 y.
Proof. unfold block_mask. now rewrite length_map, rows_length. Qed.

Lemma covers_block_mask (block : list nat) (y : ndarray nat) :
  forallb (fun b => b) (block_mask block y) = covers block y.
Proof.
  unfold block_mask, covers. induction (rows y) as [| r rs IH]; simpl; [reflexivity |].
  now rewrite IH.
Qed.

Section SplitLoop.

Context {A : Type}.
Variables (x_train : ndarray A) (y_train : ndarray nat).
Variables (n : nat) (inner : list nat).
Hypothesis x_well_shaped : well_shaped x_train.
Hypothesis x_shape : shape x_train = n :: inner.
Hypothesis y_labels : label_array y_train.
Hypothesis y_entries : shape0 y_train = n.

Lemma shape0_x : shape0 x_train = n.
Proof. unfold shape0. now rewrite x_shape. Qed.

Lemma mask_index_x (block : list nat) :
  mask_index x_train (block_mask block y_train) = Ok (partition_of block y_train x_train).
Proof.
  unfold mask_index. rewrite x_shape, block_mask_length, y_entries, Nat.eqb_refl.
  reflexivity.
Qed.

Lemma mask_index_y (block : list nat) :
  mask_index y_train (block_mask block y_train) = Ok (partition_of block y_train y_train).
Proof.
  unfold mask_index. destruct (label_array_shape _ y_labels) as [inner' Hs].
  rewrite Hs, block_mask_length, Nat.eqb_refl. reflexivity.
Qed.

Lemma partition_of_shape0 {B} (block : list nat) (a : ndarray B) :
  shape0 a = n ->
  shape0 (partition_of block y_train a)
  = length (filter (fun b => b) (block_mask block y_train)).
Proof.
  intros Ha. unfold partition_of, with_rows, shape0 at 1. simpl.
  apply select_length. now rewrite block_mask_length, rows_length, Ha.
Qed.

(** The first assertion fails exactly for a block that covers every label. *)
Lemma smaller_iff_not_covered (block : list nat) :
  (shape0 (partition_of block y_train x_train) <? shape0 x_train)
  = negb (covers block y_train).
Proof.
  unfold partition_of, with_rows, shape0 at 1. simpl.
  rewrite <- covers_block_mask, <- (rows_length x_train).
  apply select_all_iff. now rewrite block_mask_length, rows_length, shape0_x.
Qed.

(** The loop over the blocks: it returns one partition per block, in order,
    when no block covers every label, and otherwise fails the first
    assertion. *)
Lemma split_loop_spec (blocks : list (list nat))
  (acc_x : list (ndarray A)) (acc_y : list (ndarray nat)) :
  split_loop x_train y_train blocks acc_x acc_y =
    if forallb (fun block => negb (covers block y_train)) blocks
    then Ok (acc_x ++ map (fun block => partition_of block y_train x_train) blocks,
             acc_y ++ map (fun block => partition_of block y_train y_train) blocks)
    else Raise size_assertion_error.
Proof.
  revert acc_x acc_y. induction blocks as [| block rest IH]; intros acc_x acc_y; simpl.
  - now rewrite !app_nil_r.
  - rewrite (selected_mask_spec _ block y_labels). simpl.
    rewrite mask_index_x. simpl.
    rewrite smaller_iff_not_covered.
    destruct (covers block y_train); simpl; [reflexivity |].
    rewrite mask_index_y. simpl.
    rewrite (partition_of_shape0 block x_train shape0_x).
    rewrite (partition_of_shape0 block y_train y_entries).
    rewrite Nat.eqb_refl. simpl.
    rewrite IH, <- !app_assoc. reflexivity.
Qed.

(** The samples of a partition are the samples whose label lies in its
    block, in their original order and with their original labels. *)
Lemma partition_of_samples (block : list nat) :
  samples (partition_of block y_train x_train) (partition_of block y_train y_train)
  = filter (fun p => in_block block (label_of (snd p))) (samples x_train y_train).
Proof.
  unfold samples, partition_of.
  destruct (label_array_shape _ y_labels) as [inner' Hs].
  rewrite !rows_with_rows.
  - unfold block_mask.
    apply (select_combine (fun row => in_block block (label_of row))).
    now rewrite !rows_length, shape0_x, y_entries.
  - apply select_Forall. eapply rows_Forall_length; [apply y_labels | exact Hs].
  - apply select_Forall. eapply rows_Forall_length; eassumption.
Qed.

End SplitLoop.

Lemma in_block_low (label : nat) : in_block [0; 1; 2; 3; 4] label = (label <? 5).
Proof. do 5 (destruct label as [| label]; [reflexivity |]). reflexivity. Qed.

Lemma in_block_high (label : nat) :
  in_block [5; 6; 7; 8; 9] label = (5 <=? label) && (label <? 10).
Proof. do 10 (destruct label as [| label]; [reflexivity |]). reflexivity. Qed.

Lemma in_block_all (label : nat) : in_block (seq 0 10) label = (label <? 10).
Proof. do 10 (destruct label as [| label]; [reflexivity |]). reflexivity. Qed.

Lemma covers_false_iff (block : list nat) (y : ndarray nat) :
  covers block y = false <-> Exists (fun row => in_block block (label_of row) = false) (rows y).
Proof.
  unfold covers. induction (rows y) as [| r rs IH]; simpl.
  - split; [discriminate | intros H; inversion H].
  - rewrite andb_false_iff, Exists_cons, IH. reflexivity.
Qed.

Lemma covers_true_iff (block : list nat) (y : ndarray nat) :
  covers block y = true <-> Forall (fun row => in_block block (label_of row) = true) (rows y).
Proof. unfold covers. rewrite forallb_forall, Forall_forall. reflexivity. Qed.

Section Split.

Context {A : Type}.
Variables (x_train : ndarray A) (y_train : ndarray nat).
Variables (n : nat) (inner : list nat).
Hypothesis x_well_shaped : well_shaped x_train.
Hypothesis x_shape : shape x_train = n :: inner.
Hypothesis y_labels : label_array y_train.
Hypothesis y_entries : shape0 y_train = n.

Lemma split_spec (num_partitions : nat) (blocks : list (list nat)) :
  partitioned_classes num_partitions = Ok blocks ->
  split_training_data_into_paritions x_train y_train num_partitions =
    if forallb (fun block => negb (covers block y_train)) blocks
    then Ok (map (fun block => partition_of block y_train x_train) blocks,
             map (fun block => partition_of block y_train y_train) blocks)
    else Raise size_assertion_error.
Proof.
  intros Hb. unfold split_training_data_into_paritions. rewrite Hb. simpl.
  rewrite (split_loop_spec x_train y_train n inner x_shape y_labels y_entries).
  reflexivity.
Qed.

Lemma low_block_not_covering :
  Exists (fun row => 5 <= label_of row < 10) (rows y_train) ->
  covers [0; 1; 2; 3; 4] y_train = false.
Proof.
  intros H. apply covers_false_iff. eapply Exists_impl; [| exact H].
  intros row Hr. cbv beta in Hr. rewrite in_block_low. apply Nat.ltb_ge. lia.
Qed.

Lemma high_block_not_covering :
  Exists (fun row => label_of row < 5) (rows y_train) ->
  covers [5; 6; 7; 8; 9] y_train = false.
Proof.
  intros H. apply covers_false_iff. eapply Exists_impl; [| exact H].
  intros row Hr. cbv beta in Hr. rewrite in_block_high. apply andb_false_iff. left. apply Nat.leb_gt. lia.
Qed.

(** C1, as amended.  For [num_partitions = 2], a well-shaped [x_train] with
    one entry per label and a one- or two-dimensional [y_train] that holds
    at least one label of 0-4 and one of 5-9,
    [split_training_data_into_paritions] returns two partitions: partition
    0 holds exactly the training samples whose label is in 0-4, partition
    1 those whose label is in 5-9, each image with its own label and in the
    original order. *)
Theorem split_membership :
  Exists (fun row => label_of row < 5) (rows y_train) ->
  Exists (fun row => 5 <= label_of row < 10) (rows y_train) ->
  exists x0 x1 y0 y1,
    split_training_data_into_paritions x_train y_train 2 = Ok ([x0; x1], [y0; y1])
    /\ samples x0 y0
       = filter (fun p => label_of (snd p) <? 5) (samples x_train y_train)
    /\ samples x1 y1
       = filter (fun p => (5 <=? label_of (snd p)) && (label_of (snd p) <? 10))
                (samples x_train y_train)
    /\ shape0 x0 = shape0 y0
    /\ shape0 x1 = shape0 y1.
Proof.
  intros Hlow Hhigh.
  rewrite (split_spec 2 [[0; 1; 2; 3; 4]; [5; 6; 7; 8; 9]] eq_refl).
  simpl. rewrite (low_block_not_covering Hhigh), (high_block_not_covering Hlow). simpl.
  do 4 eexists. split; [reflexivity |].
  rewrite !(partition_of_samples x_train y_train n inner x_well_shaped x_shape y_labels y_entries).
  repeat split.
  - apply filter_ext. intros p. apply in_block_low.
  - apply filter_ext. intros p. apply in_block_high.
  - rewrite (partition_of_shape0 y_train n y_entries _ x_train), (partition_of_shape0 y_train n y_entries _ y_train);
      [reflexivity | exact y_entries | unfold shape0; now rewrite x_shape].
  - rewrite (partition_of_shape0 y_train n y_entries _ x_train), (partition_of_shape0 y_train n y_entries _ y_train);
      [reflexivity | exact y_entries | unfold shape0; now rewrite x_shape].
Qed.

(** C9.  The size assertion of [split_training_data_into_paritions]: with
    [num_partitions = 2] and at least one label of each of the blocks 0-4
    and 5-9, the call passes both assertions and returns; whenever one of
    the class blocks covers every label of [y_train], the call raises the
    [AssertionError] of the size assertion, which is always so for
    [num_partitions = 1] and labels in 0..9. *)
Theorem partition_size_assertion :
  (Exists (fun row => label_of row < 5) (rows y_train) ->
   Exists (fun row => 5 <= label_of row < 10) (rows y_train) ->
   exists partitions,
     split_training_data_into_paritions x_train y_train 2 = Ok partitions)
  /\ (forall num_partitions blocks,
        partitioned_classes num_partitions = Ok blocks ->
        Exists (fun block => covers block y_train = true) blocks ->
        split_training_data_into_paritions x_train y_train num_partitions = Raise size_assertion_error)
  /\ (Forall (fun row => label_of row < 10) (rows y_train) ->
      split_training_data_into_paritions x_train y_train 1 = Raise size_assertion_error).
Proof.
  split; [| split].
  - intros Hlow Hhigh.
    rewrite (split_spec 2 [[0; 1; 2; 3; 4]; [5; 6; 7; 8; 9]] eq_refl).
    simpl. rewrite (low_block_not_covering Hhigh), (high_block_not_covering Hlow). simpl.
    eexists. reflexivity.
  - intros num_partitions blocks Hb Hcov.
    rewrite (split_spec num_partitions blocks Hb).
    replace (forallb (fun block => negb (covers block y_train)) blocks) with false;
      [reflexivity |].
    symmetry. clear Hb. induction Hcov as [block rest Hc | block rest _ IH]; simpl.
    + now rewrite Hc.
    + rewrite IH. apply andb_false_r.
  - intros Hall.
    rewrite (split_spec 1 [seq 0 10] eq_refl). simpl.
    replace (covers _ y_train) with true; [reflexivity |].
    symmetry. apply covers_true_iff. eapply Forall_impl; [| exact Hall].
    intros row Hr. rewrite in_block_all. now apply Nat.ltb_lt.
Qed.

(** The number of partitions is the number of class blocks. *)
Lemma split_count (num_partitions : nat) (blocks : list (list nat)) :
  partitioned_classes num_partitions = Ok blocks ->
  Forall (fun block => covers block y_train = false) blocks ->
  exists px py,
    split_training_data_into_paritions x_train y_train num_partitions = Ok (px, py)
    /\ length px = length blocks /\ length py = length blocks.
Proof.
  intros Hb Hcov. rewrite (split_spec num_partitions blocks Hb).
  replace (forallb (fun block => negb (covers block y_train)) blocks) with true.
  - do 2 eexists. split; [reflexivity |]. now rewrite !length_map.
  - symmetry. apply forallb_forall. rewrite Forall_forall in Hcov.
    intros block Hin. now rewrite (Hcov block Hin).
Qed.

End Split.

(** C1, counterexample.  Two training samples with the labels 1 and 2, both
    of the block 0-4: the call for [num_partitions = 2] returns no
    partitions, it fails the size assertion. *)
Lemma split_one_block_raises :
  split_training_data_into_paritions one_block_x one_block_y 2
  = Raise size_assertion_error.
Proof. reflexivity. Qed.

(** C4, counterexample.  For three nodes the ten classes are cut into
    blocks of three, which makes four blocks: four training samples with
    the labels 0, 3, 6 and 9 are split into four partitions, not three. *)
Lemma split_three_nodes_four_partitions :
  exists px py,
    split_training_data_into_paritions four_x four_y 3 = Ok (px, py)
    /\ length px = 4 /\ length py = 4.
Proof. do 2 eexists. split; [reflexivity | split; reflexivity]. Qed.

(** The number of partitions for every number of nodes from 1 to 10 is
    the number of class blocks, [ceil(10 / (10 / num_partitions))]: 1, 2,
    4, 5, 5, 10, 10, 10, 10 and 10. *)
Theorem class_partition_count {A} (x_train : ndarray A) (y_train : ndarray nat)
  (n : nat) (inner : list nat) (num_partitions : nat) :
  shape x_train = n :: inner ->
  label_array y_train ->
  shape0 y_train = n ->
  1 <= num_partitions <= 10 ->
  Forall (fun block => covers block y_train = false) (class_blocks num_partitions) ->
  exists px py,
    split_training_data_into_paritions x_train y_train num_partitions = Ok (px, py)
    /\ length px = (10 + 10 / num_partitions - 1) / (10 / num_partitions)
    /\ length py = (10 + 10 / num_partitions - 1) / (10 / num_partitions).
Proof.
  intros Hx Hy Hn Hk Hcov.
  assert (Hb : exists blocks,
             partitioned_classes num_partitions = Ok blocks
             /\ length blocks = (10 + 10 / num_partitions - 1) / (10 / num_partitions)).
  { do 11 (destruct num_partitions as [| num_partitions];
           [try lia; eexists; split; reflexivity |]).
    lia. }
  destruct Hb as (blocks & Hb & Hlen).
  unfold class_blocks in Hcov. rewrite Hb in Hcov.
  destruct (split_count x_train y_train n inner Hx Hy Hn num_partitions blocks Hb Hcov)
    as (px & py & Hsplit & Hpx & Hpy).
  exists px, py. split; [exact Hsplit | split; congruence].
Qed.

(** For every number of partitions, when the call returns: the partition
    of every class block holds exactly the training samples whose label
    lies in the block, in their original order, each image with its own
    label. *)
Theorem split_blocks_membership {A} (x_train : ndarray A) (y_train : ndarray nat)
  (n : nat) (inner : list nat) (num_partitions : nat) (blocks : list (list nat)) :
  well_shaped x_train ->
  shape x_train = n :: inner ->
  label_array y_train ->
  shape0 y_train = n ->
  partitioned_classes num_partitions = Ok blocks ->
  Forall (fun block => covers block y_train = false) blocks ->
  exists px py,
    split_training_data_into_paritions x_train y_train num_partitions = Ok (px, py)
    /\ length px = length blocks
    /\ length py = length blocks
    /\ Forall2 (fun block p =>
                  samples (fst p) (snd p)
                  = filter (fun q => in_block block (label_of (snd q)))
                           (samples x_train y_train))
               blocks (combine px py).
Proof.
  intros Hw Hx Hy Hn Hb Hcov.
  exists (map (fun block => partition_of block y_train x_train) blocks),
         (map (fun block => partition_of block y_train y_train) blocks).
  split; [| split; [| split]].
  - rewrite (split_spec x_train y_train n inner Hx Hy Hn num_partitions blocks Hb).
    replace (forallb (fun block => negb (covers block y_train)) blocks) with true;
      [reflexivity |].
    symmetry. apply forallb_forall. rewrite Forall_forall in Hcov.
    intros block Hin. now rewrite (Hcov block Hin).
  - apply length_map.
  - apply length_map.
  - clear Hb Hcov. induction blocks as [| block rest IH]; simpl; constructor.
    + apply (partition_of_samples x_train y_train n inner Hw Hx Hy Hn).
    + exact IH.
Qed.

(* ================================================================= *)
(** ** Indexing and splitting along the first axis *)

Section IndexFacts.

Context {A : Type}.

Lemma map_nth_seq (d : A) (l : list A) :
  map (fun i => nth i l d) (seq 0 (length l)) = l.
Proof.
  induction l as [| a l IH]; simpl; [reflexivity |].
  f_equal. rewrite <- seq_shift, map_map. exact IH.
Qed.

Lemma take_rows_ok (d : A) (rs : list A) (indices : list nat) :
  Forall (fun i => i < length rs) indices ->
  take_rows rs indices = Ok (map (fun i => nth i rs d) indices).
Proof.
  induction 1 as [| i indices Hi _ IH]; simpl; [reflexivity |].
  destruct (nth_error rs i) as [r |] eqn:E.
  - rewrite IH. simpl. f_equal. f_equal. symmetry. now apply nth_error_nth.
  - apply nth_error_None in E. lia.
Qed.

Lemma permutation_indices_bound (n : nat) (indices : list nat) :
  Permutation indices (seq 0 n) -> Forall (fun i => i < n) indices.
Proof.
  intros H. apply Forall_forall. intros i Hi.
  apply (Permutation_in _ H) in Hi. apply in_seq in Hi. lia.
Qed.

Lemma permutation_rows (d : A) (l : list A) (indices : list nat) :
  Permutation indices (seq 0 (length l)) ->
  Permutation (map (fun i => nth i l d) indices) l.
Proof.
  intros H. eapply Permutation_trans.
  - apply Permutation_map. exact H.
  - rewrite map_nth_seq. apply Permutation_refl.
Qed.

Lemma split_by_sizes_length (sizes : list nat) (l : list A) :
  length (split_by_sizes sizes l) = length sizes.
Proof.
  revert l. induction sizes as [| k sizes IH]; intros l; simpl; [reflexivity |].
  now rewrite IH.
Qed.

Lemma split_by_sizes_concat (sizes : list nat) (l : list A) :
  length l <= list_sum sizes -> concat (split_by_sizes sizes l) = l.
Proof.
  revert l. induction sizes as [| k sizes IH]; intros l Hl; simpl in *.
  - destruct l; [reflexivity | simpl in Hl; lia].
  - rewrite IH by (rewrite length_skipn; lia). apply firstn_skipn.
Qed.

Lemma split_by_sizes_lengths (sizes : list nat) (l : list A) :
  list_sum sizes <= length l ->
  map (@length A) (split_by_sizes sizes l) = sizes.
Proof.
  revert l. induction sizes as [| k sizes IH]; intros l Hl; simpl in *; [reflexivity |].
  rewrite length_firstn, IH by (rewrite length_skipn; lia). f_equal. lia.
Qed.

Lemma Forall_firstn_skipn (P : A -> Prop) (k : nat) (l : list A) :
  Forall P l -> Forall P (firstn k l) /\ Forall P (skipn k l).
Proof.
  intros H. rewrite <- (firstn_skipn k l) in H. now apply Forall_app in H.
Qed.

Lemma split_by_sizes_Forall (P : A -> Prop) (sizes : list nat) (l : list A) :
  Forall P l -> Forall (Forall P) (split_by_sizes sizes l).
Proof.
  revert l. induction sizes as [| k sizes IH]; intros l Hl; simpl; constructor.
  - now apply Forall_firstn_skipn.
  - apply IH. now apply Forall_firstn_skipn.
Qed.

End IndexFacts.

Lemma split_by_sizes_combine {A B} (sizes : list nat) (xs : list A) (ys : list B) :
  concat (map (fun p => combine (fst p) (snd p))
              (combine (split_by_sizes sizes xs) (split_by_sizes sizes ys)))
  = concat (split_by_sizes sizes (combine xs ys)).
Proof.
  revert xs ys. induction sizes as [| k sizes IH]; intros xs ys; simpl; [reflexivity |].
  rewrite IH. f_equal.
  - symmetry. apply combine_firstn.
  - f_equal. f_equal. clear IH. revert xs ys.
    induction k as [| k IHk]; intros xs ys; [reflexivity |].
    destruct xs as [| x xs]; [reflexivity |].
    destruct ys as [| y ys]; simpl; [now rewrite combine_nil | apply IHk].
Qed.

Lemma section_sizes_sum (total sections : nat) :
  0 < sections -> list_sum (section_sizes total sections) = total.
Proof.
  intros Hs. unfold section_sizes.
  assert (Hrep : forall v c, list_sum (repeat v c) = c * v).
  { intros v c. induction c as [| c IH]; simpl; [reflexivity | rewrite IH; lia]. }
  rewrite list_sum_app, !Hrep.
  pose proof (Nat.div_mod_eq total sections) as Hdm.
  pose proof (Nat.mod_upper_bound total sections ltac:(lia)) as Hlt.
  nia.
Qed.

Lemma section_sizes_length (total sections : nat) :
  0 < sections -> length (section_sizes total sections) = sections.
Proof.
  intros Hs. unfold section_sizes. rewrite length_app, !repeat_length.
  pose proof (Nat.mod_upper_bound total sections ltac:(lia)). lia.
Qed.

Lemma section_sizes_balanced (total sections : nat) :
  Forall (fun k => total / sections <= k <= total / sections + 1)
         (section_sizes total sections).
Proof.
  unfold section_sizes. apply Forall_app. split; apply Forall_forall; intros k Hk;
    apply repeat_spec in Hk; lia.
Qed.

(* ================================================================= *)
(** ** Running the methods *)

Section MonadFacts.

Context {Env : Type}.

Lemma bind_ok {A B} (m : M Env A) (k : A -> M Env B) (s s' : state Env) (a : A) :
  m s = (Ok a, s') -> bind m k s = k a s'.
Proof. unfold bind. now intros ->. Qed.

Lemma bind_raise {A B} (m : M Env A) (k : A -> M Env B) (s s' : state Env) (e : exn) :
  m s = (Raise e, s') -> bind m k s = (Raise e, s').
Proof. unfold bind. now intros ->. Qed.

Lemma bind_getattr {A B} (attr : runner -> A) (k : A -> M Env B) (s : state Env) :
  bind (getattr attr) k s = k (attr (self s)) s.
Proof. reflexivity. Qed.

Lemma bind_getattr_bound {A B} (attr : runner -> option A) (k : A -> M Env B)
  (s : state Env) (a : A) :
  attr (self s) = Some a -> bind (getattr_bound attr) k s = k a s.
Proof. unfold bind, getattr_bound. now intros ->. Qed.

Lemma bind_lift_ok {A B} (r : result A) (k : A -> M Env B) (s : state Env) (a : A) :
  r = Ok a -> bind (lift r) k s = k a s.
Proof. now intros ->. Qed.

Lemma bind_extern {A B} (f : Env -> A * Env) (k : A -> M Env B) (s : state Env) :
  bind (extern f) k s = k (fst (f (env s))) (State (self s) (snd (f (env s)))).
Proof. unfold bind, extern. now destruct (f (env s)). Qed.

Lemma normalize_data_normalized (data : ndarray Z) (s : state Env) :
  normalizable (dataset (self s)) data ->
  normalize_data data s = (Ok (normalized (dataset (self s)) data), s).
Proof.
  intros (image_size & C & Hshape & HC & Hpos & Hmod).
  rewrite (normalize_data_known Env data s image_size C Hshape HC).
  rewrite (np_reshape_infer_ok data image_size C Hpos (channels_positive _ _ HC) Hmod).
  unfold normalized. rewrite Hshape, HC. unfold np_true_divide, astype_float32, map_array.
  simpl. now rewrite map_map.
Qed.

End MonadFacts.

Lemma normalized_shape (ds : string) (data : ndarray Z) :
  normalizable ds data ->
  exists inner, shape (normalized ds data) = shape0 (normalized ds data) :: inner.
Proof.
  intros (image_size & C & Hshape & HC & _). unfold normalized. rewrite Hshape, HC.
  eexists. reflexivity.
Qed.

Lemma normalized_well_shaped (ds : string) (data : ndarray Z) :
  normalizable ds data -> well_shaped data -> well_shaped (normalized ds data).
Proof.
  intros (image_size & C & Hshape & HC & Hpos & Hmod) Hw.
  unfold normalized. rewrite Hshape, HC. unfold well_shaped in *. simpl.
  rewrite length_map, Hw. unfold size at 2. simpl.
  pose proof (channels_positive _ _ HC) as HCpos.
  assert (Hd : image_size * image_size * C <> 0) by nia.
  pose proof (Nat.div_mod_eq (size data) (image_size * image_size * C)) as Hdm.
  rewrite Hmod in Hdm. nia.
Qed.

Section FirstAxis.

Context {A : Type}.

Lemma row_size_with_rows (a : ndarray A) (rs : list (list A)) :
  row_size (with_rows a rs) = row_size a.
Proof. reflexivity. Qed.

Lemma shape0_with_rows (a : ndarray A) (rs : list (list A)) :
  shape0 (with_rows a rs) = length rs.
Proof. reflexivity. Qed.

Lemma rows_at_Forall_length (a : ndarray A) (n : nat) (inner : list nat) (indices : list nat) :
  well_shaped a -> shape a = n :: inner ->
  Forall (fun i => i < n) indices ->
  Forall (fun r => length r = row_size a) (rows_at a indices).
Proof.
  intros Hw Hs Hi. pose proof (rows_Forall_length a n inner Hw Hs) as H.
  unfold rows_at. apply Forall_forall. intros r Hr.
  apply in_map_iff in Hr. destruct Hr as (i & <- & Hin).
  rewrite Forall_forall in H, Hi. apply H. apply nth_In.
  rewrite rows_length. unfold shape0. rewrite Hs. simpl. now apply Hi.
Qed.

Lemma int_index_ok (a : ndarray A) (n : nat) (inner : list nat) (indices : list nat) :
  shape a = n :: inner ->
  Forall (fun i => i < n) indices ->
  int_index a indices = Ok (with_rows a (rows_at a indices)).
Proof.
  intros Hs Hi. unfold int_index. rewrite Hs.
  rewrite (take_rows_ok [] (rows a) indices); [reflexivity |].
  rewrite rows_length. unfold shape0. rewrite Hs. exact Hi.
Qed.

Lemma np_array_split_ok (a : ndarray A) (sections : nat) :
  0 < sections ->
  np_array_split a sections
  = Ok (map (with_rows a) (split_by_sizes (section_sizes (shape0 a) sections) (rows a))).
Proof.
  intros Hs. unfold np_array_split.
  destruct (Nat.eqb_spec sections 0); [lia | reflexivity].
Qed.

(** The entries of the pieces of a split are the pieces of the entries. *)
Lemma rows_of_pieces (a : ndarray A) (pieces : list (list (list A))) :
  Forall (Forall (fun r => length r = row_size a)) pieces ->
  map rows (map (with_rows a) pieces) = pieces.
Proof.
  induction 1 as [| piece pieces Hp _ IH]; simpl; [reflexivity |].
  now rewrite rows_with_rows, IH.
Qed.

End FirstAxis.

Lemma samples_of_pieces {A B} (a : ndarray A) (b : ndarray B)
  (ps : list (list (list A))) (qs : list (list (list B))) :
  Forall (Forall (fun r => length r = row_size a)) ps ->
  Forall (Forall (fun r => length r = row_size b)) qs ->
  partition_samples (map (with_rows a) ps) (map (with_rows b) qs)
  = concat (map (fun p => combine (fst p) (snd p)) (combine ps qs)).
Proof.
  unfold partition_samples, samples. intros Hp. revert qs.
  induction Hp as [| p ps Hp _ IH]; intros qs Hq; simpl; [reflexivity |].
  destruct Hq as [| q qs Hq Hqs]; simpl; [reflexivity |].
  rewrite !rows_with_rows by assumption. f_equal. now apply IH.
Qed.

Lemma rows_at_samples {A B} (a : ndarray A) (b : ndarray B) (indices : list nat) :
  shape0 a = shape0 b ->
  combine (rows_at a indices) (rows_at b indices)
  = map (fun i => nth i (samples a b) ([], [])) indices.
Proof.
  intros H. unfold rows_at, samples.
  induction indices as [| i indices IH]; simpl; [reflexivity |].
  rewrite IH. f_equal. symmetry. apply combine_nth. now rewrite !rows_length.
Qed.

(* ================================================================= *)
(** ** The random split *)

Section RandomSplit.

Variable Env : Type.
Variable np_random_permutation : nat -> Env -> list nat * Env.

(** What NumPy documents of [np.random.permutation(n)]: a permuted
    [range(n)]. *)
Hypothesis np_random_permutation_spec :
  forall n e, Permutation (fst (np_random_permutation n e)) (seq 0 n).

(** C3.  [random_split] on a stored training set, for at least one node:
    it returns [num_nodes] partitions of images and as many of labels; the
    images of the partitions, one partition after the other, are the
    normalised training images reordered by a permutation of their indices
    and the labels are the training labels reordered by the same
    permutation, so the samples of the partitions are a permutation of the
    training samples; every partition holds [n / num_nodes] or one more
    of the [n] samples; the test images are the normalised test set and the
    test labels the stored ones. *)
Theorem random_split_balanced_permutation
  (s : state Env) (xt : ndarray Z) (yt : ndarray nat) (xe : ndarray Z) (ye : ndarray nat) :
  loaded (self s) xt yt xe ye ->
  1 <= num_nodes (self s) ->
  exists px py indices,
    fst (random_split np_random_permutation s)
      = Ok (px, py, normalized (dataset (self s)) xe, ye)
    /\ Permutation indices (seq 0 (shape0 (normalized (dataset (self s)) xt)))
    /\ length px = num_nodes (self s)
    /\ length py = num_nodes (self s)
    /\ concat (map rows px) = rows_at (normalized (dataset (self s)) xt) indices
    /\ concat (map rows py) = rows_at yt indices
    /\ Permutation (concat (map rows px)) (rows (normalized (dataset (self s)) xt))
    /\ Permutation (partition_samples px py) (samples (normalized (dataset (self s)) xt) yt)
    /\ Forall (fun p => shape0 yt / num_nodes (self s) <= shape0 p
                        <= shape0 yt / num_nodes (self s) + 1) px
    /\ map (@shape0 float32) px = map (@shape0 nat) py.
Proof.
  intros (Hxt & Hyt & Hxe & Hye & Hwx & Hwy & Hnx & Hne & inner_y & Hsy) Hk.
  set (ds := dataset (self s)) in *.
  set (nx := normalized ds xt) in *.
  set (n := shape0 nx) in *.
  destruct (normalized_shape ds xt Hnx) as [inner_x Hsx]. fold nx in Hsx. fold n in Hsx.
  pose proof (normalized_well_shaped ds xt Hnx Hwx) as Hwnx. fold nx in Hwnx.
  set (indices := fst (np_random_permutation n (env s))).
  pose proof (np_random_permutation_spec n (env s)) as Hperm. fold indices in Hperm.
  pose proof (permutation_indices_bound n indices Hperm) as Hbound.
  assert (Hlen : length indices = n).
  { rewrite (Permutation_length Hperm). apply length_seq. }
  set (x2 := with_rows nx (rows_at nx indices)).
  set (y2 := with_rows yt (rows_at yt indices)).
  set (sizes := section_sizes n (num_nodes (self s))).
  assert (Hrx : Forall (fun r => length r = row_size nx) (rows_at nx indices))
    by (apply (rows_at_Forall_length nx n inner_x); assumption).
  assert (Hry : Forall (fun r => length r = row_size yt) (rows_at yt indices))
    by (apply (rows_at_Forall_length yt n inner_y); assumption).
  assert (Hrows_x2 : rows x2 = rows_at nx indices) by (apply rows_with_rows; exact Hrx).
  assert (Hrows_y2 : rows y2 = rows_at yt indices) by (apply rows_with_rows; exact Hry).
  assert (Hn_x2 : shape0 x2 = n)
    by (unfold x2; rewrite shape0_with_rows; unfold rows_at; now rewrite length_map).
  assert (Hn_y2 : shape0 y2 = n)
    by (unfold y2; rewrite shape0_with_rows; unfold rows_at; now rewrite length_map).
  assert (Hn_y : shape0 yt = n) by (unfold shape0; now rewrite Hsy).
  assert (Hsum : list_sum sizes = n) by (apply section_sizes_sum; lia).
  set (pieces_x := split_by_sizes sizes (rows x2)).
  set (pieces_y := split_by_sizes sizes (rows y2)).
  assert (Hpx : Forall (Forall (fun r => length r = row_size nx)) pieces_x).
  { apply split_by_sizes_Forall. now rewrite Hrows_x2. }
  assert (Hpy : Forall (Forall (fun r => length r = row_size yt)) pieces_y).
  { apply split_by_sizes_Forall. now rewrite Hrows_y2. }
  exists (map (with_rows x2) pieces_x), (map (with_rows y2) pieces_y), indices.
  split; [| repeat split].
  - unfold random_split.
    rewrite bind_getattr.
    rewrite (bind_getattr_bound _ _ _ _ Hxt).
    rewrite (bind_ok _ _ _ _ _ (normalize_data_normalized xt s Hnx)).
    rewrite (bind_getattr_bound _ _ _ _ Hxe).
    rewrite (bind_ok _ _ _ _ _ (normalize_data_normalized xe s Hne)).
    rewrite bind_extern. fold ds nx n indices.
    rewrite (bind_lift_ok _ _ _ _ (int_index_ok nx n inner_x indices Hsx Hbound)).
    rewrite (bind_getattr_bound _ _ _ yt) by exact Hyt.
    rewrite (bind_lift_ok _ _ _ _ (int_index_ok yt n inner_y indices Hsy Hbound)).
    fold x2 y2.
    rewrite (bind_lift_ok _ _ _ _ (np_array_split_ok x2 _ Hk)).
    rewrite (bind_lift_ok _ _ _ _ (np_array_split_ok y2 _ Hk)).
    rewrite (bind_getattr_bound _ _ _ ye) by exact Hye.
    rewrite Hn_x2, Hn_y2. reflexivity.
  - exact Hperm.
  - rewrite length_map. unfold pieces_x. rewrite split_by_sizes_length.
    apply section_sizes_length. lia.
  - rewrite length_map. unfold pieces_y. rewrite split_by_sizes_length.
    apply section_sizes_length. lia.
  - rewrite (rows_of_pieces x2 pieces_x) by exact Hpx.
    unfold pieces_x. rewrite split_by_sizes_concat; [exact Hrows_x2 |].
    rewrite Hsum, <- Hn_x2, rows_length. lia.
  - rewrite (rows_of_pieces y2 pieces_y) by exact Hpy.
    unfold pieces_y. rewrite split_by_sizes_concat; [exact Hrows_y2 |].
    rewrite Hsum, <- Hn_y2, rows_length. lia.
  - rewrite (rows_of_pieces x2 pieces_x) by exact Hpx.
    unfold pieces_x. rewrite split_by_sizes_concat, Hrows_x2.
    + apply permutation_rows. rewrite rows_length. exact Hperm.
    + rewrite Hsum, <- Hn_x2, rows_length. lia.
  - rewrite (samples_of_pieces x2 y2 pieces_x pieces_y Hpx Hpy).
    unfold pieces_x, pieces_y. rewrite split_by_sizes_combine.
    rewrite split_by_sizes_concat.
    + rewrite Hrows_x2, Hrows_y2, (rows_at_samples nx yt indices) by (now rewrite Hn_y).
      apply permutation_rows. unfold samples.
      rewrite length_combine, !rows_length. fold n. rewrite Hn_y, Nat.min_id. exact Hperm.
    + rewrite length_combine, !rows_length, Hn_x2, Hn_y2, Hsum. lia.
  - rewrite Forall_map.
    assert (Hl : map (@length (list float32)) pieces_x = sizes).
    { apply split_by_sizes_lengths. rewrite Hsum, rows_length, Hn_x2. lia. }
    pose proof (section_sizes_balanced n (num_nodes (self s))) as Hbal. fold sizes in Hbal.
    rewrite <- Hl in Hbal. rewrite Forall_map in Hbal.
    eapply Forall_impl; [| exact Hbal]. intros piece Hp.
    rewrite shape0_with_rows, Hn_y. exact Hp.
  - rewrite !map_map.
    assert (Hlx : map (@length (list float32)) pieces_x = sizes).
    { apply split_by_sizes_lengths. rewrite Hsum, rows_length, Hn_x2. lia. }
    assert (Hly : map (@length (list nat)) pieces_y = sizes).
    { apply split_by_sizes_lengths. rewrite Hsum, rows_length, Hn_y2. lia. }
    transitivity sizes; [rewrite <- Hlx | rewrite <- Hly]; apply map_ext; reflexivity.
Qed.

End RandomSplit.

(* ================================================================= *)
(** ** The skewed split *)

(* ----------------------------------------------------------------- *)
(** *** The cut in double precision *)

(** The number of binary digits. *)
Lemma digits2_pos_pow (p : positive) :
  (Zpos p < 2 ^ Zpos (digits2_pos p) /\ 2 ^ Zpos (digits2_pos p) <= 2 * Zpos p)%Z.
Proof.
  induction p as [p IH | p IH |]; cbn [digits2_pos].
  - rewrite Pos2Z.inj_succ, Z.pow_succ_r by lia. lia.
  - rewrite Pos2Z.inj_succ, Z.pow_succ_r by lia. lia.
  - split; reflexivity || (cbv; discriminate).
Qed.

Lemma digits2_pos_le (p : positive) (k : Z) :
  (0 <= k)%Z -> (Zpos p < 2 ^ k)%Z -> (Zpos (digits2_pos p) <= k)%Z.
Proof.
  intros Hk Hp. destruct (digits2_pos_pow p) as [_ Hle].
  destruct (Z.le_gt_cases (Zpos (digits2_pos p)) k) as [H | H]; [exact H |].
  assert (Hpow : (2 ^ (k + 1) <= 2 ^ Zpos (digits2_pos p))%Z)
    by (apply Z.pow_le_mono_r; lia).
  rewrite Z.pow_add_r in Hpow by lia. lia.
Qed.

Lemma Zdigits2_le (m k : Z) :
  (0 <= k)%Z -> (0 <= m < 2 ^ k)%Z -> (Zdigits2 m <= k)%Z.
Proof.
  intros Hk [H0 Hm]. destruct m as [| p | p]; simpl; [lia | | lia].
  now apply digits2_pos_le.
Qed.

Lemma digits2_pos_lt (p : positive) (k : Z) :
  (Zpos (digits2_pos p) <= k)%Z -> (Zpos p < 2 ^ k)%Z.
Proof.
  intros H. destruct (digits2_pos_pow p) as [Hlt _].
  eapply Z.lt_le_trans; [exact Hlt |]. apply Z.pow_le_mono_r; lia.
Qed.

(** Shifting a mantissa to the right does not make it larger. *)
Lemma shr_1_bounds (mrs : shr_record) :
  (0 <= shr_m mrs)%Z -> (0 <= shr_m (shr_1 mrs) <= shr_m mrs)%Z.
Proof.
  destruct mrs as [m r s]. cbn [shr_m]. intros H.
  destruct m as [| [p | p |] | p]; cbn [shr_1 shr_m]; lia.
Qed.

Lemma iter_pos_invariant {A} (f : A -> A) (P : A -> Prop) :
  (forall a, P a -> P (f a)) -> forall (n : positive) (a : A), P a -> P (iter_pos f n a).
Proof.
  intros Hf. induction n as [n IH | n IH |]; intros a Ha; cbn [iter_pos]; auto.
Qed.

Lemma shr_bounds (mrs : shr_record) (e n : Z) :
  (0 <= shr_m mrs)%Z ->
  (0 <= shr_m (fst (shr mrs e n)) <= shr_m mrs)%Z
  /\ snd (shr mrs e n) = Z.max e (e + n).
Proof.
  intros H. destruct n as [| p | p]; cbn [shr fst snd]; try (split; lia).
  split; [| lia].
  apply (iter_pos_invariant shr_1 (fun r => 0 <= shr_m r <= shr_m mrs)%Z); [| lia].
  intros a Ha. pose proof (shr_1_bounds a ltac:(lia)). lia.
Qed.

Lemma shr_record_of_loc_m (m : Z) (l : location) : shr_m (shr_record_of_loc m l) = m.
Proof. destruct l as [| []]; reflexivity. Qed.

Lemma shr_fexp_bounds (m e : Z) (l : location) :
  (0 <= m)%Z ->
  (0 <= shr_m (fst (shr_fexp 53 1024 m e l)) <= m)%Z
  /\ snd (shr_fexp 53 1024 m e l) = Z.max e (fexp 53 1024 (Zdigits2 m + e)).
Proof.
  intros H. unfold shr_fexp.
  destruct (shr_bounds (shr_record_of_loc m l) e (fexp 53 1024 (Zdigits2 m + e) - e))
    as [Hm He]; [now rewrite shr_record_of_loc_m |].
  rewrite shr_record_of_loc_m in Hm. split; [exact Hm |]. rewrite He. f_equal. lia.
Qed.

Lemma round_nearest_even_bounds (m : Z) (l : location) :
  (m <= round_nearest_even m l <= m + 1)%Z.
Proof.
  destruct l as [| []]; cbn [round_nearest_even]; try lia.
  destruct (Z.even m); lia.
Qed.

(** A product that cannot overflow. *)
Lemma binary_round_aux_finite (m e : Z) :
  (0 < m < 2 ^ 106)%Z -> (e <= -52)%Z ->
  match binary_round_aux 53 1024 false m e loc_Exact with
  | S754_zero false | S754_finite false _ _ => True
  | _ => False
  end.
Proof.
  intros Hm He. unfold binary_round_aux.
  destruct (shr_fexp_bounds m e loc_Exact ltac:(lia)) as [Hm1 He1].
  destruct (shr_fexp 53 1024 m e loc_Exact) as [mrs1 e1]. cbn [fst snd] in Hm1, He1.
  pose proof (round_nearest_even_bounds (shr_m mrs1) (loc_of_shr_record mrs1)) as Hr.
  set (m1 := round_nearest_even (shr_m mrs1) (loc_of_shr_record mrs1)) in *.
  assert (Hd : (Zdigits2 m <= 106)%Z) by (apply Zdigits2_le; lia).
  assert (He1' : (e1 <= 1)%Z) by (unfold fexp, emin in He1; lia).
  assert (Hm1' : (0 <= m1 < 2 ^ 107)%Z).
  { change (2 ^ 107)%Z with (2 * 2 ^ 106)%Z. lia. }
  destruct (shr_fexp_bounds m1 e1 loc_Exact ltac:(lia)) as [Hm2 He2].
  destruct (shr_fexp 53 1024 m1 e1 loc_Exact) as [mrs2 e2]. cbn [fst snd] in Hm2, He2.
  assert (Hd1 : (Zdigits2 m1 <= 107)%Z) by (apply Zdigits2_le; lia).
  assert (He2' : (e2 <= 971)%Z) by (unfold fexp, emin in He2; lia).
  destruct (shr_m mrs2) as [| p | p]; [exact I | | lia].
  change (1024 - 53)%Z with 971%Z.
  destruct (Z.leb_spec e2 971); [exact I | lia].
Qed.

(** Shifting a mantissa to the left. *)
Lemma iter_xO_spec (d p : positive) :
  Zpos (Pos.iter xO p d) = (Zpos p * 2 ^ Zpos d)%Z
  /\ Zpos (digits2_pos (Pos.iter xO p d)) = (Zpos (digits2_pos p) + Zpos d)%Z.
Proof.
  induction d as [| d IH] using Pos.peano_ind.
  - cbn [Pos.iter digits2_pos]. rewrite Pos2Z.inj_succ. split; lia.
  - rewrite Pos.iter_succ. cbn [digits2_pos].
    rewrite !Pos2Z.inj_succ, Z.pow_succ_r by lia. destruct IH as [IH1 IH2].
    rewrite Pos2Z.inj_xO, IH1, IH2. split; lia.
Qed.

(** [float(n)] is exact below 2^53: a mantissa of 53 bits. *)
Lemma f64_of_nat_exact (n : nat) :
  0 < n -> (Z.of_nat n < 2 ^ 53)%Z ->
  exists mz ez,
    f64_of_nat n = S754_finite false mz ez
    /\ (Zpos mz = Z.of_nat n * 2 ^ (- ez))%Z
    /\ (-52 <= ez <= 0)%Z
    /\ Zpos (digits2_pos mz) = 53%Z.
Proof.
  intros Hpos Hn. unfold f64_of_nat, binary_normalize.
  destruct (Z.of_nat n) as [| p | p] eqn:Hz; [lia | | lia].
  pose proof (digits2_pos_le p 53 ltac:(lia) Hn) as Hd.
  assert (Hd1 : (1 <= Zpos (digits2_pos p))%Z) by lia.
  set (d := Zpos (digits2_pos p)) in *.
  assert (Hround : exists mz,
             shl_align p 0 (fexp 53 1024 (d + 0)) = (mz, (d - 53)%Z)
             /\ (Zpos mz = Zpos p * 2 ^ (53 - d))%Z
             /\ Zpos (digits2_pos mz) = 53%Z).
  { unfold shl_align, fexp, emin.
    replace (Z.max (d + 0 - 53) (3 - 1024 - 53) - 0)%Z with (d - 53)%Z by lia.
    replace (Z.max (d + 0 - 53) (3 - 1024 - 53))%Z with (d - 53)%Z by lia.
    destruct (d - 53)%Z as [| q | q] eqn:Hq; [| lia |].
    - exists p. split; [reflexivity |]. split; [| fold d; lia].
      replace (53 - d)%Z with 0%Z by lia. simpl. lia.
    - exists (Pos.iter xO p q). destruct (iter_xO_spec q p) as [H1 H2].
      split; [reflexivity |]. split.
      + rewrite H1. f_equal. f_equal. lia.
      + rewrite H2. fold d. lia. }
  destruct Hround as (mz & Halign & Hmz & Hdz).
  unfold binary_round. fold d. rewrite Halign.
  exists mz, (d - 53)%Z.
  split; [| split; [rewrite Hmz; f_equal; f_equal; lia | split; [lia | exact Hdz]]].
  unfold binary_round_aux, shr_fexp. cbn [Zdigits2]. rewrite Hdz.
  assert (Hf : (fexp 53 1024 (53 + (d - 53)) - (d - 53) = 0)%Z)
    by (unfold fexp, emin; lia).
  rewrite Hf. cbn [shr shr_record_of_loc shr_m loc_of_shr_record round_nearest_even Zdigits2].
  rewrite Hdz, Hf. cbn [shr shr_record_of_loc shr_m].
  destruct (Z.leb_spec (d - 53) (1024 - 53)); [reflexivity | lia].
Qed.

Lemma f64_of_nat_0 : f64_of_nat 0 = S754_zero false.
Proof. reflexivity. Qed.

Lemma f64_of_nat_1 : f64_of_nat 1 = S754_finite false 4503599627370496 (-52).
Proof. vm_compute. reflexivity. Qed.

Lemma mul_pow2_52 (p : positive) : (p * 4503599627370496)%positive = Pos.iter xO p 52.
Proof.
  change 4503599627370496%positive with (Pos.iter xO 1%positive 52).
  cbv [Pos.iter]. rewrite !Pos.mul_xO_r, Pos.mul_1_r. reflexivity.
Qed.

(** The product with 1.0 is exact. *)
Lemma f64_mul_one (mz : positive) (ez : Z) :
  Zpos (digits2_pos mz) = 53%Z -> (-52 <= ez <= 0)%Z ->
  f64_mul (S754_finite false mz ez) (f64_of_nat 1) = S754_finite false mz ez.
Proof.
  intros Hd He. rewrite f64_of_nat_1. unfold f64_mul, SFmul. cbn [xorb].
  rewrite mul_pow2_52.
  destruct (iter_xO_spec 52 mz) as [_ Hd2]. rewrite Hd in Hd2.
  unfold binary_round_aux, shr_fexp. cbn [Zdigits2]. rewrite Hd2.
  assert (Hf : (fexp 53 1024 (53 + 52 + (ez + -52)) - (ez + -52) = 52)%Z)
    by (unfold fexp, emin; lia).
  rewrite Hf. cbn [shr shr_record_of_loc].
  assert (Hshift : iter_pos shr_1 52 {| shr_m := Zpos (Pos.iter xO mz 52);
                                       shr_r := false; shr_s := false |}
                   = {| shr_m := Zpos mz; shr_r := false; shr_s := false |})
    by reflexivity.
  rewrite Hshift. cbn [shr_m loc_of_shr_record round_nearest_even Zdigits2]. rewrite Hd.
  assert (Hf2 : (fexp 53 1024 (53 + (ez + -52 + 52)) - (ez + -52 + 52) = 0)%Z)
    by (unfold fexp, emin; lia).
  rewrite Hf2. cbn [shr shr_record_of_loc shr_m].
  destruct (Z.leb_spec (ez + -52 + 52) (1024 - 53)); [| lia].
  f_equal. lia.
Qed.

Lemma py_int_f64_exact (n : nat) (mz : positive) (ez : Z) :
  (Zpos mz = Z.of_nat n * 2 ^ (- ez))%Z -> (ez <= 0)%Z ->
  py_int_f64 (S754_finite false mz ez) = Ok (Z.of_nat n).
Proof.
  intros Hm He. unfold py_int_f64. f_equal.
  destruct (Z.leb_spec 0 ez) as [H0 | Hneg].
  - replace ez with 0%Z in * by lia. rewrite Z.shiftl_0_r, Hm. simpl. lia.
  - rewrite Z.shiftr_div_pow2, Hm by lia. apply Z.div_mul.
    apply Z.pow_nonzero; lia.
Qed.

(** [int(n * 1.0)] is [n] and [int(n * 0.0)] is [0], for [n] below 2^53. *)
Lemma num_samples_for_node_1_one (n : nat) :
  (Z.of_nat n < 2 ^ 53)%Z -> num_samples_for_node_1 n (f64_of_nat 1) = Ok (Z.of_nat n).
Proof.
  intros Hn. unfold num_samples_for_node_1, py_float.
  destruct n as [| n]; [reflexivity |].
  destruct (f64_of_nat_exact (S n) ltac:(lia) Hn) as (mz & ez & -> & Hm & He & Hd).
  cbn [rbind]. rewrite (f64_mul_one mz ez Hd He).
  apply py_int_f64_exact; [exact Hm | lia].
Qed.

Lemma num_samples_for_node_1_zero (n : nat) :
  (Z.of_nat n < 2 ^ 53)%Z -> num_samples_for_node_1 n (f64_of_nat 0) = Ok 0%Z.
Proof.
  intros Hn. unfold num_samples_for_node_1, py_float.
  destruct n as [| n]; [reflexivity |].
  destruct (f64_of_nat_exact (S n) ltac:(lia) Hn) as (mz & ez & -> & _).
  reflexivity.
Qed.

Lemma py_int_f64_nonneg (f : float64) :
  match f with S754_zero _ | S754_finite false _ _ => True | _ => False end ->
  exists k, py_int_f64 f = Ok k /\ (0 <= k)%Z.
Proof.
  destruct f as [b | b | | [] m e]; try contradiction; intros _.
  - exists 0%Z. split; [reflexivity | lia].
  - eexists. split; [reflexivity |]. cbv beta zeta.
    destruct (0 <=? e)%Z; [apply Z.shiftl_nonneg | apply Z.shiftr_nonneg]; lia.
Qed.

(** For a double in [0, 1] and fewer than 2^53 samples the product is
    finite and [int] returns. *)
Lemma num_samples_for_node_1_defined (n : nat) (s : float64) :
  unit_double s -> (Z.of_nat n < 2 ^ 53)%Z ->
  exists k, num_samples_for_node_1 n s = Ok k /\ (0 <= k)%Z.
Proof.
  intros (Hvalid & Hlo & Hhi) Hn. unfold num_samples_for_node_1, py_float.
  rewrite f64_of_nat_0 in Hlo. rewrite f64_of_nat_1 in Hhi.
  assert (Hs : match s with
               | S754_zero _ => True
               | S754_finite false my ey =>
                   (Zpos (digits2_pos my) <= 53)%Z /\ (ey <= -52)%Z
               | _ => False
               end).
  { destruct s as [b | b | | [] my ey]; try exact I; try discriminate;
      try (destruct b; discriminate).
    cbn [valid_binary] in Hvalid. unfold bounded, canonical_mantissa in Hvalid.
    apply andb_true_iff in Hvalid. destruct Hvalid as [Hc _].
    apply Z.eqb_eq in Hc. unfold fexp, emin in Hc.
    split; [lia |].
    unfold f64_leb, SFleb, SFcompare in Hhi.
    destruct (Z.compare_spec ey (-52)); [lia | lia | discriminate]. }
  destruct n as [| n].
  - rewrite f64_of_nat_0. cbn [rbind].
    destruct s as [b | b | | [] my ey]; try contradiction;
      apply py_int_f64_nonneg; unfold f64_mul, SFmul; cbn [xorb]; exact I.
  - destruct (f64_of_nat_exact (S n) ltac:(lia) Hn) as (mz & ez & -> & Hm & He & Hd).
    cbn [rbind]. apply py_int_f64_nonneg.
    destruct s as [b | b | | [] my ey]; try contradiction.
    + unfold f64_mul, SFmul. cbn [xorb]. exact I.
    + destruct Hs as [Hdy Hey]. unfold f64_mul, SFmul. cbn [xorb].
      assert (Hfin : match binary_round_aux 53 1024 false (Zpos (mz * my)) (ez + ey) loc_Exact with
                     | S754_zero false | S754_finite false _ _ => True
                     | _ => False
                     end).
      2: { destruct (binary_round_aux 53 1024 false (Zpos (mz * my)) (ez + ey) loc_Exact)
             as [[] | [] | | [] m' e']; try contradiction; exact I. }
      apply binary_round_aux_finite; [| lia].
      pose proof (digits2_pos_lt mz 53 ltac:(lia)) as Hmz.
      pose proof (digits2_pos_lt my 53 Hdy) as Hmy.
      rewrite Pos2Z.inj_mul. change (2 ^ 106)%Z with (2 ^ 53 * 2 ^ 53)%Z. nia.
Qed.

(** The cut of a class lies within the class. *)
Lemma skew_count_min (n : nat) (s : float64) (k : Z) :
  num_samples_for_node_1 n s = Ok k -> (0 <= k)%Z ->
  skew_count n s = Nat.min (Z.to_nat k) n.
Proof.
  intros Hk H0. unfold skew_count, py_slice_bound. rewrite Hk.
  destruct (Z.leb_spec 0 k); [reflexivity | lia].
Qed.

Section ListUpdate.

Context {A : Type}.

Lemma list_update_length (l : list A) (i : nat) (f : A -> A) :
  length (list_update l i f) = length l.
Proof.
  revert i. induction l as [| a l IH]; intros [| i]; simpl; try reflexivity.
  now rewrite IH.
Qed.

Lemma list_update_nth (l : list A) (i c : nat) (f : A -> A) (d : A) :
  i < length l ->
  nth c (list_update l i f) d = if c =? i then f (nth c l d) else nth c l d.
Proof.
  revert i c. induction l as [| a l IH]; intros i c Hi; simpl in Hi; [lia |].
  destruct i as [| i], c as [| c]; simpl; try reflexivity.
  apply IH. lia.
Qed.

Lemma py_getitem_nat (l : list A) (i : nat) (d : A) :
  i < length l -> py_getitem l (Z.of_nat i) = Ok (nth i l d).
Proof.
  intros Hi. unfold py_getitem, py_index.
  destruct (Z.leb_spec 0 (Z.of_nat i)); [| lia].
  destruct (Z.ltb_spec (Z.of_nat i) (Z.of_nat (length l))); [| lia].
  simpl. rewrite Nat2Z.id.
  destruct (nth_error l i) as [a |] eqn:E.
  - f_equal. symmetry. now apply nth_error_nth.
  - apply nth_error_None in E. lia.
Qed.

End ListUpdate.

Lemma of_class_app {T} (c : nat) (l1 l2 : list (T * nat)) :
  of_class c (l1 ++ l2) = of_class c l1 ++ of_class c l2.
Proof. apply filter_app. Qed.

Lemma of_class_cons {T} (c : nat) (p : T * nat) (l : list (T * nat)) :
  of_class c (p :: l) = if snd p =? c then p :: of_class c l else of_class c l.
Proof. reflexivity. Qed.

Section Grouping.

Context {A : Type}.
Variables (x : ndarray A) (y : ndarray nat).
Variables (n : nat) (inner : list nat).
Hypothesis x_shape : shape x = n :: inner.
Hypothesis y_shape : shape y = [n].
Hypothesis y_well_shaped : well_shaped y.

Lemma flat_y_length : length (flat y) = n.
Proof.
  unfold well_shaped, size in y_well_shaped. rewrite y_shape in y_well_shaped.
  simpl in y_well_shaped. lia.
Qed.

Lemma entries_length : length (entries x) = n.
Proof. unfold entries. rewrite length_map, rows_length. unfold shape0. now rewrite x_shape. Qed.

Lemma get_row_entries (i : nat) (e : ndarray A) :
  nth_error (entries x) i = Some e -> get_row x i = Ok e.
Proof.
  unfold get_row, entries. rewrite x_shape. simpl. rewrite nth_error_map.
  destruct (nth_error (rows x) i); simpl; [| discriminate].
  now intros [= <-].
Qed.

Lemma label_at_flat (i l : nat) :
  nth_error (flat y) i = Some l -> label_at y i = Ok l.
Proof. unfold label_at. rewrite y_shape. now intros ->. Qed.

(** The loop over the indices [start, start + len): every bucket grows by
    the images, and by the labels, of its class. *)
Lemma group_by_label_spec (len start : nat)
  (xb : list (list (ndarray A))) (yb : list (list nat)) :
  start + len <= n ->
  length yb = length xb ->
  Forall (fun l => l < length xb) (flat y) ->
  exists xb' yb',
    group_by_label x y (seq start len) xb yb = Ok (xb', yb')
    /\ length xb' = length xb /\ length yb' = length xb
    /\ forall c,
         nth c xb' [] = nth c xb []
           ++ map fst (of_class c (firstn len (skipn start (combine (entries x) (flat y)))))
         /\ nth c yb' [] = nth c yb []
           ++ map snd (of_class c (firstn len (skipn start (combine (entries x) (flat y))))).
Proof.
  revert start xb yb. induction len as [| len IH]; intros start xb yb Hle Hlen Hlab.
  - simpl. exists xb, yb. repeat split; try assumption; now rewrite app_nil_r.
  - cbn [seq group_by_label].
    assert (Hi : start < n) by lia.
    destruct (nth_error (entries x) start) as [e |] eqn:Ee;
      [| apply nth_error_None in Ee; rewrite entries_length in Ee; lia].
    destruct (nth_error (flat y) start) as [l |] eqn:El;
      [| apply nth_error_None in El; rewrite flat_y_length in El; lia].
    assert (Hl : l < length xb).
    { rewrite Forall_forall in Hlab. apply Hlab. eapply nth_error_In; eassumption. }
    rewrite (label_at_flat start l El). simpl.
    destruct (Nat.ltb_spec l (length xb)) as [_ | ?]; [| lia]. simpl.
    rewrite (get_row_entries start e Ee). simpl.
    destruct (IH (S start)
                 (list_update xb l (fun b => b ++ [e]))
                 (list_update yb l (fun b => b ++ [l])))
      as (xb' & yb' & Hrun & Hlx & Hly & Hnth).
    + lia.
    + now rewrite !list_update_length.
    + now rewrite list_update_length.
    + exists xb', yb'. rewrite list_update_length in Hlx, Hly.
      split; [exact Hrun | split; [exact Hlx | split; [exact Hly |]]].
      intros c. destruct (Hnth c) as [Hx Hy].
      assert (Hskip : skipn start (combine (entries x) (flat y))
                      = (e, l) :: skipn (S start) (combine (entries x) (flat y))).
      { assert (Hn : nth_error (combine (entries x) (flat y)) start = Some (e, l)).
        { clear - Ee El. revert Ee El. generalize (entries x) (flat y).
          induction start as [| i IHi]; intros [| a la] [| b lb]; simpl; try discriminate.
          - now intros [= ->] [= ->].
          - apply IHi. }
        clear - Hn. revert Hn. generalize (combine (entries x) (flat y)).
        induction start as [| i IHi]; intros [| p lp]; simpl; try discriminate.
        - now intros [= ->].
        - apply IHi. }
      rewrite Hskip. cbv iota. rewrite of_class_cons. cbn [snd].
      rewrite Hx, Hy.
      rewrite (list_update_nth xb l c _ [] Hl).
      rewrite (list_update_nth yb l c _ []) by lia.
      destruct (Nat.eqb_spec c l) as [-> | Hne].
      * rewrite Nat.eqb_refl. cbn [map fst snd]. rewrite <- !app_assoc. split; reflexivity.
      * destruct (Nat.eqb_spec l c) as [-> | _]; [contradiction |].
        split; reflexivity.
Qed.

End Grouping.

Lemma py_index_head (c : nat) :
  c < 10 -> py_index 2 (Z.of_nat (c / 5)) = Ok (c / 5).
Proof.
  intros Hc. assert (H : c / 5 < 2) by (apply Nat.Div0.div_lt_upper_bound; lia).
  unfold py_index.
  destruct (Z.leb_spec 0 (Z.of_nat (c / 5))); [| lia].
  destruct (Z.ltb_spec (Z.of_nat (c / 5)) (Z.of_nat 2)); [| lia].
  now rewrite Nat2Z.id.
Qed.

Lemma py_index_tail (c : nat) :
  c < 10 -> py_index 2 (Z.of_nat (c / 5) - 1) = Ok (1 - c / 5).
Proof.
  intros Hc. assert (H : c / 5 < 2) by (apply Nat.Div0.div_lt_upper_bound; lia).
  unfold py_index. destruct (c / 5) as [| [| ?]]; [reflexivity | reflexivity | lia].
Qed.

Section Dealing.

Context {A : Type}.
Variable s : float64.
Variables (xb : list (list (ndarray A))) (yb : list (list nat)).
Hypothesis buckets_parallel : forall c, length (nth c yb []) = length (nth c xb []).
Hypothesis yb_length : length yb = length xb.

Lemma py_slice_to_dealt {T} (l : list T) (n : nat) (k : Z) :
  n = length l ->
  num_samples_for_node_1 n s = Ok k ->
  py_slice_to l k = firstn (skew_count (length l) s) l
  /\ py_slice_from l k = skipn (skew_count (length l) s) l.
Proof.
  intros -> Hk. unfold py_slice_to, py_slice_from, skew_count. now rewrite Hk.
Qed.

(** The loop over the classes: each of the two slots grows, class after
    class, by what its node is dealt of the class. *)
Lemma skew_loop_spec (classes : list nat)
  (sx : list (list (ndarray A))) (sy : list (list nat)) :
  Forall (fun c => c < 10 /\ c < length xb
                   /\ exists k, num_samples_for_node_1 (length (nth c xb [])) s = Ok k)
         classes ->
  length sx = 2 -> length sy = 2 ->
  exists sx' sy',
    skew_loop s xb yb classes sx sy = Ok (sx', sy')
    /\ length sx' = 2 /\ length sy' = 2
    /\ forall j, j < 2 ->
         nth j sx' [] = nth j sx [] ++ concat (map (fun c => dealt s j c (nth c xb [])) classes)
         /\ nth j sy' [] = nth j sy [] ++ concat (map (fun c => dealt s j c (nth c yb [])) classes).
Proof.
  intros Hcs. revert sx sy.
  induction Hcs as [| c rest (Hc & Hcb & k & Hk) _ IH]; intros sx sy Hsx Hsy.
  - simpl. exists sx, sy. repeat split; try assumption; now rewrite app_nil_r.
  - cbn [skew_loop].
    rewrite (py_getitem_nat xb c [] Hcb). cbn [rbind].
    rewrite Hk. cbn [rbind].
    rewrite (py_getitem_nat yb c []) by (rewrite yb_length; exact Hcb). cbn [rbind].
    rewrite Hsx, Hsy, (py_index_head c Hc). cbn [rbind].
    rewrite !list_update_length, Hsx, Hsy, (py_index_tail c Hc). cbn [rbind].
    destruct (py_slice_to_dealt (nth c xb []) (length (nth c xb [])) k eq_refl Hk) as [-> ->].
    destruct (py_slice_to_dealt (nth c yb []) (length (nth c xb [])) k
                (eq_sym (buckets_parallel c)) Hk) as [-> ->].
    assert (Hh : c / 5 < 2) by (apply Nat.Div0.div_lt_upper_bound; lia).
    match goal with
    | |- context [skew_loop s xb yb rest ?sx2 ?sy2] =>
        destruct (IH sx2 sy2) as (sx' & sy' & Hrun & Hlx & Hly & Hnth);
        [now rewrite !list_update_length | now rewrite !list_update_length |]
    end.
    exists sx', sy'. split; [exact Hrun | split; [exact Hlx | split; [exact Hly |]]].
    intros j Hj. destruct (Hnth j Hj) as [Hx Hy]. rewrite Hx, Hy.
    rewrite !list_update_nth by (rewrite ?list_update_length; lia).
    cbn [map concat]. rewrite !app_assoc. unfold dealt.
    destruct (Nat.eqb_spec (c / 5) j) as [E | E].
    + subst j.
      destruct (Nat.eqb_spec (c / 5) (1 - c / 5)) as [E' | _]; [lia |].
      rewrite Nat.eqb_refl. split; reflexivity.
    + assert (Ej : j = 1 - c / 5) by lia.
      destruct (Nat.eqb_spec j (1 - c / 5)) as [_ | ?]; [| contradiction].
      destruct (Nat.eqb_spec j (c / 5)) as [? | _]; [lia |].
      split; reflexivity.
Qed.

End Dealing.

Lemma py_range_unit (n : nat) : py_range 0 n 1 = seq 0 n.
Proof.
  unfold py_range. rewrite Nat.sub_0_r, Nat.sub_diag, Nat.add_0_r, Nat.div_1_r.
  rewrite <- (map_id (seq 0 n)) at 2. apply map_ext. intros j. lia.
Qed.

Lemma dealt_map {T U} (s : float64) (f : T -> U) (j c : nat) (l : list T) :
  dealt s j c (map f l) = map f (dealt s j c l).
Proof.
  unfold dealt. rewrite length_map.
  destruct (c / 5 =? j); [apply firstn_map | apply skipn_map].
Qed.

Lemma concat_map_app {T U} (f g : U -> list T) (l : list U) :
  Permutation (concat (map f l) ++ concat (map g l))
              (concat (map (fun c => f c ++ g c) l)).
Proof.
  induction l as [| c l IH]; simpl; [constructor |].
  rewrite <- !app_assoc. apply Permutation_app_head.
  eapply Permutation_trans; [apply Permutation_app_swap_app |].
  apply Permutation_app_head. exact IH.
Qed.

Lemma dealt_both {T} (s : float64) (c : nat) (l : list T) :
  c < 10 -> Permutation (dealt s 0 c l ++ dealt s 1 c l) l.
Proof.
  intros Hc. assert (H : c / 5 < 2) by (apply Nat.Div0.div_lt_upper_bound; lia).
  unfold dealt. destruct (c / 5) as [| [| ?]]; simpl; [| | lia].
  - rewrite firstn_skipn. apply Permutation_refl.
  - eapply Permutation_trans; [apply Permutation_app_comm |].
    rewrite firstn_skipn. apply Permutation_refl.
Qed.

Section Shares.

Context {T : Type}.
Variable s : float64.

Lemma of_class_map {U} (f : T -> U) (c : nat) (l : list (T * nat)) :
  of_class c (map (fun p => (f (fst p), snd p)) l)
  = map (fun p => (f (fst p), snd p)) (of_class c l).
Proof. unfold of_class. now rewrite filter_map_swap. Qed.

Lemma node_share_map {U} (f : T -> U) (j : nat) (l : list (T * nat)) :
  node_share s j (map (fun p => (f (fst p), snd p)) l)
  = map (fun p => (f (fst p), snd p)) (node_share s j l).
Proof.
  unfold node_share. rewrite concat_map, map_map. f_equal.
  apply map_ext. intros c. now rewrite of_class_map, dealt_map.
Qed.

Lemma node_share_fst (j : nat) (l : list (T * nat)) :
  concat (map (fun c => dealt s j c (map fst (of_class c l))) (seq 0 10))
  = map fst (node_share s j l).
Proof.
  unfold node_share. rewrite concat_map, map_map. f_equal.
  apply map_ext. intros c. apply dealt_map.
Qed.

Lemma node_share_snd (j : nat) (l : list (T * nat)) :
  concat (map (fun c => dealt s j c (map snd (of_class c l))) (seq 0 10))
  = map snd (node_share s j l).
Proof.
  unfold node_share. rewrite concat_map, map_map. f_equal.
  apply map_ext. intros c. apply dealt_map.
Qed.

(** The classes below [N] partition the samples with a label below [N]. *)
Lemma classes_partition (N : nat) (l : list (T * nat)) :
  Permutation (concat (map (fun c => of_class c l) (seq 0 N)))
              (filter (fun p => snd p <? N) l).
Proof.
  induction N as [| N IH].
  - simpl. induction l as [| p l IHl]; simpl; [constructor | exact IHl].
  - rewrite seq_S, map_app, concat_app. simpl. rewrite app_nil_r.
    eapply Permutation_trans; [apply Permutation_app_tail; exact IH |].
    clear IH. unfold of_class.
    induction l as [| p l IHl]; simpl; [constructor |].
    destruct (Nat.ltb_spec (snd p) N) as [Hlt | Hge].
    + destruct (Nat.eqb_spec (snd p) N) as [? | _]; [lia |].
      destruct (Nat.ltb_spec (snd p) (S N)) as [_ | ?]; [| lia].
      simpl. now constructor.
    + destruct (Nat.eqb_spec (snd p) N) as [E | Hne].
      * destruct (Nat.ltb_spec (snd p) (S N)) as [_ | ?]; [| lia].
        apply Permutation_sym, Permutation_cons_app, Permutation_sym. exact IHl.
      * destruct (Nat.ltb_spec (snd p) (S N)) as [? | _]; [lia |]. exact IHl.
Qed.

(** The share of node 0: the heads of the classes 0-4, then the tails of
    the classes 5-9; the share of node 1: the tails of the classes 0-4,
    then the heads of the classes 5-9. *)
Lemma node_share_0 (l : list (T * nat)) :
  node_share s 0 l
  = concat (map (fun c => firstn (skew_count (length (of_class c l)) s) (of_class c l))
                [0; 1; 2; 3; 4])
    ++ concat (map (fun c => skipn (skew_count (length (of_class c l)) s) (of_class c l))
                  [5; 6; 7; 8; 9]).
Proof. unfold node_share. simpl. rewrite <- !app_assoc. reflexivity. Qed.

Lemma node_share_1 (l : list (T * nat)) :
  node_share s 1 l
  = concat (map (fun c => skipn (skew_count (length (of_class c l)) s) (of_class c l))
                [0; 1; 2; 3; 4])
    ++ concat (map (fun c => firstn (skew_count (length (of_class c l)) s) (of_class c l))
                  [5; 6; 7; 8; 9]).
Proof. unfold node_share. simpl. rewrite <- !app_assoc. reflexivity. Qed.

(** Every sample with a label in 0..9 is dealt to exactly one of the two
    nodes. *)
Lemma node_shares_partition (l : list (T * nat)) :
  Forall (fun p => snd p < 10) l ->
  Permutation (node_share s 0 l ++ node_share s 1 l) l.
Proof.
  intros Hl. unfold node_share.
  eapply Permutation_trans; [apply concat_map_app |].
  eapply Permutation_trans with (concat (map (fun c => of_class c l) (seq 0 10))).
  - assert (Hseq : Forall (fun c => c < 10) (seq 0 10)).
    { apply Forall_forall. intros c Hc. apply in_seq in Hc. lia. }
    induction Hseq as [| c cs Hc _ IH]; simpl; [constructor |].
    apply Permutation_app; [now apply dealt_both | exact IH].
  - eapply Permutation_trans; [apply classes_partition |].
    replace (filter (fun p => snd p <? 10) l) with l; [apply Permutation_refl |].
    induction Hl as [| p l Hp _ IH]; simpl; [reflexivity |].
    destruct (Nat.ltb_spec (snd p) 10); [| lia]. now rewrite <- IH.
Qed.

End Shares.

Section Stacking.

Context {A : Type}.

(** [np.asarray] of a list of arrays of one shape stacks them. *)
Lemma np_asarray_stack (inner : list nat) (l : list (ndarray A)) :
  Forall (fun e => shape e = inner /\ length (flat e) = prod_dims inner) l ->
  rows (np_asarray l) = map (@flat A) l
  /\ well_shaped (np_asarray l)
  /\ exists inner', shape (np_asarray l) = length l :: inner'.
Proof.
  intros H. destruct l as [| r l'].
  - repeat split. exists []. reflexivity.
  - assert (Hr : shape r = inner) by (inversion H; tauto).
    assert (Hlen : Forall (fun f => length f = prod_dims inner) (map (@flat A) (r :: l'))).
    { apply Forall_map. eapply Forall_impl; [| exact H]. intros e He. apply He. }
    split; [| split].
    + unfold rows, np_asarray, row_size, shape0. cbn [shape flat hd tl]. rewrite Hr.
      rewrite <- (length_map (@flat A) (r :: l')). now apply chunks_concat.
    + unfold well_shaped, np_asarray, size. cbn [shape flat]. rewrite Hr.
      rewrite <- (length_map (@flat A) (r :: l')).
      clear - Hlen. induction Hlen as [| f fs Hf _ IH]; [reflexivity |].
      cbn [concat length prod_dims fold_right] in *. rewrite length_app, IH, Hf. unfold prod_dims. simpl. lia.
    + eexists. reflexivity.
Qed.

Lemma entries_flat (a : ndarray A) : map (@flat A) (entries a) = rows a.
Proof. unfold entries. rewrite map_map. apply map_id. Qed.

Lemma entries_shaped (a : ndarray A) (n : nat) (inner : list nat) :
  well_shaped a -> shape a = n :: inner ->
  Forall (fun e => shape e = inner /\ length (flat e) = prod_dims inner) (entries a).
Proof.
  intros Hw Hs. pose proof (rows_Forall_length a n inner Hw Hs) as H.
  unfold entries. apply Forall_map. rewrite Hs. simpl.
  eapply Forall_impl; [| exact H]. intros r Hr. simpl. split; [reflexivity |].
  unfold row_size in Hr. now rewrite Hs in Hr.
Qed.

Lemma rows_scalars (l : list A) : rows (np_asarray_scalars l) = map (fun v => [v]) l.
Proof.
  unfold rows, np_asarray_scalars, row_size, shape0. simpl.
  induction l as [| v l IH]; simpl; [reflexivity |]. now rewrite IH.
Qed.

Lemma concat_singletons_at (d : A) (l : list A) (indices : list nat) :
  Forall (fun i => i < length l) indices ->
  concat (map (fun i => nth i (map (fun v => [v]) l) []) indices)
  = map (fun i => nth i l d) indices.
Proof.
  induction 1 as [| i indices Hi _ IH]; simpl; [reflexivity |].
  rewrite IH.
  rewrite (nth_indep _ [] [d]) by now rewrite length_map.
  rewrite (map_nth (fun v => [v])). reflexivity.
Qed.

End Stacking.

Lemma dealt_incl {T} (s : float64) (j c : nat) (l : list T) : incl (dealt s j c l) l.
Proof.
  unfold dealt. intros a Ha.
  rewrite <- (firstn_skipn (skew_count (length l) s) l). apply in_or_app.
  destruct (c / 5 =? j); [left | right]; exact Ha.
Qed.

Lemma node_share_incl {T} (s : float64) (j : nat) (l : list (T * nat)) :
  incl (node_share s j l) l.
Proof.
  unfold node_share. intros p Hp.
  apply in_concat in Hp. destruct Hp as (share & Hs & Hin).
  apply in_map_iff in Hs. destruct Hs as (c & <- & _).
  apply dealt_incl in Hin. unfold of_class in Hin. apply filter_In in Hin. tauto.
Qed.

Lemma combine_map_same {I X Y} (f : I -> X) (g : I -> Y) (l : list I) :
  combine (map f l) (map g l) = map (fun i => (f i, g i)) l.
Proof. induction l as [| i l IH]; simpl; [reflexivity | now rewrite IH]. Qed.

Lemma combine_map_fst_snd {X X' Y} (f : X -> X') (l : list (X * Y)) :
  combine (map f (map fst l)) (map snd l) = map (fun p => (f (fst p), snd p)) l.
Proof. induction l as [| p l IH]; simpl; [reflexivity | now rewrite IH]. Qed.

Lemma map_fst_combine {X X' Y} (f : X -> X') (a : list X) (b : list Y) :
  map (fun p => (f (fst p), snd p)) (combine a b) = combine (map f a) b.
Proof.
  revert b. induction a as [| x a IH]; intros [| y b]; simpl; try reflexivity.
  now rewrite IH.
Qed.

Section SkewedSplit.

Variable Env : Type.
Variable np_random_permutation : nat -> Env -> list nat * Env.

Hypothesis np_random_permutation_spec :
  forall n e, Permutation (fst (np_random_permutation n e)) (seq 0 n).

(** The final loop keeps every image of a partition with its label. *)
Lemma shuffle_partition_spec (inner : list nat)
  (images : list (ndarray float32)) (labels : list nat) (st : state Env) :
  Forall (fun e => shape e = inner /\ length (flat e) = prod_dims inner) images ->
  length labels = length images ->
  exists p q,
    shuffle_partition np_random_permutation (np_asarray images) (np_asarray_scalars labels) st
      = (Ok (p, q), State (self st) (snd (np_random_permutation (length images) (env st))))
    /\ Permutation (labelled p q) (combine (map (@flat float32) images) labels)
    /\ length (rows p) = length (flat q).
Proof.
  intros Himg Hlen.
  destruct (np_asarray_stack inner images Himg) as (Hrows & Hw & inner' & Hshape).
  set (x0 := np_asarray images) in *. set (y0 := np_asarray_scalars labels).
  assert (Hn : shape0 x0 = length images) by (unfold shape0; now rewrite Hshape).
  set (indices := fst (np_random_permutation (length images) (env st))).
  pose proof (np_random_permutation_spec (length images) (env st)) as Hperm.
  fold indices in Hperm.
  pose proof (permutation_indices_bound _ _ Hperm) as Hbound.
  assert (Hy0 : shape y0 = [length images]) by (unfold y0, np_asarray_scalars; simpl; now rewrite Hlen).
  exists (with_rows x0 (rows_at x0 indices)), (with_rows y0 (rows_at y0 indices)).
  assert (Hrp : rows (with_rows x0 (rows_at x0 indices)) = rows_at x0 indices).
  { apply rows_with_rows. now apply (rows_at_Forall_length x0 (length images) inner'). }
  assert (Hfq : flat (with_rows y0 (rows_at y0 indices))
                = map (fun i => nth i labels 0) indices).
  { unfold with_rows, rows_at. cbn [flat]. unfold y0. rewrite rows_scalars.
    apply concat_singletons_at. now rewrite Hlen. }
  split; [| split].
  - unfold shuffle_partition. rewrite bind_extern, Hn. fold indices.
    rewrite (bind_lift_ok _ _ _ _ (int_index_ok x0 _ inner' indices Hshape Hbound)).
    rewrite (bind_lift_ok _ _ _ _ (int_index_ok y0 _ [] indices Hy0 Hbound)).
    reflexivity.
  - unfold labelled. rewrite Hrp, Hfq. unfold rows_at. rewrite Hrows.
    rewrite combine_map_same.
    eapply Permutation_trans;
      [| apply (permutation_rows ([], 0) (combine (map (@flat float32) images) labels) indices)].
    + erewrite map_ext; [apply Permutation_refl |].
      intros i. cbv beta. symmetry. apply combine_nth. now rewrite length_map.
    + now rewrite length_combine, length_map, Hlen, Nat.min_id.
  - rewrite Hrp, Hfq. unfold rows_at. now rewrite !length_map.
Qed.

(** C2, as amended.  [create_skewed_partition_split] on a stored training
    set of fewer than 2^53 images with a one-dimensional label array,
    labels in 0..9 and a double [s] in [0, 1] as skew factor: it returns
    two partitions; every class [c] of [n_c] samples is cut at
    [k_c = min(int(n_c * s), n_c)], the product being rounded to a double
    before [int] truncates it; node 0 holds the first [k_c] samples of
    every class of 0-4 and the remaining [n_c - k_c] samples of every class
    of 5-9, node 1 the first [k_c] samples of every class of 5-9 and the
    remaining ones of every class of 0-4, each partition in a random order
    and every image with its own label; every training sample is in exactly
    one of the two partitions. *)
Theorem skewed_split_correct
  (s : state Env) (xt : ndarray Z) (yt : ndarray nat) (xe : ndarray Z) (ye : ndarray nat)
  (skew_factor : float64) :
  loaded (self s) xt yt xe ye ->
  length (shape yt) = 1 ->
  Forall (fun label => label < 10) (flat yt) ->
  unit_double skew_factor ->
  (Z.of_nat (shape0 yt) < 2 ^ 53)%Z ->
  exists p0 p1 q0 q1,
    fst (create_skewed_partition_split np_random_permutation skew_factor s)
      = Ok ([p0; p1], [q0; q1], normalized (dataset (self s)) xe, ye)
    /\ Permutation (labelled p0 q0)
         (node_share skew_factor 0 (labelled (normalized (dataset (self s)) xt) yt))
    /\ Permutation (labelled p1 q1)
         (node_share skew_factor 1 (labelled (normalized (dataset (self s)) xt) yt))
    /\ length (rows p0) = length (flat q0)
    /\ length (rows p1) = length (flat q1)
    /\ Permutation (labelled p0 q0 ++ labelled p1 q1)
         (labelled (normalized (dataset (self s)) xt) yt)
    /\ forall n, n <= shape0 yt ->
         exists k, num_samples_for_node_1 n skew_factor = Ok k
                   /\ (0 <= k)%Z
                   /\ skew_count n skew_factor = Nat.min (Z.to_nat k) n.
Proof.
  intros (Hxt & Hyt & Hxe & Hye & Hwx & Hwy & Hnx & Hne & inner_y & Hsy) H1d Hlab Hunit Hsize.
  set (ds := dataset (self s)) in *.
  set (nx := normalized ds xt) in *.
  set (n := shape0 nx) in *.
  assert (Hsy1 : shape yt = [n]).
  { rewrite Hsy in H1d |- *. destruct inner_y; [reflexivity | discriminate]. }
  destruct (normalized_shape ds xt Hnx) as [inner_x Hsx]. fold nx in Hsx. fold n in Hsx.
  pose proof (normalized_well_shaped ds xt Hnx Hwx) as Hwnx. fold nx in Hwnx.
  set (tagged := combine (entries nx) (flat yt)).
  assert (Hny : length (flat yt) = n) by (apply (flat_y_length yt n Hsy1 Hwy)).
  (* the first loop *)
  destruct (group_by_label_spec nx yt n inner_x Hsx Hsy1 Hwy n 0 (repeat [] 10) (repeat [] 10))
    as (xb & yb & Hgroup & Hlxb & Hlyb & Hbuckets).
  { lia. }
  { now rewrite !repeat_length. }
  { now rewrite repeat_length. }
  rewrite repeat_length in Hlxb, Hlyb.
  assert (Hxb : forall c, nth c xb [] = map fst (of_class c tagged)).
  { intros c. destruct (Hbuckets c) as [-> _]. rewrite nth_repeat. simpl skipn.
    rewrite firstn_all2; [reflexivity |].
    rewrite length_combine, (entries_length nx n inner_x Hsx), Hny. lia. }
  assert (Hyb : forall c, nth c yb [] = map snd (of_class c tagged)).
  { intros c. destruct (Hbuckets c) as [_ ->]. rewrite nth_repeat. simpl skipn.
    rewrite firstn_all2; [reflexivity |].
    rewrite length_combine, (entries_length nx n inner_x Hsx), Hny. lia. }
  (* the second loop *)
  assert (Hsize_n : (Z.of_nat n < 2 ^ 53)%Z).
  { unfold shape0 in Hsize. rewrite Hsy1 in Hsize. exact Hsize. }
  assert (Hcut : forall m, m <= n ->
                   exists k, num_samples_for_node_1 m skew_factor = Ok k /\ (0 <= k)%Z).
  { intros m Hm. apply num_samples_for_node_1_defined; [exact Hunit | lia]. }
  destruct (skew_loop_spec skew_factor xb yb) with (classes := seq 0 10)
    (sx := [[]; []] : list (list (ndarray float32))) (sy := [[]; []] : list (list nat))
    as (sx & sy & Hskew & Hlsx & Hlsy & Hslots).
  { intros c. now rewrite Hxb, Hyb, !length_map. }
  { lia. }
  { apply Forall_forall. intros c Hc. apply in_seq in Hc.
    split; [lia | split; [lia |]].
    destruct (Hcut (length (nth c xb []))) as (k & Hk & _); [| eauto].
    rewrite Hxb, length_map. unfold of_class.
    eapply Nat.le_trans; [apply filter_length_le |].
    unfold tagged. rewrite length_combine, (entries_length nx n inner_x Hsx), Hny. lia. }
  { reflexivity. }
  { reflexivity. }
  assert (Hsx_j : forall j, j < 2 -> nth j sx [] = map fst (node_share skew_factor j tagged)).
  { intros j Hj. destruct (Hslots j Hj) as [-> _].
    destruct j as [| [| ?]]; [| | lia]; cbn [nth app];
      rewrite <- node_share_fst; f_equal; apply map_ext; intros c; now rewrite Hxb. }
  assert (Hsy_j : forall j, j < 2 -> nth j sy [] = map snd (node_share skew_factor j tagged)).
  { intros j Hj. destruct (Hslots j Hj) as [_ ->].
    destruct j as [| [| ?]]; [| | lia]; cbn [nth app];
      rewrite <- node_share_snd; f_equal; apply map_ext; intros c; now rewrite Hyb. }
  (* the images of a share are entries of the normalised training set *)
  assert (Hshaped : forall j,
             Forall (fun e => shape e = inner_x /\ length (flat e) = prod_dims inner_x)
                    (map fst (node_share skew_factor j tagged))).
  { intros j. pose proof (entries_shaped nx n inner_x Hwnx Hsx) as He.
    rewrite Forall_forall in He. apply Forall_forall. intros e Hin.
    apply in_map_iff in Hin. destruct Hin as ([e' l] & <- & Hin).
    apply node_share_incl in Hin. apply in_combine_l in Hin. now apply He. }
  assert (Hrelabel : forall j,
             combine (map (@flat float32) (map fst (node_share skew_factor j tagged)))
                     (map snd (node_share skew_factor j tagged))
             = node_share skew_factor j (labelled nx yt)).
  { intros j. rewrite combine_map_fst_snd, <- node_share_map. f_equal.
    unfold tagged, labelled. now rewrite map_fst_combine, entries_flat. }
  (* the final loop, twice *)
  destruct (shuffle_partition_spec inner_x _ (map snd (node_share skew_factor 0 tagged)) s
              (Hshaped 0)) as (p0 & q0 & Hrun0 & Hperm0 & Hlen0).
  { now rewrite !length_map. }
  set (s1 := State (self s) (snd (np_random_permutation
                       (length (map fst (node_share skew_factor 0 tagged))) (env s)))) in *.
  destruct (shuffle_partition_spec inner_x _ (map snd (node_share skew_factor 1 tagged)) s1
              (Hshaped 1)) as (p1 & q1 & Hrun1 & Hperm1 & Hlen1).
  { now rewrite !length_map. }
  rewrite Hrelabel in Hperm0, Hperm1.
  exists p0, p1, q0, q1.
  split; [| repeat split; try assumption].
  - unfold create_skewed_partition_split.
    rewrite (bind_getattr_bound _ _ _ _ Hxt).
    rewrite (bind_ok _ _ _ _ _ (normalize_data_normalized xt s Hnx)).
    rewrite (bind_getattr_bound _ _ _ _ Hxe).
    rewrite (bind_ok _ _ _ _ _ (normalize_data_normalized xe s Hne)).
    rewrite (bind_getattr_bound _ _ _ _ Hyt).
    fold ds nx.
    assert (Hpylen : py_len yt = Ok n) by (unfold py_len; now rewrite Hsy1).
    rewrite (bind_lift_ok _ _ _ _ Hpylen).
    rewrite py_range_unit.
    rewrite (bind_lift_ok _ _ _ _ Hgroup). cbn [fst snd].
    rewrite py_range_unit.
    rewrite (bind_lift_ok _ _ _ _ Hskew). cbn [fst snd].
    rewrite (Hsx_j 0), (Hsx_j 1), (Hsy_j 0), (Hsy_j 1) by lia.
    rewrite (bind_ok _ _ _ _ _ Hrun0). fold s1.
    rewrite (bind_ok _ _ _ _ _ Hrun1).
    rewrite (bind_getattr_bound _ _ _ ye) by exact Hye.
    reflexivity.
  - eapply Permutation_trans; [apply Permutation_app; eassumption |].
    apply node_shares_partition.
    unfold labelled. apply Forall_forall. intros [r l] Hin.
    apply in_combine_r in Hin. rewrite Forall_forall in Hlab. now apply Hlab.
  - intros m Hm.
    assert (Hmn : m <= n) by (unfold shape0 in Hm; rewrite Hsy1 in Hm; exact Hm).
    destruct (Hcut m Hmn) as (k & Hk & H0).
    exists k. split; [exact Hk | split; [exact H0 | now apply skew_count_min]].
Qed.

End SkewedSplit.

(* ================================================================= *)
(** ** The class-partitioned strategy *)

Section PartitionedDatasets.

Variable Env : Type.

(** C4, as amended.  [create_partitioned_datasets] on a stored training
    set with a one- or two-dimensional label array, for 2, 5 or 10 nodes
    and when no class block holds the labels of all training samples: it
    returns exactly [num_nodes] partitions of images and [num_nodes]
    partitions of labels. *)
Theorem partition_count
  (s : state Env) (xt : ndarray Z) (yt : ndarray nat) (xe : ndarray Z) (ye : ndarray nat) :
  loaded (self s) xt yt xe ye ->
  label_array yt ->
  num_nodes (self s) = 2 \/ num_nodes (self s) = 5 \/ num_nodes (self s) = 10 ->
  Forall (fun block => covers block yt = false) (class_blocks (num_nodes (self s))) ->
  exists px py,
    fst (create_partitioned_datasets s) = Ok (px, py, normalized (dataset (self s)) xe, ye)
    /\ length px = num_nodes (self s)
    /\ length py = num_nodes (self s).
Proof.
  intros (Hxt & Hyt & Hxe & Hye & Hwx & Hwy & Hnx & Hne & inner_y & Hsy) Hlabels Hn Hcov.
  set (ds := dataset (self s)) in *.
  set (nx := normalized ds xt) in *.
  destruct (normalized_shape ds xt Hnx) as [inner_x Hsx]. fold nx in Hsx.
  pose proof (normalized_well_shaped ds xt Hnx Hwx) as Hwnx. fold nx in Hwnx.
  assert (Hny : shape0 yt = shape0 nx) by (unfold shape0 at 1; now rewrite Hsy).
  assert (Hblocks : exists blocks,
             partitioned_classes (num_nodes (self s)) = Ok blocks
             /\ length blocks = num_nodes (self s)).
  { destruct Hn as [-> | [-> | ->]]; eexists; split; reflexivity. }
  destruct Hblocks as (blocks & Hb & Hlen).
  unfold class_blocks in Hcov. rewrite Hb in Hcov.
  destruct (split_count nx yt (shape0 nx) inner_x Hsx Hlabels Hny _ blocks Hb Hcov)
    as (px & py & Hsplit & Hpx & Hpy).
  exists px, py. split; [| split; congruence].
  unfold create_partitioned_datasets.
  rewrite bind_getattr.
  rewrite (bind_getattr_bound _ _ _ _ Hxt).
  rewrite (bind_ok _ _ _ _ _ (normalize_data_normalized xt s Hnx)).
  rewrite (bind_getattr_bound _ _ _ _ Hxe).
  rewrite (bind_ok _ _ _ _ _ (normalize_data_normalized xe s Hne)).
  rewrite (bind_getattr_bound _ _ _ _ Hyt).
  fold ds nx.
  rewrite (bind_lift_ok _ _ _ _ Hsplit).
  rewrite (bind_getattr_bound _ _ _ ye) by exact Hye.
  reflexivity.
Qed.

End PartitionedDatasets.

(* ================================================================= *)
(** ** The object is only read *)

Section Frame.

Variable Env : Type.
Variable r : runner.

Lemma reads_bind {A B} (m : M Env A) (k : A -> M Env B) (Q : A -> Prop) (R : B -> Prop) :
  reads r m Q -> (forall a, Q a -> reads r (k a) R) -> reads r (bind m k) R.
Proof.
  intros Hm Hk s Hs. unfold bind. destruct (Hm s Hs) as [Hself HQ].
  destruct (m s) as [[a | e] s1]; simpl in *.
  - apply (Hk a HQ s1 Hself).
  - split; [assumption | exact I].
Qed.

Lemma reads_ret {A} (a : A) : reads r (ret (Env := Env) a) (fun b => b = a).
Proof. intros s Hs. split; [assumption | reflexivity]. Qed.

Lemma reads_lift {A} (x : result A) : reads r (lift (Env := Env) x) (fun _ => True).
Proof. intros s Hs. split; [assumption | now destruct x]. Qed.

Lemma reads_getattr {A} (attr : runner -> A) :
  reads r (getattr (Env := Env) attr) (fun a => a = attr r).
Proof. intros s Hs. split; [assumption | simpl; now rewrite Hs]. Qed.

Lemma reads_getattr_bound {A} (attr : runner -> option A) :
  reads r (getattr_bound (Env := Env) attr) (fun a => attr r = Some a).
Proof.
  intros s Hs. unfold getattr_bound. rewrite Hs.
  destruct (attr r); simpl; split; auto.
Qed.

Lemma reads_extern {A} (f : Env -> A * Env) : reads r (extern f) (fun _ => True).
Proof. intros s Hs. unfold extern. destruct (f (env s)). simpl. split; auto. Qed.

Lemma reads_weaken {A} (m : M Env A) (Q Q' : A -> Prop) :
  reads r m Q -> (forall a, Q a -> Q' a) -> reads r m Q'.
Proof.
  intros Hm HQ s Hs. destruct (Hm s Hs) as [Hself Hres]. split; [assumption |].
  destruct (fst (m s)); auto.
Qed.

(** [normalize_data] returns the normalised copy. *)
Lemma reads_normalize_data (data : ndarray Z) :
  reads r (normalize_data (Env := Env) data) (fun a => a = normalized (dataset r) data).
Proof.
  intros s Hs. split.
  - now rewrite normalize_data_frame.
  - destruct (shape_at data 1) as [image_size | e] eqn:Hshape.
    + destruct (channels (dataset (self s))) as [C |] eqn:HC.
      * rewrite (normalize_data_known Env data s image_size C Hshape HC). simpl.
        unfold np_reshape_infer.
        destruct (_ || _); [exact I |].
        unfold normalized. rewrite <- Hs, Hshape, HC.
        unfold np_true_divide, astype_float32, map_array. simpl. rewrite map_map.
        assert (E : image_size * (image_size * (C * 1)) = image_size * image_size * C) by lia.
        rewrite E. reflexivity.
      * rewrite (normalize_data_unknown Env data s image_size Hshape HC). exact I.
    + unfold normalize_data, bind, lift. rewrite Hshape. exact I.
Qed.

End Frame.

Ltac reads_step :=
  first
    [ apply reads_ret
    | eapply reads_bind;
      [ first [ apply reads_getattr | apply reads_getattr_bound | apply reads_lift
              | apply reads_extern | apply reads_normalize_data ]
      | cbv beta; intros ]
    ].

Section SplitsOnlyRead.

Variable Env : Type.
Variable np_random_permutation : nat -> Env -> list nat * Env.

Lemma reads_shuffle_partition (r : runner) (x : ndarray float32) (y : ndarray nat) :
  reads r (shuffle_partition np_random_permutation x y) (fun _ => True).
Proof.
  unfold shuffle_partition. repeat reads_step.
  eapply reads_weaken; [apply reads_ret | auto].
Qed.

Lemma random_split_reads (r : runner) :
  reads r (random_split np_random_permutation)
        (fun v => returns_test_set r (Ok v)).
Proof.
  unfold random_split. repeat reads_step.
  eapply reads_weaken; [apply reads_ret |].
  intros v ->. simpl. split; [assumption |]. eexists. split; [eassumption |].
  unfold test_images. simpl. assumption.
Qed.

Lemma create_skewed_partition_split_reads (r : runner) (skew_factor : float64) :
  reads r (create_skewed_partition_split np_random_permutation skew_factor)
        (fun v => returns_test_set r (Ok v)).
Proof.
  unfold create_skewed_partition_split. repeat reads_step.
  eapply reads_bind; [apply reads_shuffle_partition | cbv beta; intros].
  eapply reads_bind; [apply reads_shuffle_partition | cbv beta; intros].
  repeat reads_step.
  eapply reads_weaken; [apply reads_ret |].
  intros v ->. simpl. split; [assumption |]. eexists. split; [eassumption |].
  unfold test_images. simpl. assumption.
Qed.

Lemma create_partitioned_datasets_reads (r : runner) :
  reads r (create_partitioned_datasets (Env := Env))
        (fun v => returns_test_set r (Ok v)).
Proof.
  unfold create_partitioned_datasets. repeat reads_step.
  eapply reads_weaken; [apply reads_ret |].
  intros v ->. simpl. split; [assumption |]. eexists. split; [eassumption |].
  unfold test_images. simpl. assumption.
Qed.

Lemma reads_returns_test_set (r : runner) (m : M Env split_result) (s : state Env) :
  reads r m (fun v => returns_test_set r (Ok v)) ->
  self s = r ->
  self (snd (m s)) = self s /\ returns_test_set (self s) (fst (m s)).
Proof.
  intros Hm Hs. destruct (Hm s Hs) as [Hself Hres]. rewrite Hs. split; [assumption |].
  destruct (fst (m s)); [exact Hres | exact I].
Qed.

(** C10.  Frame property of the three splitting strategies: whatever the
    state of the object and of the world, and whether the call returns or
    raises, [random_split], [create_skewed_partition_split] and
    [create_partitioned_datasets] leave every attribute of the object as it
    was, in particular [x_train], [y_train], [x_test] and [y_test]; when
    the call returns, its test labels are the stored [y_test] itself and
    its test images are the normalised copy of the stored [x_test]. *)
Theorem splits_only_read (s : state Env) (skew_factor : float64) :
  (self (snd (random_split np_random_permutation s)) = self s
   /\ returns_test_set (self s) (fst (random_split np_random_permutation s)))
  /\ (self (snd (create_skewed_partition_split np_random_permutation skew_factor s)) = self s
      /\ returns_test_set (self s)
           (fst (create_skewed_partition_split np_random_permutation skew_factor s)))
  /\ (self (snd (create_partitioned_datasets s)) = self s
      /\ returns_test_set (self s) (fst (create_partitioned_datasets s))).
Proof.
  split; [| split].
  - apply (reads_returns_test_set (self s)); [apply random_split_reads | reflexivity].
  - apply (reads_returns_test_set (self s)); [apply create_skewed_partition_split_reads | reflexivity].
  - apply (reads_returns_test_set (self s)); [apply create_partitioned_datasets_reads | reflexivity].
Qed.

End SplitsOnlyRead.

(* ================================================================= *)
(** ** The models *)

Lemma built_length {Env Model} (build : Env -> Model * Env) (n : nat) (e : Env) :
  length (fst (built build n e)) = n.
Proof.
  revert e. induction n as [| n IH]; intros e; simpl; [reflexivity |].
  destruct (build e) as [m e1]. specialize (IH e1).
  destruct (built build n e1) as [ms e2]. simpl in *. now rewrite IH.
Qed.

Section Models.

Variables Env Model : Type.
Variable SimpleMnistModel_run : float64 -> Env -> Model * Env.
Variable ResNetModelBuilder_run : float64 -> string -> string -> Env -> Model * Env.

(** The list comprehension calls the builder once per node, each call in
    the world the previous one left. *)
Lemma comprehension_built (build : float64 -> Env -> Model * Env) (n : nat) (s : state Env) :
  comprehension n (bind (getattr lr) (fun rate => extern (build rate))) s
  = (Ok (fst (built (build (lr (self s))) n (env s))),
     State (self s) (snd (built (build (lr (self s))) n (env s)))).
Proof.
  revert s. induction n as [| n IH]; intros [r e]; simpl; [reflexivity |].
  unfold bind at 1. rewrite bind_getattr. unfold extern at 1. simpl.
  destruct (build (lr r) e) as [m e1].
  unfold bind at 1. rewrite IH. simpl.
  destruct (built (build (lr r)) n e1) as [ms e2]. reflexivity.
Qed.

(** C8.  [create_models]: when the net is "simple", and when the net is
    "resnet50" and the dataset is not "mnist", it returns the list of the
    [num_nodes] models that [num_nodes] successive calls of
    [SimpleMnistModel(lr).run()], respectively of
    [ResNetModelBuilder(lr, "ResNet50", "imagenet").run()], build; when
    the dataset is "mnist" and the net is not "simple" it raises
    [AssertionError]. *)
Theorem create_models_per_node (s : state Env) :
  (net (self s) = "simple"%string ->
   exists models,
     fst (create_models SimpleMnistModel_run ResNetModelBuilder_run s) = Ok (Some models)
     /\ models = fst (built (SimpleMnistModel_run (lr (self s))) (num_nodes (self s)) (env s))
     /\ length models = num_nodes (self s))
  /\ (net (self s) = "resnet50"%string -> dataset (self s) <> "mnist"%string ->
      exists models,
        fst (create_models SimpleMnistModel_run ResNetModelBuilder_run s) = Ok (Some models)
        /\ models = fst (built (ResNetModelBuilder_run (lr (self s)) "ResNet50" "imagenet")
                               (num_nodes (self s)) (env s))
        /\ length models = num_nodes (self s))
  /\ (dataset (self s) = "mnist"%string -> net (self s) <> "simple"%string ->
      fst (create_models SimpleMnistModel_run ResNetModelBuilder_run s)
      = Raise (AssertionError ("Net not supported: " ++ net (self s) ++ " for mnist"))).
Proof.
  split; [| split].
  - intros Hnet. eexists. split; [| split; [reflexivity | apply built_length]].
    unfold create_models. rewrite !bind_getattr, Hnet.
    destruct (String.eqb (dataset (self s)) "mnist"); simpl String.eqb; cbv iota;
      unfold bind at 1; unfold ret at 1; rewrite bind_getattr;
      unfold bind at 1; rewrite comprehension_built; reflexivity.
  - intros Hnet Hds. eexists. split; [| split; [reflexivity | apply built_length]].
    unfold create_models. rewrite !bind_getattr, Hnet.
    destruct (String.eqb_spec (dataset (self s)) "mnist") as [? | _]; [contradiction |].
    simpl String.eqb. cbv iota.
    unfold bind at 1; unfold ret at 1; rewrite bind_getattr;
      unfold bind at 1; rewrite comprehension_built; reflexivity.
  - intros Hds Hnet. unfold create_models. rewrite !bind_getattr, Hds.
    simpl String.eqb. cbv iota.
    destruct (String.eqb_spec (net (self s)) "simple") as [? | _]; [contradiction |].
    reflexivity.
Qed.

End Models.

(* ================================================================= *)
(** ** The dataloader *)

Lemma py_range_nonempty (n step : nat) :
  0 < n -> 0 < step -> exists i rest, py_range 0 n step = i :: rest.
Proof.
  intros Hn Hs. unfold py_range. rewrite Nat.sub_0_r.
  assert (H : 1 <= (n + (step - 1)) / step).
  { apply Nat.div_le_lower_bound; lia. }
  destruct ((n + (step - 1)) / step) as [| k]; [lia |].
  simpl. eauto.
Qed.

Section Dataloader.

Variable r : runner.
Variable node_idx : Z.
Variables (px : list (ndarray float32)) (py : list (ndarray nat)).
Variables (x : ndarray float32) (y : ndarray nat).
Variables (n : nat) (inner : list nat).
Hypothesis px_bound : partitioned_x_train r = Some px.
Hypothesis py_bound : partitioned_y_train r = Some py.
Hypothesis x_partition : py_getitem px node_idx = Ok x.
Hypothesis y_partition : py_getitem py node_idx = Ok y.
Hypothesis x_shape : shape x = n :: inner.
Hypothesis x_nonempty : 0 < n.
Hypothesis batch_positive : 0 < batch_size r.

Lemma step_created : step r (Created node_idx) = (Silent, AtWhile node_idx px py).
Proof. simpl. now rewrite px_bound, py_bound. Qed.

Lemma step_while :
  exists i rest, step r (AtWhile node_idx px py) = (Silent, InFor node_idx px py (i :: rest)).
Proof.
  destruct (py_range_nonempty n (batch_size r) x_nonempty batch_positive) as (i & rest & Hr).
  exists i, rest. simpl. rewrite x_partition. unfold py_len. rewrite x_shape.
  destruct (Nat.eqb_spec (batch_size r) 0); [lia |]. now rewrite Hr.
Qed.

Lemma step_for (i : nat) (rest : list nat) :
  step r (InFor node_idx px py (i :: rest))
  = (Yield (slice_rows x i (i + batch_size r)) (slice_rows y i (i + batch_size r)),
     InFor node_idx px py rest).
Proof. simpl. now rewrite x_partition, y_partition. Qed.

Lemma live_intro (g : dataloader) :
  g = Created node_idx \/ g = AtWhile node_idx px py
  \/ (exists remaining, g = InFor node_idx px py remaining) ->
  live r node_idx g.
Proof. intros H. exists px, py. auto. Qed.

Lemma live_cases (g : dataloader) :
  live r node_idx g ->
  g = Created node_idx \/ g = AtWhile node_idx px py
  \/ (exists remaining, g = InFor node_idx px py remaining).
Proof.
  intros (px' & py' & Hx & Hy & H). rewrite px_bound in Hx. rewrite py_bound in Hy.
  injection Hx as <-. injection Hy as <-. exact H.
Qed.

(** Every step of a live dataloader is silent or a yield, and leaves it
    live. *)
Lemma step_live (g : dataloader) :
  live r node_idx g ->
  exists ev g', step r g = (ev, g') /\ live r node_idx g'
    /\ (ev = Silent \/ exists xb yb, ev = Yield xb yb).
Proof.
  intros Hg. destruct (live_cases g Hg) as [-> | [-> | [[| i rest] ->]]].
  - rewrite step_created. do 2 eexists. split; [reflexivity |].
    split; [apply live_intro; auto | auto].
  - destruct step_while as (i & rest & ->). do 2 eexists. split; [reflexivity |].
    split; [apply live_intro; eauto | auto].
  - do 2 eexists. split; [reflexivity |]. split; [apply live_intro; auto | auto].
  - rewrite step_for. do 2 eexists. split; [reflexivity |].
    split; [apply live_intro; eauto | eauto].
Qed.

Lemma exhaust_live (fuel : nat) (g : dataloader) :
  live r node_idx g -> exhaust fuel r g = None.
Proof.
  revert g. induction fuel as [| fuel IH]; intros g Hg; [reflexivity |].
  destruct (step_live g Hg) as (ev & g' & Hstep & Hg' & [-> | (xb & yb & ->)]);
    cbn [exhaust]; rewrite Hstep, (IH g' Hg'); reflexivity.
Qed.

(** The starts of the batches of one pass over the partition. *)
Let pass : list nat := py_range 0 n (batch_size r).
Let per_pass : nat := (n + (batch_size r - 1)) / batch_size r.

Lemma pass_length : length pass = per_pass.
Proof.
  unfold pass, per_pass, py_range. now rewrite length_map, length_seq, Nat.sub_0_r.
Qed.

Lemma per_pass_positive : 0 < per_pass.
Proof. unfold per_pass. apply Nat.div_le_lower_bound; lia. Qed.

Lemma pass_nth (t : nat) : t < per_pass -> nth t pass 0 = t * batch_size r.
Proof.
  intros Ht. unfold pass, py_range. rewrite Nat.sub_0_r. fold per_pass.
  rewrite (nth_indep _ 0 (0 + 0 * batch_size r)) by (now rewrite length_map, length_seq).
  rewrite (map_nth (fun j => 0 + j * batch_size r)), seq_nth by assumption. lia.
Qed.

Lemma pass_skipn (t : nat) :
  t < per_pass -> skipn t pass = t * batch_size r :: skipn (S t) pass.
Proof.
  intros Ht. rewrite <- (pass_nth t Ht). rewrite <- pass_length in Ht.
  clear - Ht. revert t Ht. induction pass as [| a l IH]; intros t Ht; simpl in Ht; [lia |].
  destruct t as [| t]; [reflexivity |]. simpl. apply IH. lia.
Qed.

Lemma step_while_pass : step r (AtWhile node_idx px py) = (Silent, InFor node_idx px py pass).
Proof.
  simpl. rewrite x_partition. unfold py_len. rewrite x_shape.
  destruct (Nat.eqb_spec (batch_size r) 0); [lia | reflexivity].
Qed.

(** The control point after [j] batches. *)
Let after (j : nat) : dataloader :=
  match j with
  | 0 => Created node_idx
  | S j' => InFor node_idx px py (skipn (j' mod per_pass + 1) pass)
  end.

Lemma batch_at_start (j : nat) :
  batch_at x y (batch_size r) j
  = (slice_rows x (j mod per_pass * batch_size r)
                  (j mod per_pass * batch_size r + batch_size r),
     slice_rows y (j mod per_pass * batch_size r)
                  (j mod per_pass * batch_size r + batch_size r)).
Proof. unfold batch_at, shape0. rewrite x_shape. reflexivity. Qed.

Lemma next_after (j : nat) :
  next 3 r (after j)
  = Some (Yield (fst (batch_at x y (batch_size r) j)) (snd (batch_at x y (batch_size r) j)),
          after (S j)).
Proof.
  pose proof per_pass_positive as Hpos.
  rewrite batch_at_start. cbn [fst snd].
  destruct j as [| j]; cbn [after].
  - cbn [next]. rewrite step_created, step_while_pass.
    rewrite <- (skipn_O pass), (pass_skipn 0 Hpos), step_for.
    rewrite Nat.Div0.mod_0_l. reflexivity.
  - pose proof (Nat.mod_upper_bound j per_pass ltac:(lia)) as Ht.
    pose proof (Nat.div_mod_eq j per_pass) as Hdm.
    destruct (Nat.eq_dec (j mod per_pass + 1) per_pass) as [Hlast | Hmore].
    + assert (Hmod : S j mod per_pass = 0).
      { symmetry. apply (Nat.mod_unique (S j) per_pass (S (j / per_pass)) 0); lia. }
      rewrite Hmod, Hlast, skipn_all2 by (rewrite pass_length; lia).
      cbn [next]. change (step r (InFor node_idx px py [])) with (Silent, AtWhile node_idx px py).
      cbv iota. rewrite step_while_pass.
      rewrite <- (skipn_O pass), (pass_skipn 0 Hpos), step_for. reflexivity.
    + assert (Hmod : S j mod per_pass = j mod per_pass + 1).
      { symmetry. apply (Nat.mod_unique (S j) per_pass (j / per_pass) (j mod per_pass + 1)); lia. }
      rewrite Hmod, (pass_skipn (j mod per_pass + 1)) by lia.
      rewrite (Nat.add_1_r (j mod per_pass + 1)).
      cbn [next]. rewrite step_for. reflexivity.
Qed.

Lemma batches_after (k j : nat) :
  batches k 3 r (after j) = Some (map (batch_at x y (batch_size r)) (seq j k)).
Proof.
  revert j. induction k as [| k IH]; intros j; [reflexivity |].
  cbn [batches seq map]. rewrite next_after, IH.
  now destruct (batch_at x y (batch_size r) j).
Qed.

(** C5, as amended.  The dataloader of a node whose partition is not empty,
    for a positive batch size, is an endless generator: every call of
    [next] completes within three steps of the body and yields the next
    batch of a walk that wraps around at the end of the partition, so that
    every number [k] of batches is reached, and exhausting the generator
    never completes, whatever the number of steps. *)
Theorem dataloader_never_stops :
  (forall k,
      batches k 3 r (Created node_idx)
      = Some (map (batch_at x y (batch_size r)) (seq 0 k)))
  /\ (forall fuel, exhaust fuel r (Created node_idx) = None).
Proof.
  split.
  - intros k. apply (batches_after k 0).
  - intros fuel. apply exhaust_live. apply live_intro. auto.
Qed.

End Dataloader.

(** C5, counterexample.  The dataloader of the only node of a runner whose
    partition holds one image, with batches of one, is never exhausted:
    no number of steps completes the iteration over it. *)
Lemma dataloader_not_exhausted :
  ~ exists fuel outcome, exhaust fuel loader_runner (Created 0) = Some outcome.
Proof.
  intros (fuel & outcome & H).
  assert (Hnone : exhaust fuel loader_runner (Created 0) = None).
  { apply (exhaust_live loader_runner 0
             [NDArray [1; 1; 1; 1] [S754_zero false]] [NDArray [1] [3]]
             (NDArray [1; 1; 1; 1] [S754_zero false]) (NDArray [1] [3]) 1 [1; 1; 1]);
      try reflexivity; try (simpl; lia).
    exists [NDArray [1; 1; 1; 1] [S754_zero false]], [NDArray [1] [3]]. auto. }
  rewrite Hnone in H. discriminate.
Qed.

(* ================================================================= *)
(** * The properties on sample data *)

Lemma reversing_permutation_spec (n : nat) (e : unit) :
  Permutation (fst (reversing_permutation n e)) (seq 0 n).
Proof. simpl. apply Permutation_sym, Permutation_rev. Defined.

Lemma sample_loaded :
  loaded sample_runner sample_x_train sample_y_train sample_x_test sample_y_test.
Proof.
  repeat split; try reflexivity.
  - exists 2, 1. repeat split; try reflexivity. lia.
  - exists 2, 1. repeat split; try reflexivity. lia.
  - exists []. reflexivity.
Defined.

Lemma sample_label_array : label_array sample_y_train.
Proof. split; [reflexivity | left; exists 4; reflexivity]. Defined.

Lemma four_label_array : label_array four_y.
Proof. split; [reflexivity | left; exists 4; reflexivity]. Defined.

Lemma split_membership_witness :
  exists x0 x1 y0 y1,
    split_training_data_into_paritions four_x four_y 2 = Ok ([x0; x1], [y0; y1])
    /\ samples x0 y0 = filter (fun p => label_of (snd p) <? 5) (samples four_x four_y)
    /\ samples x1 y1
       = filter (fun p => (5 <=? label_of (snd p)) && (label_of (snd p) <? 10))
                (samples four_x four_y)
    /\ shape0 x0 = shape0 y0
    /\ shape0 x1 = shape0 y1.
Proof.
  apply (split_membership four_x four_y 4 [1] eq_refl eq_refl four_label_array eq_refl).
  - apply Exists_cons_hd. simpl. lia.
  - apply Exists_cons_tl, Exists_cons_tl, Exists_cons_hd. simpl. lia.
Defined.

Lemma partition_size_assertion_witness :
  (Exists (fun row => label_of row < 5) (rows four_y) ->
   Exists (fun row => 5 <= label_of row < 10) (rows four_y) ->
   exists partitions, split_training_data_into_paritions four_x four_y 2 = Ok partitions)
  /\ (forall num_partitions blocks,
        partitioned_classes num_partitions = Ok blocks ->
        Exists (fun block => covers block four_y = true) blocks ->
        split_training_data_into_paritions four_x four_y num_partitions
        = Raise size_assertion_error)
  /\ (Forall (fun row => label_of row < 10) (rows four_y) ->
      split_training_data_into_paritions four_x four_y 1 = Raise size_assertion_error).
Proof.
  apply (partition_size_assertion four_x four_y 4 [1] eq_refl four_label_array eq_refl).
Defined.

Lemma normalize_data_postcondition_witness :
  exists out,
    normalize_data sample_x_train sample_state = (Ok out, sample_state)
    /\ shape out = [size sample_x_train / (2 * 2 * 1); 2; 2; 1]
    /\ flat out = map normalized_pixel (flat sample_x_train)
    /\ Forall in_unit_interval (flat out).
Proof.
  apply (normalize_data_postcondition unit sample_x_train sample_state 2 1);
    try reflexivity; try lia.
  repeat constructor; simpl; lia.
Defined.

Lemma normalize_data_raises_witness :
  (fst (normalize_data sample_x_train sample_state)
     = Raise (ValueError ("Dataset not supported: " ++ dataset (self sample_state)))
   <-> (dataset (self sample_state) <> "mnist"%string
        /\ dataset (self sample_state) <> "cifar10"%string))
  /\ (forall C, channels (dataset (self sample_state)) = Some C ->
        (is_Ok (fst (normalize_data sample_x_train sample_state)) = true
         <-> (0 < 2 /\ size sample_x_train mod (2 * 2 * C) = 0))
        /\ (is_Ok (fst (normalize_data sample_x_train sample_state)) = false ->
            fst (normalize_data sample_x_train sample_state)
            = Raise (ValueError "cannot reshape array"))).
Proof.
  apply (normalize_data_raises unit sample_x_train sample_state 2). reflexivity.
Defined.

Lemma random_split_balanced_permutation_witness :
  exists px py indices,
    fst (random_split reversing_permutation sample_state)
      = Ok (px, py, normalized "mnist" sample_x_test, sample_y_test)
    /\ Permutation indices (seq 0 (shape0 (normalized "mnist" sample_x_train)))
    /\ length px = 2
    /\ length py = 2
    /\ concat (map rows px) = rows_at (normalized "mnist" sample_x_train) indices
    /\ concat (map rows py) = rows_at sample_y_train indices
    /\ Permutation (concat (map rows px)) (rows (normalized "mnist" sample_x_train))
    /\ Permutation (partition_samples px py)
                   (samples (normalized "mnist" sample_x_train) sample_y_train)
    /\ Forall (fun p => shape0 sample_y_train / 2 <= shape0 p
                        <= shape0 sample_y_train / 2 + 1) px
    /\ map (@shape0 float32) px = map (@shape0 nat) py.
Proof.
  apply (random_split_balanced_permutation unit reversing_permutation
           reversing_permutation_spec sample_state
           sample_x_train sample_y_train sample_x_test sample_y_test sample_loaded).
  simpl. lia.
Defined.

Lemma skewed_loaded :
  loaded skewed_runner skewed_x_train skewed_y_train sample_x_test sample_y_test.
Proof.
  repeat split; try reflexivity.
  - exists 1, 1. repeat split; try reflexivity. lia.
  - exists 2, 1. repeat split; try reflexivity. lia.
  - exists []. reflexivity.
Defined.

Lemma default_skew_factor_unit : unit_double default_skew_factor_f64.
Proof. repeat split; vm_compute; reflexivity. Defined.

Lemma skewed_split_correct_witness :
  exists p0 p1 q0 q1,
    fst (create_skewed_partition_split reversing_permutation default_skew_factor_f64
           (State skewed_runner tt))
      = Ok ([p0; p1], [q0; q1], normalized "mnist" sample_x_test, sample_y_test)
    /\ Permutation (labelled p0 q0)
         (node_share default_skew_factor_f64 0
            (labelled (normalized "mnist" skewed_x_train) skewed_y_train))
    /\ Permutation (labelled p1 q1)
         (node_share default_skew_factor_f64 1
            (labelled (normalized "mnist" skewed_x_train) skewed_y_train))
    /\ length (rows p0) = length (flat q0)
    /\ length (rows p1) = length (flat q1)
    /\ Permutation (labelled p0 q0 ++ labelled p1 q1)
         (labelled (normalized "mnist" skewed_x_train) skewed_y_train)
    /\ forall n, n <= shape0 skewed_y_train ->
         exists k, num_samples_for_node_1 n default_skew_factor_f64 = Ok k
                   /\ (0 <= k)%Z
                   /\ skew_count n default_skew_factor_f64 = Nat.min (Z.to_nat k) n.
Proof.
  apply (skewed_split_correct unit reversing_permutation reversing_permutation_spec
           (State skewed_runner tt) skewed_x_train skewed_y_train sample_x_test sample_y_test
           default_skew_factor_f64 skewed_loaded eq_refl).
  - repeat constructor.
  - exact default_skew_factor_unit.
  - reflexivity.
Defined.

(** On the six images the default factor cuts the class 0 (three samples)
    at 2, the class 7 (two samples) at 1 and the class 3 (one sample) at 0:
    node 0 is dealt two samples of the class 0 and one of the class 7,
    node 1 the third sample of the class 0, the one of the class 3 and one
    of the class 7. *)
Example skewed_split_six_images :
  node_share default_skew_factor_f64 0 (labelled skewed_x_train skewed_y_train)
  = [([10%Z], 0); ([30%Z], 0); ([50%Z], 7)]
  /\ node_share default_skew_factor_f64 1 (labelled skewed_x_train skewed_y_train)
     = [([60%Z], 0); ([40%Z], 3); ([20%Z], 7)]
  /\ option_map (map (@flat nat))
       (match fst (create_skewed_partition_split reversing_permutation default_skew_factor_f64
                     (State skewed_runner tt)) with
        | Ok v => Some (train_labels v)
        | Raise _ => None
        end)
     = Some [[7; 0; 0]; [7; 3; 0]].
Proof. vm_compute. repeat split; reflexivity. Qed.

(** C2, counterexample.  The cut is not [floor(n_c * s)].  With ten images
    of the class 0 and the double nearest to 0.7 as skew factor (a double
    in [0, 1], slightly below 7/10), node 0 receives seven samples, although
    [floor(10 * s)] is 6: the product is rounded up to 7.0 before [int].
    With a hundred images of the class 0 and the double nearest to 0.29,
    node 0 receives 28 samples, although [floor(100 * 29/100)] is 29: so
    the cut is not the floor of the product with the decimal either. *)
Lemma skewed_split_cut_is_rounded :
  (unit_double (f64_ratio 7 10)
   /\ partition_sizes
        (fst (create_skewed_partition_split reversing_permutation (f64_ratio 7 10)
                (State (one_class_runner 10) tt)))
      = Some [7; 3]
   /\ Qfloor (inject_Z 10 * f64_to_Q (f64_ratio 7 10)) = 6%Z)
  /\ (unit_double (f64_ratio 29 100)
      /\ partition_sizes
           (fst (create_skewed_partition_split reversing_permutation (f64_ratio 29 100)
                   (State (one_class_runner 100) tt)))
         = Some [28; 72]
      /\ Qfloor (inject_Z 100 * (29 # 100)) = 29%Z).
Proof. repeat split; vm_compute; reflexivity. Qed.

Lemma partition_count_witness :
  exists px py,
    fst (create_partitioned_datasets sample_state)
      = Ok (px, py, normalized "mnist" sample_x_test, sample_y_test)
    /\ length px = 2
    /\ length py = 2.
Proof.
  apply (partition_count unit sample_state
           sample_x_train sample_y_train sample_x_test sample_y_test
           sample_loaded sample_label_array).
  - left. reflexivity.
  - repeat constructor.
Defined.

Lemma dataloader_never_stops_witness :
  (forall k,
      batches k 3 pass_runner (Created 0)
      = Some (map (batch_at pass_x pass_y 2) (seq 0 k)))
  /\ (forall fuel, exhaust fuel pass_runner (Created 0) = None).
Proof.
  apply (dataloader_never_stops pass_runner 0 [pass_x] [pass_y] pass_x pass_y 3 [1; 1; 1]);
    try reflexivity; simpl; lia.
Defined.

(** The walk over a partition of three images by batches of two: the
    images 0-1, the image 2, and again the images 0-1, the image 2, ... *)
Example dataloader_walk :
  option_map (map (fun b => (flat (fst b), flat (snd b))))
             (batches 5 3 pass_runner (Created 0))
  = Some [([normalized_pixel 0; normalized_pixel 51], [4; 1]);
          ([normalized_pixel 255], [8]);
          ([normalized_pixel 0; normalized_pixel 51], [4; 1]);
          ([normalized_pixel 255], [8]);
          ([normalized_pixel 0; normalized_pixel 51], [4; 1])].
Proof. vm_compute. reflexivity. Qed.

Lemma create_models_per_node_witness :
  exists models,
    fst (create_models counting_simple counting_resnet (State sample_runner 0))
      = Ok (Some models)
    /\ models = fst (built (counting_simple sample_lr) 2 0)
    /\ length models = 2.
Proof.
  apply (proj1 (create_models_per_node nat (string * nat) counting_simple counting_resnet
                  (State sample_runner 0))).
  reflexivity.
Defined.

Example create_models_sample :
  fst (create_models counting_simple counting_resnet (State sample_runner 0))
  = Ok (Some [("simple"%string, 0); ("simple"%string, 1)]).
Proof. reflexivity. Qed.

Lemma class_partition_count_witness :
  exists px py,
    split_training_data_into_paritions four_x four_y 3 = Ok (px, py)
    /\ length px = (10 + 10 / 3 - 1) / (10 / 3)
    /\ length py = (10 + 10 / 3 - 1) / (10 / 3).
Proof.
  apply (class_partition_count four_x four_y 4 [1] 3 eq_refl four_label_array eq_refl).
  - lia.
  - repeat constructor.
Defined.

Lemma split_blocks_membership_witness :
  exists px py,
    split_training_data_into_paritions four_x four_y 5 = Ok (px, py)
    /\ length px = 5
    /\ length py = 5
    /\ Forall2 (fun block p =>
                  samples (fst p) (snd p)
                  = filter (fun q => in_block block (label_of (snd q)))
                           (samples four_x four_y))
               [[0; 1]; [2; 3]; [4; 5]; [6; 7]; [8; 9]] (combine px py).
Proof.
  apply (split_blocks_membership four_x four_y 4 [1] 5
           [[0; 1]; [2; 3]; [4; 5]; [6; 7]; [8; 9]]
           eq_refl eq_refl four_label_array eq_refl eq_refl).
  repeat constructor.
Defined.

(* ================================================================= *)
(** * Further properties of the runner *)

(* ================================================================= *)
(** ** Normalisation keeps the pixels apart *)

(** The 256 pixel values, normalised. *)
Lemma normalized_pixel_table :
  forallb (fun i =>
             negb (f32_ltb (normalized_pixel (Z.of_nat i)) (normalized_pixel (Z.of_nat i)))
             && forallb (fun j =>
                           f32_ltb (normalized_pixel (Z.of_nat i)) (normalized_pixel (Z.of_nat j))
                           && negb (f32_ltb (normalized_pixel (Z.of_nat j))
                                            (normalized_pixel (Z.of_nat i))))
                        (seq (S i) (255 - i)))
          (seq 0 256) = true.
Proof. vm_compute. reflexivity. Qed.

Lemma normalized_pixel_irreflexive (v : Z) :
  (0 <= v <= 255)%Z -> f32_ltb (normalized_pixel v) (normalized_pixel v) = false.
Proof.
  intros Hv. pose proof normalized_pixel_table as H.
  rewrite forallb_forall in H. specialize (H (Z.to_nat v)).
  rewrite Z2Nat.id in H by lia.
  assert (Hin : In (Z.to_nat v) (seq 0 256)) by (apply in_seq; lia).
  apply H in Hin. apply andb_true_iff in Hin. destruct Hin as [Hin _].
  now apply negb_true_iff in Hin.
Qed.

Lemma normalized_pixel_increasing (v w : Z) :
  (0 <= v)%Z -> (v < w)%Z -> (w <= 255)%Z ->
  f32_ltb (normalized_pixel v) (normalized_pixel w) = true
  /\ f32_ltb (normalized_pixel w) (normalized_pixel v) = false.
Proof.
  intros H0 Hvw H255. pose proof normalized_pixel_table as H.
  rewrite forallb_forall in H. specialize (H (Z.to_nat v)).
  rewrite Z2Nat.id in H by lia.
  assert (Hin : In (Z.to_nat v) (seq 0 256)) by (apply in_seq; lia).
  apply H in Hin. apply andb_true_iff in Hin. destruct Hin as [_ Hin].
  rewrite forallb_forall in Hin. specialize (Hin (Z.to_nat w)).
  rewrite Z2Nat.id in Hin by lia.
  assert (Hw : In (Z.to_nat w) (seq (S (Z.to_nat v)) (255 - Z.to_nat v)))
    by (apply in_seq; lia).
  apply Hin in Hw. apply andb_true_iff in Hw. destruct Hw as [Hlt Hgt].
  split; [exact Hlt | now apply negb_true_iff in Hgt].
Qed.

Lemma normalized_pixel_ltb (v w : Z) :
  (0 <= v <= 255)%Z -> (0 <= w <= 255)%Z ->
  f32_ltb (normalized_pixel v) (normalized_pixel w) = (v <? w)%Z.
Proof.
  intros Hv Hw. destruct (Z.ltb_spec v w) as [Hlt | Hge].
  - apply normalized_pixel_increasing; lia.
  - destruct (Z.eq_dec v w) as [-> | Hne].
    + now apply normalized_pixel_irreflexive.
    + apply (normalized_pixel_increasing w v); lia.
Qed.

Lemma normalized_pixel_injective (v w : Z) :
  (0 <= v <= 255)%Z -> (0 <= w <= 255)%Z ->
  normalized_pixel v = normalized_pixel w -> v = w.
Proof.
  intros Hv Hw Heq.
  pose proof (normalized_pixel_ltb v w Hv Hw) as H1.
  pose proof (normalized_pixel_ltb w v Hw Hv) as H2.
  rewrite Heq in H1. rewrite Heq in H2.
  rewrite (normalized_pixel_irreflexive w Hw) in H1, H2.
  symmetry in H1, H2. apply Z.ltb_ge in H1, H2. lia.
Qed.

(** What a returning call of [normalize_data] was given and what it
    returned. *)
Lemma normalize_data_returns {Env} (data : ndarray Z) (s : state Env) (out : ndarray float32) :
  fst (normalize_data data s) = Ok out ->
  normalizable (dataset (self s)) data /\ out = normalized (dataset (self s)) data.
Proof.
  intros Hrun.
  destruct (shape_at data 1) as [image_size | e] eqn:Hshape.
  - destruct (channels (dataset (self s))) as [C |] eqn:HC.
    + pose proof (channels_positive _ _ HC) as HCpos.
      destruct (Nat.eq_dec image_size 0) as [Hz | Hnz];
        [| destruct (Nat.eq_dec (size data mod (image_size * image_size * C)) 0) as [Hm | Hm]].
      * rewrite (normalize_data_known Env data s image_size C Hshape HC) in Hrun.
        rewrite np_reshape_infer_fails in Hrun by (try assumption; lia). discriminate.
      * assert (Hn : normalizable (dataset (self s)) data).
        { exists image_size, C. repeat split; try assumption. lia. }
        split; [exact Hn |].
        rewrite (normalize_data_normalized data s Hn) in Hrun. cbn [fst] in Hrun.
        congruence.
      * rewrite (normalize_data_known Env data s image_size C Hshape HC) in Hrun.
        rewrite np_reshape_infer_fails in Hrun by (try assumption; lia). discriminate.
    + rewrite (normalize_data_unknown Env data s image_size Hshape HC) in Hrun. discriminate.
  - unfold normalize_data, bind, lift in Hrun. rewrite Hshape in Hrun. discriminate.
Qed.

Lemma normalized_flat (ds : string) (data : ndarray Z) :
  normalizable ds data -> flat (normalized ds data) = map normalized_pixel (flat data).
Proof.
  intros (image_size & C & Hshape & HC & _). unfold normalized. now rewrite Hshape, HC.
Qed.

Lemma normalized_shape0 (ds : string) (data : ndarray Z) (image_size C : nat) :
  shape_at data 1 = Ok image_size -> channels ds = Some C ->
  shape0 (normalized ds data) = size data / (image_size * image_size * C).
Proof. intros Hshape HC. unfold normalized. now rewrite Hshape, HC. Qed.

(** X3.  [normalize_data] keeps the order of the pixels: for 8-bit data,
    whenever the call returns, the normalised value at one position is below
    the normalised value at another exactly when the pixel at the first
    position is below the pixel at the second (single precision does not
    merge or swap any two of the 256 levels). *)
Theorem normalize_data_preserves_order {Env}
  (data : ndarray Z) (s : state Env) (out : ndarray float32) (i j : nat) :
  Forall (fun v => 0 <= v <= 255)%Z (flat data) ->
  fst (normalize_data data s) = Ok out ->
  i < length (flat data) ->
  j < length (flat data) ->
  f32_ltb (nth i (flat out) (normalized_pixel 0)) (nth j (flat out) (normalized_pixel 0))
  = (nth i (flat data) 0 <? nth j (flat data) 0)%Z.
Proof.
  intros Hrange Hrun Hi Hj.
  destruct (normalize_data_returns data s out Hrun) as [Hn ->].
  rewrite (normalized_flat _ _ Hn), !(map_nth normalized_pixel).
  rewrite Forall_forall in Hrange.
  apply normalized_pixel_ltb; apply Hrange, nth_In; assumption.
Qed.

(** X4.  [normalize_data] loses nothing: two arrays of 8-bit pixels that are
    normalised to the same array (under one dataset setting) hold the same
    pixels. *)
Theorem normalize_data_lossless {Env}
  (data1 data2 : ndarray Z) (s : state Env) (out : ndarray float32) :
  Forall (fun v => 0 <= v <= 255)%Z (flat data1) ->
  Forall (fun v => 0 <= v <= 255)%Z (flat data2) ->
  fst (normalize_data data1 s) = Ok out ->
  fst (normalize_data data2 s) = Ok out ->
  flat data1 = flat data2.
Proof.
  intros Hr1 Hr2 Hrun1 Hrun2.
  destruct (normalize_data_returns data1 s out Hrun1) as [Hn1 Ho1].
  destruct (normalize_data_returns data2 s out Hrun2) as [Hn2 Ho2].
  assert (Hflat : map normalized_pixel (flat data1) = map normalized_pixel (flat data2)).
  { rewrite <- (normalized_flat _ _ Hn1), <- (normalized_flat _ _ Hn2). congruence. }
  clear - Hr1 Hr2 Hflat.
  revert Hr1 Hr2 Hflat. generalize (flat data1) (flat data2). clear.
  induction l as [| v l IH]; intros [| w l'] Hr1 Hr2 Hflat; try discriminate; [reflexivity |].
  inversion Hr1; subst. inversion Hr2; subst. simpl in Hflat.
  injection Hflat as Hhead Htail.
  f_equal; [now apply normalized_pixel_injective | now apply IH].
Qed.

(** X5.  [normalize_data] reads the height of an image for its width too
    ([image_size = data.shape[1]]): for data of shape [(n, h, ...)] with
    [n >= 1], a returning call returns [n] images exactly when the remaining
    dimensions hold [h * C] values per row of an image, that is when the
    images are square with [C] channels; otherwise the pixels are cut into
    a different number of [h] x [h] images. *)
Theorem normalize_data_image_count {Env}
  (data : ndarray Z) (s : state Env) (out : ndarray float32)
  (n h C : nat) (rest : list nat) :
  shape data = n :: h :: rest ->
  channels (dataset (self s)) = Some C ->
  0 < n ->
  fst (normalize_data data s) = Ok out ->
  (shape0 out = n <-> prod_dims rest = h * C).
Proof.
  intros Hshape HC Hn Hrun.
  destruct (normalize_data_returns data s out Hrun) as [Hnorm ->].
  assert (Hat : shape_at data 1 = Ok h) by (unfold shape_at; now rewrite Hshape).
  rewrite (normalized_shape0 _ data h C Hat HC).
  destruct Hnorm as (h' & C' & Hat' & HC' & Hh & Hmod).
  rewrite Hat in Hat'. injection Hat' as <-. rewrite HC in HC'. injection HC' as <-.
  pose proof (channels_positive _ _ HC) as HCpos.
  assert (Hsize : size data = n * (h * prod_dims rest)).
  { unfold size. rewrite Hshape. reflexivity. }
  pose proof (Nat.div_mod_eq (size data) (h * h * C)) as Hdm.
  rewrite Hmod, Nat.add_0_r in Hdm.
  set (q := size data / (h * h * C)) in *.
  split.
  - intros Hq. rewrite Hq, Hsize in Hdm.
    assert (Hh' : n * h * prod_dims rest = n * h * (h * C)) by lia.
    apply Nat.mul_cancel_l in Hh'; [exact Hh' | nia].
  - intros Hp. rewrite Hsize, Hp in Hdm.
    assert (Hq : (h * h * C) * n = (h * h * C) * q) by lia.
    apply Nat.mul_cancel_l in Hq; [lia | nia].
Qed.

(** X6.  The first thing [normalize_data] does is to read [data.shape[1]]:
    on data with fewer than two dimensions it raises [IndexError] whatever
    the dataset, so the dataset guard is not reached, and the object and the
    world are as before. *)
Theorem normalize_data_needs_two_dimensions {Env} (data : ndarray Z) (s : state Env) :
  length (shape data) < 2 ->
  normalize_data data s = (Raise IndexError, s).
Proof.
  intros Hdim. unfold normalize_data, bind, lift, shape_at.
  destruct (shape data) as [| n [| h rest]]; simpl in *; try reflexivity. lia.
Qed.

(* ================================================================= *)
(** ** The class blocks cut the labels 0..9 *)

Lemma partitioned_classes_nonempty (num_partitions : nat) :
  1 <= num_partitions <= 10 ->
  exists block rest, partitioned_classes num_partitions = Ok (block :: rest).
Proof.
  intros Hk.
  do 11 (destruct num_partitions as [| num_partitions]; [try lia; do 2 eexists; reflexivity |]).
  lia.
Qed.

(** Every label below ten lies in exactly one block, every other label in
    none. *)
Lemma class_blocks_once (num_partitions label : nat) :
  1 <= num_partitions <= 10 ->
  length (filter (fun block => in_block block label) (class_blocks num_partitions))
  = if label <? 10 then 1 else 0.
Proof.
  intros Hk.
  do 11 (destruct num_partitions as [| num_partitions];
         [try lia; do 10 (destruct label as [| label]; [reflexivity |]); reflexivity |]).
  lia.
Qed.

Lemma concat_map_nil {T U} (l : list U) : concat (map (fun _ => @nil T) l) = [].
Proof. induction l; simpl; auto. Qed.

Lemma concat_map_if {T U} (test : U -> bool) (t : T) (l : list U) :
  concat (map (fun u => if test u then [t] else []) l) = repeat t (length (filter test l)).
Proof.
  induction l as [| u l IH]; [reflexivity |]. simpl.
  destruct (test u); simpl; now rewrite IH.
Qed.

(** Filtering a list once per block, when every element passes the test of
    one block or of none. *)
Lemma filter_blocks_permutation {T U} (member : U -> T -> bool) (keep : T -> bool)
  (blocks : list U) (l : list T) :
  (forall t, length (filter (fun b => member b t) blocks) = if keep t then 1 else 0) ->
  Permutation (concat (map (fun b => filter (member b) l) blocks)) (filter keep l).
Proof.
  intros Honce. induction l as [| t l IH].
  - simpl. now rewrite concat_map_nil.
  - assert (Hmap : map (fun b => filter (member b) (t :: l)) blocks
                  = map (fun b => (if member b t then [t] else []) ++ filter (member b) l)
                        blocks).
    { apply map_ext. intros b. simpl. destruct (member b t); reflexivity. }
    rewrite Hmap.
    eapply Permutation_trans; [apply Permutation_sym, concat_map_app |].
    rewrite concat_map_if, Honce. simpl filter.
    destruct (keep t); simpl; [now apply perm_skip | exact IH].
Qed.

Lemma partition_samples_map {A B U} (f : U -> ndarray A) (g : U -> ndarray B) (l : list U) :
  partition_samples (map f l) (map g l) = concat (map (fun u => samples (f u) (g u)) l).
Proof. unfold partition_samples. now rewrite combine_map_same, map_map. Qed.

(** X7.  The class partitions are a disjoint cover of the samples with a
    label in 0..9: for every [num_partitions] from 1 to 10 and training
    data in which no block holds every label, the samples of the returned
    partitions, taken together, are the training samples whose label is
    below ten, each exactly once; a sample with any other label is in no
    partition. *)
Theorem split_partitions_cover {A} (x_train : ndarray A) (y_train : ndarray nat)
  (n : nat) (inner : list nat) (num_partitions : nat) :
  well_shaped x_train ->
  shape x_train = n :: inner ->
  label_array y_train ->
  shape0 y_train = n ->
  1 <= num_partitions <= 10 ->
  Forall (fun block => covers block y_train = false) (class_blocks num_partitions) ->
  exists px py,
    split_training_data_into_paritions x_train y_train num_partitions = Ok (px, py)
    /\ Permutation (partition_samples px py)
                   (filter (fun p => label_of (snd p) <? 10) (samples x_train y_train)).
Proof.
  intros Hw Hx Hy Hn Hk Hcov.
  destruct (partitioned_classes_nonempty num_partitions Hk) as (block & rest & Hb).
  pose proof (class_blocks_once num_partitions) as Honce.
  unfold class_blocks in Hcov, Honce. rewrite Hb in Hcov, Honce.
  set (blocks := block :: rest) in *.
  exists (map (fun block => partition_of block y_train x_train) blocks),
         (map (fun block => partition_of block y_train y_train) blocks).
  split.
  - rewrite (split_spec x_train y_train n inner Hx Hy Hn num_partitions blocks Hb).
    replace (forallb (fun block => negb (covers block y_train)) blocks) with true;
      [reflexivity |].
    symmetry. apply forallb_forall. intros b Hin.
    rewrite Forall_forall in Hcov. now rewrite (Hcov b Hin).
  - rewrite partition_samples_map.
    erewrite map_ext;
      [| intros b; apply (partition_of_samples x_train y_train n inner Hw Hx Hy Hn b)].
    apply (filter_blocks_permutation
             (fun (b : list nat) (p : list A * list nat) => in_block b (label_of (snd p)))
             (fun p => label_of (snd p) <? 10)).
    intros p. apply Honce. exact Hk.
Qed.

(** X8.  The numbers of partitions the class-partitioned split refuses,
    whatever the data: zero partitions divide by zero, and more than ten
    make the block size [int(10 / num_partitions)] zero, which [range]
    refuses as a step. *)
Theorem split_rejects_partition_counts {A} (x_train : ndarray A) (y_train : ndarray nat)
  (num_partitions : nat) :
  (num_partitions = 0 ->
   split_training_data_into_paritions x_train y_train num_partitions = Raise ZeroDivisionError)
  /\ (10 < num_partitions ->
      split_training_data_into_paritions x_train y_train num_partitions
      = Raise (ValueError "range() arg 3 must not be zero")).
Proof.
  unfold split_training_data_into_paritions, partitioned_classes.
  split.
  - intros ->. reflexivity.
  - intros Hk. destruct (Nat.eqb_spec num_partitions 0); [lia |].
    change (length (seq 0 10)) with 10. now rewrite (Nat.div_small 10 num_partitions Hk).
Qed.

(** X9.  Labels of neither one nor two dimensions: no branch of the loop
    binds [selected], and for every [num_partitions] from 1 to 10 the first
    round raises [UnboundLocalError], whatever the images. *)
Theorem split_unbound_selected {A} (x_train : ndarray A) (y_train : ndarray nat)
  (num_partitions : nat) :
  1 <= num_partitions <= 10 ->
  length (shape y_train) <> 1 ->
  length (shape y_train) <> 2 ->
  split_training_data_into_paritions x_train y_train num_partitions = Raise UnboundLocalError.
Proof.
  intros Hk H1 H2.
  destruct (partitioned_classes_nonempty num_partitions Hk) as (block & rest & Hb).
  unfold split_training_data_into_paritions. rewrite Hb. cbn [rbind split_loop].
  unfold selected_mask.
  destruct (length (shape y_train)) as [| [| [| d]]]; try reflexivity; congruence.
Qed.

(** X10.  Labels that are not one per image: with a one- or two-dimensional
    label array whose length differs from the number of training images,
    the boolean mask does not fit the first axis of the images and, for
    every [num_partitions] from 1 to 10, the first round raises
    [IndexError]. *)
Theorem split_mask_mismatch {A} (x_train : ndarray A) (y_train : ndarray nat)
  (num_partitions : nat) :
  1 <= num_partitions <= 10 ->
  label_array y_train ->
  shape0 x_train <> shape0 y_train ->
  split_training_data_into_paritions x_train y_train num_partitions = Raise IndexError.
Proof.
  intros Hk Hy Hne.
  destruct (partitioned_classes_nonempty num_partitions Hk) as (block & rest & Hb).
  unfold split_training_data_into_paritions. rewrite Hb. cbn [rbind split_loop].
  rewrite (selected_mask_spec y_train block Hy). cbn [rbind].
  unfold mask_index. destruct (shape x_train) as [| n inner] eqn:Hx; [reflexivity |].
  rewrite block_mask_length.
  unfold shape0 at 1 in Hne. rewrite Hx in Hne. simpl in Hne.
  destruct (Nat.eqb_spec (shape0 y_train) n); [congruence | reflexivity].
Qed.

(* ================================================================= *)
(** ** One pass of the dataloader *)

Lemma skipn_combine {A B} (k : nat) (l : list A) (l' : list B) :
  skipn k (combine l l') = combine (skipn k l) (skipn k l').
Proof.
  revert l l'. induction k as [| k IH]; intros l l'; [reflexivity |].
  destruct l as [| a l]; [reflexivity |].
  destruct l' as [| b l']; [simpl; now rewrite combine_nil |].
  simpl. apply IH.
Qed.

Lemma py_slice_combine {A B} (l : list A) (l' : list B) (i j : nat) :
  py_slice (combine l l') i j = combine (py_slice l i j) (py_slice l' i j).
Proof. unfold py_slice. now rewrite skipn_combine, combine_firstn. Qed.

Lemma py_slice_length {A} (l : list A) (i j : nat) :
  length (py_slice l i j) = Nat.min (j - i) (length l - i).
Proof. unfold py_slice. now rewrite length_firstn, length_skipn. Qed.

Lemma firstn_add_skipn {A} (a b : nat) (l : list A) :
  firstn (a + b) l = firstn a l ++ firstn b (skipn a l).
Proof.
  revert l. induction a as [| a IH]; intros l; [reflexivity |].
  destruct l as [| v l]; [simpl; now rewrite firstn_nil |].
  simpl. now rewrite IH.
Qed.

(** Consecutive slices of [b] elements put together again. *)
Lemma concat_slices {A} (b m : nat) (l : list A) :
  concat (map (fun j => py_slice l (j * b) (j * b + b)) (seq 0 m)) = firstn (m * b) l.
Proof.
  induction m as [| m IH]; [reflexivity |].
  rewrite seq_S, map_app, concat_app, IH. simpl.
  rewrite app_nil_r. unfold py_slice.
  replace (m * b + b - m * b) with b by lia.
  replace (b + m * b) with (m * b + b) by lia.
  now rewrite firstn_add_skipn.
Qed.

Lemma rows_slice_rows {A} (a : ndarray A) (n : nat) (inner : list nat) (i j : nat) :
  well_shaped a -> shape a = n :: inner ->
  rows (slice_rows a i j) = py_slice (rows a) i j.
Proof.
  intros Hw Hs. unfold slice_rows. apply rows_with_rows. unfold py_slice.
  apply Forall_firstn_skipn, Forall_firstn_skipn.
  exact (rows_Forall_length a n inner Hw Hs).
Qed.

Lemma py_range_none (step : nat) : 0 < step -> py_range 0 0 step = [].
Proof.
  intros Hs. unfold py_range. simpl.
  now rewrite (Nat.div_small (step - 1) step) by lia.
Qed.

Lemma ceil_div_bounds (n b : nat) :
  0 < b -> 0 < n ->
  n <= (n + (b - 1)) / b * b /\ ((n + (b - 1)) / b - 1) * b < n.
Proof.
  intros Hb Hn. pose proof (Nat.div_mod_eq (n + (b - 1)) b) as Hdm.
  pose proof (Nat.mod_upper_bound (n + (b - 1)) b ltac:(lia)) as Hr.
  set (q := (n + (b - 1)) / b) in *.
  destruct q as [| q]; simpl; [lia |]. rewrite Nat.sub_0_r. nia.
Qed.

Section OnePass.

Variable r : runner.
Variable node_idx : Z.
Variables (px : list (ndarray float32)) (py : list (ndarray nat)).
Variables (x : ndarray float32) (y : ndarray nat).
Variables (n : nat) (inner inner_y : list nat).
Hypothesis px_bound : partitioned_x_train r = Some px.
Hypothesis py_bound : partitioned_y_train r = Some py.
Hypothesis x_partition : py_getitem px node_idx = Ok x.
Hypothesis y_partition : py_getitem py node_idx = Ok y.
Hypothesis x_well_shaped : well_shaped x.
Hypothesis y_well_shaped : well_shaped y.
Hypothesis x_shape : shape x = n :: inner.
Hypothesis y_shape : shape y = n :: inner_y.
Hypothesis x_nonempty : 0 < n.
Hypothesis batch_positive : 0 < batch_size r.

Lemma batch_at_samples (j : nat) :
  j < (n + (batch_size r - 1)) / batch_size r ->
  samples (fst (batch_at x y (batch_size r) j)) (snd (batch_at x y (batch_size r) j))
  = py_slice (samples x y) (j * batch_size r) (j * batch_size r + batch_size r).
Proof.
  intros Hj. unfold batch_at.
  replace (shape0 x) with n by (unfold shape0; now rewrite x_shape).
  cbn [fst snd]. rewrite (Nat.mod_small j _ Hj). unfold samples.
  rewrite (rows_slice_rows x n inner _ _ x_well_shaped x_shape).
  rewrite (rows_slice_rows y n inner_y _ _ y_well_shaped y_shape).
  now rewrite py_slice_combine.
Qed.

Lemma batch_at_shape0 (j : nat) :
  j < (n + (batch_size r - 1)) / batch_size r ->
  shape0 (fst (batch_at x y (batch_size r) j)) = Nat.min (batch_size r) (n - j * batch_size r)
  /\ shape0 (snd (batch_at x y (batch_size r) j)) = Nat.min (batch_size r) (n - j * batch_size r).
Proof.
  intros Hj. unfold batch_at.
  replace (shape0 x) with n by (unfold shape0; now rewrite x_shape).
  cbn [fst snd]. rewrite (Nat.mod_small j _ Hj). unfold slice_rows.
  rewrite !shape0_with_rows, !py_slice_length, !rows_length.
  unfold shape0. rewrite x_shape, y_shape. cbn [hd].
  split; f_equal; lia.
Qed.

(** X11.  One pass of the dataloader gives back the partition: for a
    partition of [n >= 1] images with as many labels and a positive batch
    size, the first [ceil(n / batch_size)] calls of [next] each return
    within three steps of the body; the batches they yield, one after the
    other, are the samples of the partition in their order, every image
    with its own label; every batch holds at least one and at most
    [batch_size] images and as many labels. *)
Theorem dataloader_one_pass :
  exists bs,
    batches ((n + (batch_size r - 1)) / batch_size r) 3 r (Created node_idx) = Some bs
    /\ length bs = (n + (batch_size r - 1)) / batch_size r
    /\ concat (map (fun b => samples (fst b) (snd b)) bs) = samples x y
    /\ Forall (fun b => 1 <= shape0 (fst b) <= batch_size r
                        /\ shape0 (snd b) = shape0 (fst b)) bs.
Proof.
  set (b := batch_size r) in *. set (per_pass := (n + (b - 1)) / b).
  destruct (ceil_div_bounds n b batch_positive x_nonempty) as [Hup Hlow]. fold per_pass in Hup, Hlow.
  exists (map (batch_at x y b) (seq 0 per_pass)).
  split; [| split; [| split]].
  - exact (batches_after r node_idx px py x y n inner px_bound py_bound
             x_partition y_partition x_shape x_nonempty batch_positive per_pass 0).
  - now rewrite length_map, length_seq.
  - rewrite map_map.
    erewrite map_ext_in;
      [| intros j Hj; apply in_seq in Hj; apply batch_at_samples; fold b per_pass; lia].
    fold b. rewrite concat_slices. apply firstn_all2.
    unfold samples. rewrite length_combine, !rows_length. unfold shape0.
    rewrite x_shape, y_shape. cbn [hd]. lia.
  - apply Forall_forall. intros bt Hin. apply in_map_iff in Hin.
    destruct Hin as (j & <- & Hj). apply in_seq in Hj.
    destruct (batch_at_shape0 j) as [Hx Hy]; [fold b per_pass; lia |].
    fold b in Hx, Hy. rewrite Hx, Hy. split; [| reflexivity].
    assert (j * b < n) by nia. lia.
Qed.

End OnePass.

(** X12.  The dataloader of an empty partition never yields: with a
    partition of no image (and a positive batch size) the body of the
    generator goes round [while True] without reaching a [yield], so that
    no number of steps completes a call of [next], nor the iteration. *)
Theorem dataloader_empty_partition (r : runner) (node_idx : Z)
  (px : list (ndarray float32)) (py : list (ndarray nat))
  (x : ndarray float32) (inner : list nat) :
  partitioned_x_train r = Some px ->
  partitioned_y_train r = Some py ->
  py_getitem px node_idx = Ok x ->
  shape x = 0 :: inner ->
  0 < batch_size r ->
  forall fuel,
    next fuel r (Created node_idx) = None /\ exhaust fuel r (Created node_idx) = None.
Proof.
  intros Hpx Hpy Hx Hshape Hb.
  assert (Hwhile : step r (AtWhile node_idx px py) = (Silent, InFor node_idx px py [])).
  { simpl. rewrite Hx. unfold py_len. rewrite Hshape.
    destruct (Nat.eqb_spec (batch_size r) 0); [lia |]. now rewrite py_range_none. }
  assert (Hcreated : step r (Created node_idx) = (Silent, AtWhile node_idx px py)).
  { simpl. now rewrite Hpx, Hpy. }
  assert (Hloop : forall fuel g,
             g = Created node_idx \/ g = AtWhile node_idx px py \/ g = InFor node_idx px py [] ->
             next fuel r g = None /\ exhaust fuel r g = None).
  { induction fuel as [| fuel IH]; intros g Hg; [split; reflexivity |].
    destruct Hg as [-> | [-> | ->]]; cbn [next exhaust].
    - rewrite Hcreated. apply IH. auto.
    - rewrite Hwhile. apply IH. auto.
    - change (step r (InFor node_idx px py [])) with (Silent, AtWhile node_idx px py).
      apply IH. auto. }
  intros fuel. apply Hloop. auto.
Qed.

(** X13.  A node index outside the partitions: making the dataloader does
    not fail (the body of a generator starts at the first [next]); the
    first call of [next] raises [IndexError], and the generator is finished:
    every later call raises [StopIteration]. *)
Theorem dataloader_index_out_of_range (r : runner) (node_idx : Z)
  (px : list (ndarray float32)) (py : list (ndarray nat)) :
  partitioned_x_train r = Some px ->
  partitioned_y_train r = Some py ->
  (node_idx < - Z.of_nat (length px) \/ Z.of_nat (length px) <= node_idx)%Z ->
  exists g,
    next 2 r (Created node_idx) = Some (Throw IndexError, g)
    /\ forall fuel, next (S fuel) r g = Some (StopIteration, g).
Proof.
  intros Hpx Hpy Hout. exists Finished. split; [| reflexivity].
  cbn [next]. cbn [step]. rewrite Hpx, Hpy. cbn [step].
  assert (Hget : py_getitem px node_idx = Raise IndexError).
  { unfold py_getitem, py_index.
    destruct (Z.leb_spec 0 node_idx).
    - destruct (Z.ltb_spec node_idx (Z.of_nat (length px))); [lia | reflexivity].
    - destruct (Z.leb_spec (- Z.of_nat (length px)) node_idx); [lia | reflexivity]. }
  now rewrite Hget.
Qed.

Lemma py_getitem_negative {A} (l : list A) (k : Z) (a : A) :
  (- Z.of_nat (length l) <= k < 0)%Z ->
  py_getitem l (Z.of_nat (length l) + k) = Ok a ->
  py_getitem l k = Ok a.
Proof.
  intros Hk. unfold py_getitem, py_index.
  destruct (Z.leb_spec 0 k); [lia |].
  destruct (Z.leb_spec (- Z.of_nat (length l)) k); [| lia].
  destruct (Z.leb_spec 0 (Z.of_nat (length l) + k)); [| lia].
  destruct (Z.ltb_spec (Z.of_nat (length l) + k) (Z.of_nat (length l))); [| lia].
  auto.
Qed.

(** X14.  A negative node index counts from the last node: for
    [-len <= node_idx < 0] over [len] partitions of images and of labels,
    the dataloader of [node_idx] yields the batches of the dataloader of
    the node [len + node_idx]. *)
Theorem dataloader_negative_index (r : runner) (node_idx : Z)
  (px : list (ndarray float32)) (py : list (ndarray nat))
  (x : ndarray float32) (y : ndarray nat) (n : nat) (inner : list nat) :
  partitioned_x_train r = Some px ->
  partitioned_y_train r = Some py ->
  length py = length px ->
  (- Z.of_nat (length px) <= node_idx < 0)%Z ->
  py_getitem px (Z.of_nat (length px) + node_idx) = Ok x ->
  py_getitem py (Z.of_nat (length px) + node_idx) = Ok y ->
  shape x = n :: inner ->
  0 < n ->
  0 < batch_size r ->
  forall k,
    batches k 3 r (Created node_idx)
    = Some (map (batch_at x y (batch_size r)) (seq 0 k))
    /\ batches k 3 r (Created node_idx)
       = batches k 3 r (Created (Z.of_nat (length px) + node_idx)).
Proof.
  intros Hpx Hpy Hlen Hk Hx Hy Hshape Hn Hb k.
  assert (Hx' : py_getitem px node_idx = Ok x) by (now apply py_getitem_negative).
  assert (Hy' : py_getitem py node_idx = Ok y).
  { apply py_getitem_negative; rewrite Hlen; assumption. }
  pose proof (batches_after r node_idx px py x y n inner Hpx Hpy Hx' Hy' Hshape Hn Hb k 0)
    as Hneg.
  pose proof (batches_after r (Z.of_nat (length px) + node_idx) px py x y n inner
                Hpx Hpy Hx Hy Hshape Hn Hb k 0) as Hpos.
  cbv iota in Hneg, Hpos. split; [exact Hneg | congruence].
Qed.

(* ================================================================= *)
(** ** What [create_models] does to the object and the world *)

Section ModelsEffects.

Variables Env Model : Type.
Variable SimpleMnistModel_run : float64 -> Env -> Model * Env.
Variable ResNetModelBuilder_run : float64 -> string -> string -> Env -> Model * Env.

(** The run of [create_models], by the dataset and the net. *)
Lemma create_models_run (s : state Env) :
  create_models SimpleMnistModel_run ResNetModelBuilder_run s =
    if String.eqb (dataset (self s)) "mnist" && negb (String.eqb (net (self s)) "simple")
    then (Raise (AssertionError ("Net not supported: " ++ net (self s) ++ " for mnist")), s)
    else if String.eqb (net (self s)) "simple"
    then (Ok (Some (fst (built (SimpleMnistModel_run (lr (self s)))
                               (num_nodes (self s)) (env s)))),
          State (self s) (snd (built (SimpleMnistModel_run (lr (self s)))
                                     (num_nodes (self s)) (env s))))
    else if String.eqb (net (self s)) "resnet50"
    then (Ok (Some (fst (built (ResNetModelBuilder_run (lr (self s)) "ResNet50" "imagenet")
                               (num_nodes (self s)) (env s)))),
          State (self s) (snd (built (ResNetModelBuilder_run (lr (self s)) "ResNet50" "imagenet")
                                     (num_nodes (self s)) (env s))))
    else (Ok None, s).
Proof.
  unfold create_models. rewrite !bind_getattr.
  destruct (String.eqb (dataset (self s)) "mnist");
    destruct (String.eqb (net (self s)) "simple");
    destruct (String.eqb (net (self s)) "resnet50");
    cbn [andb negb]; cbv iota;
    unfold bind at 1; try unfold ret at 1; try unfold raise at 1;
    try reflexivity;
    rewrite bind_getattr; unfold bind at 1; rewrite comprehension_built; reflexivity.
Qed.

(** X15.  [create_models] never changes the object, and it builds nothing
    unless it returns a list of models: when it raises (the assertion on
    the net comes before every call of a builder) and when it returns
    [None], the world is as before. *)
Theorem create_models_effects (s : state Env) :
  self (snd (create_models SimpleMnistModel_run ResNetModelBuilder_run s)) = self s
  /\ ((forall models,
         fst (create_models SimpleMnistModel_run ResNetModelBuilder_run s) <> Ok (Some models)) ->
      snd (create_models SimpleMnistModel_run ResNetModelBuilder_run s) = s).
Proof.
  rewrite create_models_run.
  destruct (String.eqb (dataset (self s)) "mnist" && negb (String.eqb (net (self s)) "simple"));
    [split; reflexivity |].
  destruct (String.eqb (net (self s)) "simple");
    [split; [reflexivity | intros H; exfalso; eapply H; reflexivity] |].
  destruct (String.eqb (net (self s)) "resnet50");
    [split; [reflexivity | intros H; exfalso; eapply H; reflexivity] |].
  split; reflexivity.
Qed.

(** X16.  [create_models] falls off its end, returning [None] instead of a
    list of models, exactly when the net is neither "simple" nor "resnet50"
    and the dataset is not "mnist" (for "mnist" such a net fails the
    assertion). *)
Theorem create_models_returns_none (s : state Env) :
  fst (create_models SimpleMnistModel_run ResNetModelBuilder_run s) = Ok None
  <-> (dataset (self s) <> "mnist"%string
       /\ net (self s) <> "simple"%string /\ net (self s) <> "resnet50"%string).
Proof.
  rewrite create_models_run.
  destruct (String.eqb_spec (dataset (self s)) "mnist") as [Hds | Hds];
    destruct (String.eqb_spec (net (self s)) "simple") as [Hsimple | Hsimple];
    destruct (String.eqb_spec (net (self s)) "resnet50") as [Hres | Hres];
    cbn [andb negb fst]; split;
    try discriminate; try (intros (H1 & H2 & H3); contradiction); auto.
Qed.

End ModelsEffects.

(* ================================================================= *)
(** ** The constructor *)

Section ConstructorFacts.

Variable Env : Type.
Variable mnist_load_data : Env -> (ndarray Z * ndarray nat) * (ndarray Z * ndarray nat) * Env.
Variable cifar10_load_data : Env -> (ndarray Z * ndarray nat) * (ndarray Z * ndarray nat) * Env.

(** The run of [get_original_data], by the dataset. *)
Lemma get_original_data_run (s : state Env) :
  get_original_data mnist_load_data cifar10_load_data s =
    if String.eqb (dataset (self s)) "mnist"
    then (Ok tt, State (set_original_data (self s)
                          (fst (fst (mnist_load_data (env s))))
                          (snd (fst (mnist_load_data (env s)))))
                       (snd (mnist_load_data (env s))))
    else if String.eqb (dataset (self s)) "cifar10"
    then (Ok tt, State (set_original_data (self s)
                          (fst (fst (cifar10_load_data (env s))))
                          (snd (fst (cifar10_load_data (env s)))))
                       (snd (cifar10_load_data (env s))))
    else (Ok tt, s).
Proof.
  unfold get_original_data. rewrite bind_getattr.
  destruct (String.eqb (dataset (self s)) "mnist");
    [rewrite bind_extern; reflexivity |].
  destruct (String.eqb (dataset (self s)) "cifar10");
    [rewrite bind_extern; reflexivity |].
  reflexivity.
Qed.

Lemma get_original_data_returns (s : state Env) :
  fst (get_original_data mnist_load_data cifar10_load_data s) = Ok tt.
Proof.
  rewrite get_original_data_run.
  destruct (String.eqb (dataset (self s)) "mnist"); [reflexivity |].
  destruct (String.eqb (dataset (self s)) "cifar10"); reflexivity.
Qed.

(** The run of the constructor on a dictionary with the eleven keys. *)
Lemma init_run (cfg : config) (tracking_flag : bool) (e : Env)
  (nodes batch epochs_v steps : nat) (rate : float64) (async : bool)
  (federated strategy split_name ds nt : string) :
  cfg_num_nodes cfg = Some nodes -> cfg_batch_size cfg = Some batch ->
  cfg_epochs cfg = Some epochs_v -> cfg_steps_per_epoch cfg = Some steps ->
  cfg_lr cfg = Some rate -> cfg_use_async cfg = Some async ->
  cfg_federated_type cfg = Some federated -> cfg_strategy cfg = Some strategy ->
  cfg_data_split cfg = Some split_name -> cfg_dataset cfg = Some ds ->
  cfg_net cfg = Some nt ->
  init mnist_load_data cifar10_load_data cfg tracking_flag e
  = Constructed
      (Settings cfg epochs_v steps (cfg_test_steps cfg) async federated strategy split_name
                tracking_flag)
      (snd (get_original_data mnist_load_data cifar10_load_data
              (State (Runner nodes batch rate ds nt None None None None None None) e))).
Proof.
  intros H1 H2 H3 H4 H5 H6 H7 H8 H9 H10 H11. unfold init.
  rewrite H1, H2, H3, H4, H5, H6, H7, H8, H9, H10, H11. cbn [subscript].
  pose proof (get_original_data_returns
                (State (Runner nodes batch rate ds nt None None None None None None) e)) as Hr.
  destruct (get_original_data mnist_load_data cifar10_load_data
              (State (Runner nodes batch rate ds nt None None None None None None) e))
    as [[[] | err] s']; [reflexivity | discriminate].
Qed.

(** X17.  The keys the constructor needs.  [__init__] subscripts eleven
    keys of the dictionary, in the order [num_nodes], [batch_size],
    [epochs], [steps_per_epoch], [lr], [use_async], [federated_type],
    [strategy], [data_split], [dataset], [net]: it raises the [KeyError] of
    the first of them the dictionary does not hold, and with all of them it
    returns an object, [get_original_data] never raising; ["test_steps"] is
    read with a default and may be missing. *)
Theorem init_requires_keys (cfg : config) (tracking_flag : bool) (e : Env) :
  match find (fun key => negb (snd key)) (required_keys cfg) with
  | Some (key, _) => init mnist_load_data cifar10_load_data cfg tracking_flag e = KeyError key
  | None =>
      exists extra s,
        init mnist_load_data cifar10_load_data cfg tracking_flag e = Constructed extra s
        /\ test_steps extra = cfg_test_steps cfg
        /\ tracking extra = tracking_flag
        /\ stored_config extra = cfg
  end.
Proof.
  unfold required_keys.
  destruct (cfg_num_nodes cfg) eqn:H1; [| unfold init; now rewrite H1].
  destruct (cfg_batch_size cfg) eqn:H2; [| unfold init; now rewrite H1, H2].
  destruct (cfg_epochs cfg) eqn:H3; [| unfold init; now rewrite H1, H2, H3].
  destruct (cfg_steps_per_epoch cfg) eqn:H4; [| unfold init; now rewrite H1, H2, H3, H4].
  destruct (cfg_lr cfg) eqn:H5; [| unfold init; now rewrite H1, H2, H3, H4, H5].
  destruct (cfg_use_async cfg) eqn:H6; [| unfold init; now rewrite H1, H2, H3, H4, H5, H6].
  destruct (cfg_federated_type cfg) eqn:H7;
    [| unfold init; now rewrite H1, H2, H3, H4, H5, H6, H7].
  destruct (cfg_strategy cfg) eqn:H8;
    [| unfold init; now rewrite H1, H2, H3, H4, H5, H6, H7, H8].
  destruct (cfg_data_split cfg) eqn:H9;
    [| unfold init; now rewrite H1, H2, H3, H4, H5, H6, H7, H8, H9].
  destruct (cfg_dataset cfg) eqn:H10;
    [| unfold init; now rewrite H1, H2, H3, H4, H5, H6, H7, H8, H9, H10].
  destruct (cfg_net cfg) eqn:H11;
    [| unfold init; now rewrite H1, H2, H3, H4, H5, H6, H7, H8, H9, H10, H11].
  cbn [holds find snd negb].
  rewrite (init_run cfg tracking_flag e _ _ _ _ _ _ _ _ _ _ _ H1 H2 H3 H4 H5 H6 H7 H8 H9 H10 H11).
  do 2 eexists. split; [reflexivity |]. repeat split.
Qed.

(** What the constructor leaves in the object. *)
Lemma init_constructed (cfg : config) (tracking_flag : bool) (e : Env)
  (extra : settings) (s : state Env) :
  init mnist_load_data cifar10_load_data cfg tracking_flag e = Constructed extra s ->
  exists nodes batch rate ds nt,
    cfg_num_nodes cfg = Some nodes /\ cfg_batch_size cfg = Some batch
    /\ cfg_lr cfg = Some rate /\ cfg_dataset cfg = Some ds /\ cfg_net cfg = Some nt
    /\ s = snd (get_original_data mnist_load_data cifar10_load_data
                  (State (Runner nodes batch rate ds nt None None None None None None) e)).
Proof.
  intros Hinit.
  destruct (cfg_num_nodes cfg) eqn:H1; [| unfold init in Hinit; now rewrite H1 in Hinit].
  destruct (cfg_batch_size cfg) eqn:H2; [| unfold init in Hinit; now rewrite H1, H2 in Hinit].
  destruct (cfg_epochs cfg) eqn:H3; [| unfold init in Hinit; now rewrite H1, H2, H3 in Hinit].
  destruct (cfg_steps_per_epoch cfg) eqn:H4;
    [| unfold init in Hinit; now rewrite H1, H2, H3, H4 in Hinit].
  destruct (cfg_lr cfg) eqn:H5;
    [| unfold init in Hinit; now rewrite H1, H2, H3, H4, H5 in Hinit].
  destruct (cfg_use_async cfg) eqn:H6;
    [| unfold init in Hinit; now rewrite H1, H2, H3, H4, H5, H6 in Hinit].
  destruct (cfg_federated_type cfg) eqn:H7;
    [| unfold init in Hinit; now rewrite H1, H2, H3, H4, H5, H6, H7 in Hinit].
  destruct (cfg_strategy cfg) eqn:H8;
    [| unfold init in Hinit; now rewrite H1, H2, H3, H4, H5, H6, H7, H8 in Hinit].
  destruct (cfg_data_split cfg) eqn:H9;
    [| unfold init in Hinit; now rewrite H1, H2, H3, H4, H5, H6, H7, H8, H9 in Hinit].
  destruct (cfg_dataset cfg) eqn:H10;
    [| unfold init in Hinit; now rewrite H1, H2, H3, H4, H5, H6, H7, H8, H9, H10 in Hinit].
  destruct (cfg_net cfg) eqn:H11;
    [| unfold init in Hinit; now rewrite H1, H2, H3, H4, H5, H6, H7, H8, H9, H10, H11 in Hinit].
  rewrite (init_run cfg tracking_flag e _ _ _ _ _ _ _ _ _ _ _ H1 H2 H3 H4 H5 H6 H7 H8 H9 H10 H11)
    in Hinit.
  injection Hinit as _ Hs. do 5 eexists. repeat split. now symmetry.
Qed.

(** X18.  What the constructor binds.  The object it returns holds the
    node count, batch size, learning rate, dataset and net of the
    dictionary and no partitions; for "mnist" and for "cifar10" the four
    data attributes are what the loader of the dataset returned, called
    once; for any other dataset no loader is called, the constructor
    returns all the same, and the four data attributes are not bound. *)
Theorem init_binds_data (cfg : config) (tracking_flag : bool) (e : Env)
  (extra : settings) (s : state Env) :
  init mnist_load_data cifar10_load_data cfg tracking_flag e = Constructed extra s ->
  (cfg_num_nodes cfg = Some (num_nodes (self s))
   /\ cfg_batch_size cfg = Some (batch_size (self s))
   /\ cfg_lr cfg = Some (lr (self s))
   /\ cfg_dataset cfg = Some (dataset (self s))
   /\ cfg_net cfg = Some (net (self s))
   /\ partitioned_x_train (self s) = None
   /\ partitioned_y_train (self s) = None)
  /\ (forall load,
        (dataset (self s) = "mnist"%string /\ load = mnist_load_data)
        \/ (dataset (self s) = "cifar10"%string /\ load = cifar10_load_data) ->
        x_train (self s) = Some (fst (fst (fst (load e))))
        /\ y_train (self s) = Some (snd (fst (fst (load e))))
        /\ x_test (self s) = Some (fst (snd (fst (load e))))
        /\ y_test (self s) = Some (snd (snd (fst (load e))))
        /\ env s = snd (load e))
  /\ (dataset (self s) <> "mnist"%string -> dataset (self s) <> "cifar10"%string ->
      x_train (self s) = None /\ y_train (self s) = None
      /\ x_test (self s) = None /\ y_test (self s) = None
      /\ env s = e).
Proof.
  intros Hinit.
  destruct (init_constructed cfg tracking_flag e extra s Hinit)
    as (nodes & batch & rate & ds & nt & H1 & H2 & H5 & H10 & H11 & ->).
  rewrite get_original_data_run. cbn [self env dataset].
  destruct (String.eqb_spec ds "mnist") as [Hm | Hm];
    [| destruct (String.eqb_spec ds "cifar10") as [Hc | Hc]]; cbn [snd self env];
    unfold set_original_data; cbn.
  - split; [repeat split; assumption |]. split.
    + intros load [[_ ->] | [Hds _]]; [repeat split | subst; discriminate].
    + intros Hne. contradiction.
  - split; [repeat split; assumption |]. split.
    + intros load [[Hds _] | [_ ->]]; [contradiction | repeat split].
    + intros _ Hne. contradiction.
  - split; [repeat split; assumption |]. split.
    + intros load [[Hds _] | [Hds _]]; contradiction.
    + intros _ _. repeat split.
Qed.

End ConstructorFacts.

(* ================================================================= *)
(** ** The constructor and the methods together *)

Lemma bind_getattr_unbound {Env A B} (attr : runner -> option A) (k : A -> M Env B)
  (s : state Env) :
  attr (self s) = None -> bind (getattr_bound attr) k s = (Raise AttributeError, s).
Proof. intros H. unfold bind, getattr_bound. now rewrite H. Qed.

Lemma bind_lift_raise {Env A B} (r : result A) (k : A -> M Env B) (s : state Env) (e : exn) :
  r = Raise e -> bind (lift r) k s = (Raise e, s).
Proof. intros ->. reflexivity. Qed.

Section Composition.

Variable Env : Type.
Variable np_random_permutation : nat -> Env -> list nat * Env.
Variable mnist_load_data : Env -> (ndarray Z * ndarray nat) * (ndarray Z * ndarray nat) * Env.
Variable cifar10_load_data : Env -> (ndarray Z * ndarray nat) * (ndarray Z * ndarray nat) * Env.
Variable Model : Type.
Variable SimpleMnistModel_run : float64 -> Env -> Model * Env.
Variable ResNetModelBuilder_run : float64 -> string -> string -> Env -> Model * Env.

Lemma get_original_data_partitions (s : state Env) :
  partitioned_x_train (self (snd (get_original_data mnist_load_data cifar10_load_data s)))
  = partitioned_x_train (self s)
  /\ partitioned_y_train (self (snd (get_original_data mnist_load_data cifar10_load_data s)))
     = partitioned_y_train (self s).
Proof.
  rewrite get_original_data_run.
  destruct (String.eqb (dataset (self s)) "mnist"); [split; reflexivity |].
  destruct (String.eqb (dataset (self s)) "cifar10"); split; reflexivity.
Qed.

(** X19.  An unsupported dataset shows late, and not by the dataset guard:
    the constructor returns an object for any dataset name, but for a name
    other than "mnist" and "cifar10" the three splitting methods of that
    object raise [AttributeError] ([self.x_train] is not bound) before
    [normalize_data] and its [ValueError] are reached; the object and the
    world are as before. *)
Theorem unsupported_dataset_attribute_error
  (cfg : config) (tracking_flag : bool) (e : Env) (extra : settings) (s : state Env)
  (skew_factor : float64) :
  init mnist_load_data cifar10_load_data cfg tracking_flag e = Constructed extra s ->
  dataset (self s) <> "mnist"%string ->
  dataset (self s) <> "cifar10"%string ->
  random_split np_random_permutation s = (Raise AttributeError, s)
  /\ create_skewed_partition_split np_random_permutation skew_factor s
     = (Raise AttributeError, s)
  /\ create_partitioned_datasets s = (Raise AttributeError, s).
Proof.
  intros Hinit Hm Hc.
  destruct (init_constructed _ _ _ cfg tracking_flag e extra s Hinit)
    as (nodes & batch & rate & ds & nt & _ & _ & _ & _ & _ & Hs).
  rewrite get_original_data_run in Hs. cbn [self env dataset] in Hs.
  assert (Hx : x_train (self s) = None).
  { subst s. cbn [self dataset] in Hm, Hc.
    destruct (String.eqb_spec ds "mnist"); [contradiction |].
    destruct (String.eqb_spec ds "cifar10"); [contradiction |]. reflexivity. }
  split; [| split].
  - unfold random_split. rewrite bind_getattr. now apply bind_getattr_unbound.
  - unfold create_skewed_partition_split. now apply bind_getattr_unbound.
  - unfold create_partitioned_datasets. rewrite bind_getattr. now apply bind_getattr_unbound.
Qed.

(** X20.  No method of the class binds the partitions the dataloader
    reads: on the object the constructor returns, and on the object after
    any one of [get_original_data], [normalize_data], [create_models] and
    the three splitting methods, the first [next] of a dataloader raises
    [AttributeError].  The caller has to assign [partitioned_x_train] and
    [partitioned_y_train] itself. *)
Theorem constructed_runner_has_no_partitions
  (cfg : config) (tracking_flag : bool) (e : Env) (extra : settings) (s : state Env)
  (skew_factor : float64) (data : ndarray Z) (node_idx : Z) :
  init mnist_load_data cifar10_load_data cfg tracking_flag e = Constructed extra s ->
  forall r,
    In r [ self s;
           self (snd (get_original_data mnist_load_data cifar10_load_data s));
           self (snd (normalize_data data s));
           self (snd (create_models SimpleMnistModel_run ResNetModelBuilder_run s));
           self (snd (random_split np_random_permutation s));
           self (snd (create_skewed_partition_split np_random_permutation skew_factor s));
           self (snd (create_partitioned_datasets s)) ] ->
    next 1 r (Created node_idx) = Some (Throw AttributeError, Finished).
Proof.
  intros Hinit r Hin.
  assert (Hnone : partitioned_x_train (self s) = None).
  { destruct (init_constructed _ _ _ cfg tracking_flag e extra s Hinit)
      as (nodes & batch & rate & ds & nt & _ & _ & _ & _ & _ & ->).
    now rewrite (proj1 (get_original_data_partitions _)). }
  assert (Hr : partitioned_x_train r = None).
  { simpl in Hin.
    destruct Hin as [<- | [<- | [<- | [<- | [<- | [<- | [<- | []]]]]]]].
    - exact Hnone.
    - now rewrite (proj1 (get_original_data_partitions s)).
    - now rewrite normalize_data_frame.
    - rewrite create_models_run.
      destruct (String.eqb (dataset (self s)) "mnist" && negb (String.eqb (net (self s)) "simple"));
        [exact Hnone |].
      destruct (String.eqb (net (self s)) "simple"); [exact Hnone |].
      destruct (String.eqb (net (self s)) "resnet50"); exact Hnone.
    - now rewrite (proj1 (random_split_reads Env np_random_permutation (self s) s eq_refl)).
    - now rewrite (proj1 (create_skewed_partition_split_reads Env np_random_permutation
                            (self s) skew_factor s eq_refl)).
    - now rewrite (proj1 (create_partitioned_datasets_reads Env (self s) s eq_refl)). }
  cbn [next step]. now rewrite Hr.
Qed.

End Composition.

(* ================================================================= *)
(** ** The skewed split on other labels *)

Lemma skipn_nth_error {T} (l : list T) (i : nat) (v : T) :
  nth_error l i = Some v -> skipn i l = v :: skipn (S i) l.
Proof.
  revert l. induction i as [| i IH]; intros [| a l] H; try discriminate.
  - injection H as ->. reflexivity.
  - simpl in H. simpl. rewrite (IH l H). reflexivity.
Qed.

(** The first loop stops at the first label that is no index of the
    buckets. *)
Lemma group_by_label_out_of_range {A} (x : ndarray A) (y : ndarray nat)
  (n : nat) (inner : list nat) :
  shape x = n :: inner -> shape y = [n] -> well_shaped y ->
  forall (len start : nat) (xb : list (list (ndarray A))) (yb : list (list nat)),
    start + len <= n ->
    Exists (fun l => length xb <= l) (firstn len (skipn start (flat y))) ->
    group_by_label x y (seq start len) xb yb = Raise IndexError.
Proof.
  intros Hx Hy Hw. pose proof (flat_y_length y n Hy Hw) as Hlen.
  induction len as [| len IH]; intros start xb yb Hbound Hex.
  - simpl in Hex. inversion Hex.
  - assert (Hstart : start < length (flat y)) by lia.
    destruct (nth_error (flat y) start) as [l |] eqn:Hl;
      [| apply nth_error_None in Hl; lia].
    rewrite (skipn_nth_error _ _ _ Hl) in Hex. cbn [firstn] in Hex.
    cbn [seq group_by_label]. rewrite (label_at_flat y n Hy start l Hl). cbn [rbind].
    destruct (Nat.ltb_spec l (length xb)) as [Hlt | Hge]; [| reflexivity].
    cbn [negb].
    destruct (nth_error (entries x) start) as [e |] eqn:He.
    + rewrite (get_row_entries x n inner Hx start e He). cbn [rbind].
      apply IH; [lia |].
      rewrite list_update_length.
      inversion Hex as [? ? Hhead | ? ? Htail]; subst; [lia | exact Htail].
    + apply nth_error_None in He. rewrite (entries_length x n inner Hx) in He. lia.
Qed.

Section SkewedSplitErrors.

Variable Env : Type.
Variable np_random_permutation : nat -> Env -> list nat * Env.

(** The run of [create_skewed_partition_split] up to its first loop. *)
Lemma skewed_split_grouping (s : state Env) (skew_factor : float64)
  (xt : ndarray Z) (yt : ndarray nat) (xe : ndarray Z) (ye : ndarray nat) (e : exn) :
  loaded (self s) xt yt xe ye ->
  group_by_label (normalized (dataset (self s)) xt) yt
    (seq 0 (shape0 (normalized (dataset (self s)) xt))) (repeat [] 10) (repeat [] 10)
  = Raise e ->
  create_skewed_partition_split np_random_permutation skew_factor s = (Raise e, s).
Proof.
  intros (Hxt & Hyt & Hxe & Hye & Hwx & Hwy & Hnx & Hne & inner_y & Hsy) Hgroup.
  unfold create_skewed_partition_split.
  rewrite (bind_getattr_bound _ _ _ _ Hxt).
  rewrite (bind_ok _ _ _ _ _ (normalize_data_normalized xt s Hnx)).
  rewrite (bind_getattr_bound _ _ _ _ Hxe).
  rewrite (bind_ok _ _ _ _ _ (normalize_data_normalized xe s Hne)).
  rewrite (bind_getattr_bound _ _ _ _ Hyt).
  assert (Hpylen : py_len yt = Ok (shape0 (normalized (dataset (self s)) xt)))
    by (unfold py_len; now rewrite Hsy).
  rewrite (bind_lift_ok _ _ _ _ Hpylen).
  rewrite py_range_unit.
  now apply bind_lift_raise.
Qed.

(** X21.  The skewed split needs one-dimensional labels: on a stored
    training set of at least one image whose label array has two
    dimensions (the layout of the CIFAR-10 loader, one row per image), the
    first round of the first loop uses the row [y_train[0]] as a list index
    and the call raises [TypeError]; the object and the world are as
    before. *)
Theorem skewed_split_two_dimensional_labels
  (s : state Env) (skew_factor : float64)
  (xt : ndarray Z) (yt : ndarray nat) (xe : ndarray Z) (ye : ndarray nat) (n c : nat) :
  loaded (self s) xt yt xe ye ->
  shape yt = [n; c] ->
  0 < n ->
  create_skewed_partition_split np_random_permutation skew_factor s = (Raise TypeError, s).
Proof.
  intros Hloaded Hshape Hn.
  apply (skewed_split_grouping s skew_factor xt yt xe ye TypeError Hloaded).
  destruct Hloaded as (_ & _ & _ & _ & _ & _ & _ & _ & inner_y & Hsy).
  rewrite Hshape in Hsy. injection Hsy as Hn0 _. rewrite <- Hn0.
  destruct n as [| n]; [lia |].
  cbn [seq group_by_label]. unfold label_at. rewrite Hshape. reflexivity.
Qed.

(** X22.  The skewed split has ten buckets: on a stored training set with
    one-dimensional labels of which one is 10 or more, the first loop
    indexes the list of buckets out of its range and the call raises
    [IndexError]; the object and the world are as before. *)
Theorem skewed_split_label_out_of_range
  (s : state Env) (skew_factor : float64)
  (xt : ndarray Z) (yt : ndarray nat) (xe : ndarray Z) (ye : ndarray nat) :
  loaded (self s) xt yt xe ye ->
  length (shape yt) = 1 ->
  Exists (fun label => 10 <= label) (flat yt) ->
  create_skewed_partition_split np_random_permutation skew_factor s = (Raise IndexError, s).
Proof.
  intros Hloaded H1d Hex.
  apply (skewed_split_grouping s skew_factor xt yt xe ye IndexError Hloaded).
  destruct Hloaded as (_ & _ & _ & _ & Hwx & Hwy & Hnx & _ & inner_y & Hsy).
  set (nx := normalized (dataset (self s)) xt) in *.
  set (n := shape0 nx) in *.
  assert (Hsy1 : shape yt = [n]).
  { rewrite Hsy in H1d |- *. destruct inner_y; [reflexivity | discriminate]. }
  destruct (normalized_shape _ xt Hnx) as [inner_x Hsx]. fold nx in Hsx. fold n in Hsx.
  apply (group_by_label_out_of_range nx yt n inner_x Hsx Hsy1 Hwy n 0); [lia |].
  rewrite repeat_length. simpl skipn.
  rewrite firstn_all2; [exact Hex |].
  rewrite (flat_y_length yt n Hsy1 Hwy). lia.
Qed.

End SkewedSplitErrors.

(* ================================================================= *)
(** ** The skewed split at its extremes *)

Lemma skew_count_one (n : nat) :
  (Z.of_nat n < 2 ^ 53)%Z -> skew_count n (f64_of_nat 1) = n.
Proof.
  intros Hn. unfold skew_count. rewrite (num_samples_for_node_1_one n Hn).
  unfold py_slice_bound. destruct (Z.leb_spec 0 (Z.of_nat n)); [| lia].
  rewrite Nat2Z.id. lia.
Qed.

Lemma skew_count_zero (n : nat) :
  (Z.of_nat n < 2 ^ 53)%Z -> skew_count n (f64_of_nat 0) = 0.
Proof.
  intros Hn. unfold skew_count. now rewrite (num_samples_for_node_1_zero n Hn).
Qed.

Lemma of_class_small {T} (c : nat) (l : list (T * nat)) :
  (Z.of_nat (length l) < 2 ^ 53)%Z -> (Z.of_nat (length (of_class c l)) < 2 ^ 53)%Z.
Proof.
  intros Hl. pose proof (filter_length_le (fun p : T * nat => snd p =? c) l) as Hle.
  unfold of_class. lia.
Qed.

Lemma unit_double_one : unit_double (f64_of_nat 1).
Proof. repeat split; vm_compute; reflexivity. Qed.

Lemma unit_double_zero : unit_double (f64_of_nat 0).
Proof. repeat split; vm_compute; reflexivity. Qed.

(** With the factor 1.0 a node is dealt its own classes whole, with the
    factor 0.0 the classes of the other node. *)
Lemma node_share_extremes {T} (l : list (T * nat)) :
  (Z.of_nat (length l) < 2 ^ 53)%Z ->
  node_share (f64_of_nat 1) 0 l = concat (map (fun c => of_class c l) [0; 1; 2; 3; 4])
  /\ node_share (f64_of_nat 1) 1 l = concat (map (fun c => of_class c l) [5; 6; 7; 8; 9])
  /\ node_share (f64_of_nat 0) 0 l = concat (map (fun c => of_class c l) [5; 6; 7; 8; 9])
  /\ node_share (f64_of_nat 0) 1 l = concat (map (fun c => of_class c l) [0; 1; 2; 3; 4]).
Proof.
  intros Hl. rewrite !node_share_0, !node_share_1. cbn [map concat].
  rewrite !skew_count_one, !skew_count_zero by (now apply of_class_small).
  rewrite !firstn_all, !skipn_all. cbn [firstn skipn app].
  rewrite !app_nil_r. repeat split; reflexivity.
Qed.

Lemma low_classes_permutation {T} (l : list (T * nat)) :
  Permutation (concat (map (fun c => of_class c l) [0; 1; 2; 3; 4]))
              (filter (fun p => snd p <? 5) l).
Proof. exact (classes_partition 5 l). Qed.

Lemma high_classes_permutation {T} (l : list (T * nat)) :
  Permutation (concat (map (fun c => of_class c l) [5; 6; 7; 8; 9]))
              (filter (fun p => (5 <=? snd p) && (snd p <? 10)) l).
Proof.
  apply (filter_blocks_permutation (fun (c : nat) (p : T * nat) => snd p =? c)
           (fun p => (5 <=? snd p) && (snd p <? 10))).
  intros [t label]. cbn [snd].
  do 10 (destruct label as [| label]; [reflexivity |]). reflexivity.
Qed.

Section SkewedSplitExtremes.

Variable Env : Type.
Variable np_random_permutation : nat -> Env -> list nat * Env.

Hypothesis np_random_permutation_spec :
  forall n e, Permutation (fst (np_random_permutation n e)) (seq 0 n).

(** What the two nodes are dealt, for every double in [0, 1]. *)
Lemma skewed_split_shares
  (s : state Env) (xt : ndarray Z) (yt : ndarray nat) (xe : ndarray Z) (ye : ndarray nat)
  (skew_factor : float64) :
  loaded (self s) xt yt xe ye ->
  length (shape yt) = 1 ->
  Forall (fun label => label < 10) (flat yt) ->
  unit_double skew_factor ->
  (Z.of_nat (shape0 yt) < 2 ^ 53)%Z ->
  exists p0 p1 q0 q1,
    fst (create_skewed_partition_split np_random_permutation skew_factor s)
      = Ok ([p0; p1], [q0; q1], normalized (dataset (self s)) xe, ye)
    /\ Permutation (labelled p0 q0)
         (node_share skew_factor 0 (labelled (normalized (dataset (self s)) xt) yt))
    /\ Permutation (labelled p1 q1)
         (node_share skew_factor 1 (labelled (normalized (dataset (self s)) xt) yt))
    /\ length (rows p0) = length (flat q0)
    /\ length (rows p1) = length (flat q1)
    /\ Permutation (labelled p0 q0 ++ labelled p1 q1)
         (labelled (normalized (dataset (self s)) xt) yt).
Proof.
  intros (Hxt & Hyt & Hxe & Hye & Hwx & Hwy & Hnx & Hne & inner_y & Hsy) H1d Hlab Hunit Hsize.
  set (ds := dataset (self s)) in *.
  set (nx := normalized ds xt) in *.
  set (n := shape0 nx) in *.
  assert (Hsy1 : shape yt = [n]).
  { rewrite Hsy in H1d |- *. destruct inner_y; [reflexivity | discriminate]. }
  destruct (normalized_shape ds xt Hnx) as [inner_x Hsx]. fold nx in Hsx. fold n in Hsx.
  pose proof (normalized_well_shaped ds xt Hnx Hwx) as Hwnx. fold nx in Hwnx.
  set (tagged := combine (entries nx) (flat yt)).
  assert (Hny : length (flat yt) = n) by (apply (flat_y_length yt n Hsy1 Hwy)).
  (* the first loop *)
  destruct (group_by_label_spec nx yt n inner_x Hsx Hsy1 Hwy n 0 (repeat [] 10) (repeat [] 10))
    as (xb & yb & Hgroup & Hlxb & Hlyb & Hbuckets).
  { lia. }
  { now rewrite !repeat_length. }
  { now rewrite repeat_length. }
  rewrite repeat_length in Hlxb, Hlyb.
  assert (Hxb : forall c, nth c xb [] = map fst (of_class c tagged)).
  { intros c. destruct (Hbuckets c) as [-> _]. rewrite nth_repeat. simpl skipn.
    rewrite firstn_all2; [reflexivity |].
    rewrite length_combine, (entries_length nx n inner_x Hsx), Hny. lia. }
  assert (Hyb : forall c, nth c yb [] = map snd (of_class c tagged)).
  { intros c. destruct (Hbuckets c) as [_ ->]. rewrite nth_repeat. simpl skipn.
    rewrite firstn_all2; [reflexivity |].
    rewrite length_combine, (entries_length nx n inner_x Hsx), Hny. lia. }
  (* the second loop *)
  assert (Hsize_n : (Z.of_nat n < 2 ^ 53)%Z).
  { unfold shape0 in Hsize. rewrite Hsy1 in Hsize. exact Hsize. }
  assert (Hcut : forall m, m <= n ->
                   exists k, num_samples_for_node_1 m skew_factor = Ok k /\ (0 <= k)%Z).
  { intros m Hm. apply num_samples_for_node_1_defined; [exact Hunit | lia]. }
  destruct (skew_loop_spec skew_factor xb yb) with (classes := seq 0 10)
    (sx := [[]; []] : list (list (ndarray float32))) (sy := [[]; []] : list (list nat))
    as (sx & sy & Hskew & Hlsx & Hlsy & Hslots).
  { intros c. now rewrite Hxb, Hyb, !length_map. }
  { lia. }
  { apply Forall_forall. intros c Hc. apply in_seq in Hc.
    split; [lia | split; [lia |]].
    destruct (Hcut (length (nth c xb []))) as (k & Hk & _); [| eauto].
    rewrite Hxb, length_map. unfold of_class.
    eapply Nat.le_trans; [apply filter_length_le |].
    unfold tagged. rewrite length_combine, (entries_length nx n inner_x Hsx), Hny. lia. }
  { reflexivity. }
  { reflexivity. }
  assert (Hsx_j : forall j, j < 2 -> nth j sx [] = map fst (node_share skew_factor j tagged)).
  { intros j Hj. destruct (Hslots j Hj) as [-> _].
    destruct j as [| [| ?]]; [| | lia]; cbn [nth app];
      rewrite <- node_share_fst; f_equal; apply map_ext; intros c; now rewrite Hxb. }
  assert (Hsy_j : forall j, j < 2 -> nth j sy [] = map snd (node_share skew_factor j tagged)).
  { intros j Hj. destruct (Hslots j Hj) as [_ ->].
    destruct j as [| [| ?]]; [| | lia]; cbn [nth app];
      rewrite <- node_share_snd; f_equal; apply map_ext; intros c; now rewrite Hyb. }
  (* the images of a share are entries of the normalised training set *)
  assert (Hshaped : forall j,
             Forall (fun e => shape e = inner_x /\ length (flat e) = prod_dims inner_x)
                    (map fst (node_share skew_factor j tagged))).
  { intros j. pose proof (entries_shaped nx n inner_x Hwnx Hsx) as He.
    rewrite Forall_forall in He. apply Forall_forall. intros e Hin.
    apply in_map_iff in Hin. destruct Hin as ([e' l] & <- & Hin).
    apply node_share_incl in Hin. apply in_combine_l in Hin. now apply He. }
  assert (Hrelabel : forall j,
             combine (map (@flat float32) (map fst (node_share skew_factor j tagged)))
                     (map snd (node_share skew_factor j tagged))
             = node_share skew_factor j (labelled nx yt)).
  { intros j. rewrite combine_map_fst_snd, <- node_share_map. f_equal.
    unfold tagged, labelled. now rewrite map_fst_combine, entries_flat. }
  (* the final loop, twice *)
  destruct (shuffle_partition_spec Env np_random_permutation np_random_permutation_spec inner_x _ (map snd (node_share skew_factor 0 tagged)) s
              (Hshaped 0)) as (p0 & q0 & Hrun0 & Hperm0 & Hlen0).
  { now rewrite !length_map. }
  set (s1 := State (self s) (snd (np_random_permutation
                       (length (map fst (node_share skew_factor 0 tagged))) (env s)))) in *.
  destruct (shuffle_partition_spec Env np_random_permutation np_random_permutation_spec inner_x _ (map snd (node_share skew_factor 1 tagged)) s1
              (Hshaped 1)) as (p1 & q1 & Hrun1 & Hperm1 & Hlen1).
  { now rewrite !length_map. }
  rewrite Hrelabel in Hperm0, Hperm1.
  exists p0, p1, q0, q1.
  split; [| repeat split; try assumption].
  - unfold create_skewed_partition_split.
    rewrite (bind_getattr_bound _ _ _ _ Hxt).
    rewrite (bind_ok _ _ _ _ _ (normalize_data_normalized xt s Hnx)).
    rewrite (bind_getattr_bound _ _ _ _ Hxe).
    rewrite (bind_ok _ _ _ _ _ (normalize_data_normalized xe s Hne)).
    rewrite (bind_getattr_bound _ _ _ _ Hyt).
    fold ds nx.
    assert (Hpylen : py_len yt = Ok n) by (unfold py_len; now rewrite Hsy1).
    rewrite (bind_lift_ok _ _ _ _ Hpylen).
    rewrite py_range_unit.
    rewrite (bind_lift_ok _ _ _ _ Hgroup). cbn [fst snd].
    rewrite py_range_unit.
    rewrite (bind_lift_ok _ _ _ _ Hskew). cbn [fst snd].
    rewrite (Hsx_j 0), (Hsx_j 1), (Hsy_j 0), (Hsy_j 1) by lia.
    rewrite (bind_ok _ _ _ _ _ Hrun0). fold s1.
    rewrite (bind_ok _ _ _ _ _ Hrun1).
    rewrite (bind_getattr_bound _ _ _ ye) by exact Hye.
    reflexivity.
  - eapply Permutation_trans; [apply Permutation_app; eassumption |].
    apply node_shares_partition.
    unfold labelled. apply Forall_forall. intros [r l] Hin.
    apply in_combine_r in Hin. rewrite Forall_forall in Hlab. now apply Hlab.
Qed.

(** X23.  The two ends of the skew factor, as the comment in the source
    has it for the factor 1 ("like a normal partition"): on a stored
    training set of fewer than 2^53 images (where [float(n)] is exact) with
    one-dimensional labels in 0..9, the factor 1.0 gives node 0 exactly the
    samples of the classes 0-4 and node 1 exactly those of the classes 5-9,
    each image with its label and in a shuffled order; the factor 0.0 gives
    node 0 the classes 5-9 and node 1 the classes 0-4. *)
Theorem skewed_split_extremes
  (s : state Env) (xt : ndarray Z) (yt : ndarray nat) (xe : ndarray Z) (ye : ndarray nat) :
  loaded (self s) xt yt xe ye ->
  length (shape yt) = 1 ->
  Forall (fun label => label < 10) (flat yt) ->
  (Z.of_nat (shape0 yt) < 2 ^ 53)%Z ->
  (exists p0 p1 q0 q1,
      fst (create_skewed_partition_split np_random_permutation (f64_of_nat 1) s)
        = Ok ([p0; p1], [q0; q1], normalized (dataset (self s)) xe, ye)
      /\ Permutation (labelled p0 q0)
           (filter (fun p => snd p <? 5) (labelled (normalized (dataset (self s)) xt) yt))
      /\ Permutation (labelled p1 q1)
           (filter (fun p => (5 <=? snd p) && (snd p <? 10))
                   (labelled (normalized (dataset (self s)) xt) yt)))
  /\ (exists p0 p1 q0 q1,
        fst (create_skewed_partition_split np_random_permutation (f64_of_nat 0) s)
          = Ok ([p0; p1], [q0; q1], normalized (dataset (self s)) xe, ye)
        /\ Permutation (labelled p0 q0)
             (filter (fun p => (5 <=? snd p) && (snd p <? 10))
                     (labelled (normalized (dataset (self s)) xt) yt))
        /\ Permutation (labelled p1 q1)
             (filter (fun p => snd p <? 5) (labelled (normalized (dataset (self s)) xt) yt))).
Proof.
  intros Hloaded H1d Hlab Hsize.
  set (L := labelled (normalized (dataset (self s)) xt) yt).
  assert (HL : (Z.of_nat (length L) < 2 ^ 53)%Z).
  { destruct Hloaded as (_ & _ & _ & _ & _ & Hwy & _ & _ & inner_y & Hsy).
    assert (Hsy1 : shape yt = [shape0 yt]).
    { unfold shape0. rewrite Hsy in H1d |- *. destruct inner_y; [reflexivity | discriminate]. }
    pose proof (flat_y_length yt (shape0 yt) Hsy1 Hwy) as Hflat.
    unfold L, labelled. rewrite length_combine. lia. }
  destruct (node_share_extremes L HL) as (H10 & H11 & H00 & H01).
  split.
  - destruct (skewed_split_shares s xt yt xe ye (f64_of_nat 1) Hloaded H1d Hlab
                unit_double_one Hsize)
      as (p0 & p1 & q0 & q1 & Hrun & Hp0 & Hp1 & _).
    fold L in Hp0, Hp1. rewrite H10 in Hp0. rewrite H11 in Hp1.
    exists p0, p1, q0, q1. split; [exact Hrun |]. split.
    + eapply Permutation_trans; [exact Hp0 | apply low_classes_permutation].
    + eapply Permutation_trans; [exact Hp1 | apply high_classes_permutation].
  - destruct (skewed_split_shares s xt yt xe ye (f64_of_nat 0) Hloaded H1d Hlab
                unit_double_zero Hsize)
      as (p0 & p1 & q0 & q1 & Hrun & Hp0 & Hp1 & _).
    fold L in Hp0, Hp1. rewrite H00 in Hp0. rewrite H01 in Hp1.
    exists p0, p1, q0, q1. split; [exact Hrun |]. split.
    + eapply Permutation_trans; [exact Hp0 | apply high_classes_permutation].
    + eapply Permutation_trans; [exact Hp1 | apply low_classes_permutation].
Qed.

End SkewedSplitExtremes.

(* ================================================================= *)
(** ** The random split at its edges *)

Lemma section_sizes_few (total sections : nat) :
  total < sections ->
  section_sizes total sections = repeat 1 total ++ repeat 0 (sections - total).
Proof.
  intros Hlt. unfold section_sizes.
  now rewrite (Nat.div_small total sections Hlt), (Nat.mod_small total sections Hlt).
Qed.

Section RandomSplitEdges.

Variable Env : Type.
Variable np_random_permutation : nat -> Env -> list nat * Env.

Hypothesis np_random_permutation_spec :
  forall n e, Permutation (fst (np_random_permutation n e)) (seq 0 n).

(** The run of [random_split] on a stored training set: the shuffle, then
    the two calls of [np.array_split]. *)
Lemma random_split_run
  (s : state Env) (xt : ndarray Z) (yt : ndarray nat) (xe : ndarray Z) (ye : ndarray nat) :
  loaded (self s) xt yt xe ye ->
  random_split np_random_permutation s =
    (if num_nodes (self s) =? 0
     then Raise (ValueError "number sections must be larger than 0.")
     else
       Ok (map (with_rows (normalized (dataset (self s)) xt))
               (split_by_sizes
                  (section_sizes (shape0 (normalized (dataset (self s)) xt))
                                 (num_nodes (self s)))
                  (rows_at (normalized (dataset (self s)) xt)
                     (fst (np_random_permutation
                             (shape0 (normalized (dataset (self s)) xt)) (env s))))),
           map (with_rows yt)
               (split_by_sizes
                  (section_sizes (shape0 (normalized (dataset (self s)) xt))
                                 (num_nodes (self s)))
                  (rows_at yt
                     (fst (np_random_permutation
                             (shape0 (normalized (dataset (self s)) xt)) (env s))))),
           normalized (dataset (self s)) xe, ye),
     State (self s)
           (snd (np_random_permutation (shape0 (normalized (dataset (self s)) xt)) (env s)))).
Proof.
  intros (Hxt & Hyt & Hxe & Hye & Hwx & Hwy & Hnx & Hne & inner_y & Hsy).
  set (ds := dataset (self s)) in *.
  set (nx := normalized ds xt) in *.
  set (n := shape0 nx) in *.
  destruct (normalized_shape ds xt Hnx) as [inner_x Hsx]. fold nx in Hsx. fold n in Hsx.
  pose proof (normalized_well_shaped ds xt Hnx Hwx) as Hwnx. fold nx in Hwnx.
  set (indices := fst (np_random_permutation n (env s))).
  pose proof (np_random_permutation_spec n (env s)) as Hperm. fold indices in Hperm.
  pose proof (permutation_indices_bound n indices Hperm) as Hbound.
  set (x2 := with_rows nx (rows_at nx indices)).
  set (y2 := with_rows yt (rows_at yt indices)).
  assert (Hrx : Forall (fun r => length r = row_size nx) (rows_at nx indices))
    by (apply (rows_at_Forall_length nx n inner_x); assumption).
  assert (Hry : Forall (fun r => length r = row_size yt) (rows_at yt indices))
    by (apply (rows_at_Forall_length yt n inner_y); assumption).
  assert (Hrows_x2 : rows x2 = rows_at nx indices) by (apply rows_with_rows; exact Hrx).
  assert (Hrows_y2 : rows y2 = rows_at yt indices) by (apply rows_with_rows; exact Hry).
  assert (Hn_x2 : shape0 x2 = n)
    by (unfold x2; rewrite shape0_with_rows; unfold rows_at; rewrite length_map;
        rewrite (Permutation_length Hperm); apply length_seq).
  assert (Hn_y2 : shape0 y2 = n)
    by (unfold y2; rewrite shape0_with_rows; unfold rows_at; rewrite length_map;
        rewrite (Permutation_length Hperm); apply length_seq).
  unfold random_split.
  rewrite bind_getattr.
  rewrite (bind_getattr_bound _ _ _ _ Hxt).
  rewrite (bind_ok _ _ _ _ _ (normalize_data_normalized xt s Hnx)).
  rewrite (bind_getattr_bound _ _ _ _ Hxe).
  rewrite (bind_ok _ _ _ _ _ (normalize_data_normalized xe s Hne)).
  rewrite bind_extern. fold ds nx n indices.
  rewrite (bind_lift_ok _ _ _ _ (int_index_ok nx n inner_x indices Hsx Hbound)).
  rewrite (bind_getattr_bound _ _ _ yt) by exact Hyt.
  rewrite (bind_lift_ok _ _ _ _ (int_index_ok yt n inner_y indices Hsy Hbound)).
  fold x2 y2.
  destruct (Nat.eqb_spec (num_nodes (self s)) 0) as [Hz | Hnz].
  - apply bind_lift_raise. unfold np_array_split. now rewrite Hz.
  - assert (Hk : 0 < num_nodes (self s)) by lia.
    rewrite (bind_lift_ok _ _ _ _ (np_array_split_ok x2 _ Hk)).
    rewrite (bind_lift_ok _ _ _ _ (np_array_split_ok y2 _ Hk)).
    rewrite (bind_getattr_bound _ _ _ ye) by exact Hye.
    rewrite Hn_x2, Hn_y2, Hrows_x2, Hrows_y2. reflexivity.
Qed.

(** X24.  [random_split] for no node: on a stored training set, with
    [num_nodes = 0] the call raises the [ValueError] of [np.array_split]
    ("number sections must be larger than 0."), and only after it has
    normalised both sets and drawn the permutation: the object is as
    before, the random generator has advanced. *)
Theorem random_split_zero_nodes
  (s : state Env) (xt : ndarray Z) (yt : ndarray nat) (xe : ndarray Z) (ye : ndarray nat) :
  loaded (self s) xt yt xe ye ->
  num_nodes (self s) = 0 ->
  random_split np_random_permutation s
  = (Raise (ValueError "number sections must be larger than 0."),
     State (self s)
           (snd (np_random_permutation (shape0 (normalized (dataset (self s)) xt)) (env s)))).
Proof.
  intros Hloaded Hz. rewrite (random_split_run s xt yt xe ye Hloaded). now rewrite Hz.
Qed.

(** X25.  [random_split] for more nodes than training images: it still
    returns [num_nodes] partitions; the first [n] hold one image each and
    the other [num_nodes - n] are empty. *)
Theorem random_split_more_nodes_than_images
  (s : state Env) (xt : ndarray Z) (yt : ndarray nat) (xe : ndarray Z) (ye : ndarray nat) :
  loaded (self s) xt yt xe ye ->
  shape0 yt < num_nodes (self s) ->
  exists px py,
    fst (random_split np_random_permutation s)
      = Ok (px, py, normalized (dataset (self s)) xe, ye)
    /\ map (@shape0 float32) px
       = repeat 1 (shape0 yt) ++ repeat 0 (num_nodes (self s) - shape0 yt)
    /\ map (@shape0 nat) py
       = repeat 1 (shape0 yt) ++ repeat 0 (num_nodes (self s) - shape0 yt).
Proof.
  intros Hloaded Hfew. rewrite (random_split_run s xt yt xe ye Hloaded).
  destruct Hloaded as (Hxt & Hyt & Hxe & Hye & Hwx & Hwy & Hnx & Hne & inner_y & Hsy).
  set (nx := normalized (dataset (self s)) xt) in *.
  set (n := shape0 nx) in *.
  assert (Hn_y : shape0 yt = n) by (unfold shape0; now rewrite Hsy).
  rewrite Hn_y in *.
  destruct (Nat.eqb_spec (num_nodes (self s)) 0) as [Hz | Hnz]; [lia |].
  set (indices := fst (np_random_permutation n (env s))).
  pose proof (np_random_permutation_spec n (env s)) as Hperm. fold indices in Hperm.
  assert (Hlen : length indices = n).
  { rewrite (Permutation_length Hperm). apply length_seq. }
  pose proof (section_sizes_sum n (num_nodes (self s)) ltac:(lia)) as Hsum.
  do 2 eexists. cbn [fst]. split; [reflexivity |].
  rewrite !map_map.
  split.
  - erewrite map_ext; [| intros piece; apply shape0_with_rows].
    rewrite split_by_sizes_lengths.
    + now apply section_sizes_few.
    + unfold rows_at. rewrite length_map, Hsum, Hlen. lia.
  - erewrite map_ext; [| intros piece; apply shape0_with_rows].
    rewrite split_by_sizes_lengths.
    + now apply section_sizes_few.
    + unfold rows_at. rewrite length_map, Hsum, Hlen. lia.
Qed.

(** X26.  The partitions of [random_split] are arrays of whole images: on
    a stored training set and for at least one node, every partition of
    images is a well-shaped array of shape [(k, image_size, image_size, C)]
    for its number [k] of images, and every partition of labels is a
    well-shaped array with the inner dimensions of the stored labels. *)
Theorem random_split_partitions_well_shaped
  (s : state Env) (xt : ndarray Z) (yt : ndarray nat) (xe : ndarray Z) (ye : ndarray nat)
  (image_size C : nat) :
  loaded (self s) xt yt xe ye ->
  1 <= num_nodes (self s) ->
  shape_at xt 1 = Ok image_size ->
  channels (dataset (self s)) = Some C ->
  exists px py,
    fst (random_split np_random_permutation s)
      = Ok (px, py, normalized (dataset (self s)) xe, ye)
    /\ Forall (fun p => well_shaped p
                        /\ shape p = [shape0 p; image_size; image_size; C]) px
    /\ Forall (fun q => well_shaped q /\ tl (shape q) = tl (shape yt)) py.
Proof.
  intros Hloaded Hk Hat HC. rewrite (random_split_run s xt yt xe ye Hloaded).
  destruct Hloaded as (Hxt & Hyt & Hxe & Hye & Hwx & Hwy & Hnx & Hne & inner_y & Hsy).
  set (nx := normalized (dataset (self s)) xt) in *.
  set (n := shape0 nx) in *.
  destruct (normalized_shape _ xt Hnx) as [inner_x Hsx]. fold nx in Hsx. fold n in Hsx.
  pose proof (normalized_well_shaped _ xt Hnx Hwx) as Hwnx. fold nx in Hwnx.
  assert (Htl : tl (shape nx) = [image_size; image_size; C]).
  { unfold nx, normalized. now rewrite Hat, HC. }
  destruct (Nat.eqb_spec (num_nodes (self s)) 0) as [Hz | Hnz]; [lia |].
  set (indices := fst (np_random_permutation n (env s))).
  pose proof (np_random_permutation_spec n (env s)) as Hperm. fold indices in Hperm.
  pose proof (permutation_indices_bound n indices Hperm) as Hbound.
  assert (Hrx : Forall (fun r => length r = row_size nx) (rows_at nx indices))
    by (apply (rows_at_Forall_length nx n inner_x); assumption).
  assert (Hry : Forall (fun r => length r = row_size yt) (rows_at yt indices))
    by (apply (rows_at_Forall_length yt n inner_y); assumption).
  do 2 eexists. cbn [fst]. split; [reflexivity |]. split.
  - rewrite Forall_map.
    eapply Forall_impl; [| apply (split_by_sizes_Forall _ _ _ Hrx)].
    intros piece Hpiece. split; [now apply with_rows_well_shaped |].
    unfold with_rows, shape0. cbn [shape hd]. now rewrite Htl.
  - rewrite Forall_map.
    eapply Forall_impl; [| apply (split_by_sizes_Forall _ _ _ Hry)].
    intros piece Hpiece. split; [now apply with_rows_well_shaped | reflexivity].
Qed.

End RandomSplitEdges.

(* ================================================================= *)
(** * The further properties on sample data *)

Lemma sample_pixels_in_range : Forall (fun v => 0 <= v <= 255)%Z (flat sample_x_train).
Proof. repeat constructor; simpl; lia. Defined.

Lemma sample_runner_for_loaded (nodes : nat) :
  loaded (sample_runner_for nodes) sample_x_train sample_y_train sample_x_test sample_y_test.
Proof.
  repeat split; try reflexivity.
  - exists 2, 1. repeat split; try reflexivity. lia.
  - exists 2, 1. repeat split; try reflexivity. lia.
  - exists []. reflexivity.
Defined.

Lemma cifar_loaded :
  loaded cifar_runner cifar_x_train cifar_y_train cifar_x_test cifar_y_test.
Proof.
  repeat split; try reflexivity.
  - exists 1, 3. repeat split; try reflexivity. lia.
  - exists 1, 3. repeat split; try reflexivity. lia.
  - exists [1]. reflexivity.
Defined.

Lemma wide_label_loaded :
  loaded wide_label_runner sample_x_train wide_y_train sample_x_test sample_y_test.
Proof.
  repeat split; try reflexivity.
  - exists 2, 1. repeat split; try reflexivity. lia.
  - exists 2, 1. repeat split; try reflexivity. lia.
  - exists []. reflexivity.
Defined.

Lemma three_label_array : label_array three_labels.
Proof. split; [reflexivity | left; exists 3; reflexivity]. Defined.

Example init_main_config :
  init sample_load_data sample_load_data main_config false tt = KeyError "use_async".
Proof. reflexivity. Qed.

Example init_sample_config :
  init sample_load_data sample_load_data sample_config false tt
  = Constructed sample_settings sample_constructed.
Proof. reflexivity. Qed.

Lemma normalize_data_preserves_order_witness :
  f32_ltb (nth 0 (flat (normalized "mnist" sample_x_train)) (normalized_pixel 0))
          (nth 1 (flat (normalized "mnist" sample_x_train)) (normalized_pixel 0))
  = (nth 0 (flat sample_x_train) 0 <? nth 1 (flat sample_x_train) 0)%Z.
Proof.
  apply (@normalize_data_preserves_order unit sample_x_train sample_state
           (normalized "mnist" sample_x_train) 0 1).
  - exact sample_pixels_in_range.
  - vm_compute. reflexivity.
  - simpl. lia.
  - simpl. lia.
Defined.

Lemma normalize_data_lossless_witness : flat sample_x_train = flat sample_x_train_channel.
Proof.
  apply (@normalize_data_lossless unit sample_x_train sample_x_train_channel sample_state
           (normalized "mnist" sample_x_train)).
  - exact sample_pixels_in_range.
  - exact sample_pixels_in_range.
  - vm_compute. reflexivity.
  - vm_compute. reflexivity.
Defined.

Lemma normalize_data_image_count_witness :
  shape0 (normalized "mnist" sample_x_train) = 4 <-> prod_dims [2] = 2 * 1.
Proof.
  apply (@normalize_data_image_count unit sample_x_train sample_state
           (normalized "mnist" sample_x_train) 4 2 1 [2]).
  - reflexivity.
  - reflexivity.
  - lia.
  - vm_compute. reflexivity.
Defined.

Lemma normalize_data_needs_two_dimensions_witness :
  normalize_data flat_pixels unsupported_constructed
  = (Raise IndexError, unsupported_constructed).
Proof.
  apply (@normalize_data_needs_two_dimensions unit flat_pixels unsupported_constructed).
  simpl. lia.
Defined.

Lemma split_partitions_cover_witness :
  exists px py,
    split_training_data_into_paritions four_x four_y 3 = Ok (px, py)
    /\ Permutation (partition_samples px py)
                   (filter (fun p => label_of (snd p) <? 10) (samples four_x four_y)).
Proof.
  apply (split_partitions_cover four_x four_y 4 [1] 3 eq_refl eq_refl four_label_array eq_refl).
  - lia.
  - repeat constructor.
Defined.

Lemma split_unbound_selected_witness :
  split_training_data_into_paritions four_x cube_labels 2 = Raise UnboundLocalError.
Proof.
  apply (split_unbound_selected four_x cube_labels 2).
  - lia.
  - discriminate.
  - discriminate.
Defined.

Lemma split_mask_mismatch_witness :
  split_training_data_into_paritions four_x three_labels 2 = Raise IndexError.
Proof.
  apply (split_mask_mismatch four_x three_labels 2).
  - lia.
  - exact three_label_array.
  - discriminate.
Defined.

Lemma dataloader_one_pass_witness :
  exists bs,
    batches ((3 + (2 - 1)) / 2) 3 pass_runner (Created 0) = Some bs
    /\ length bs = (3 + (2 - 1)) / 2
    /\ concat (map (fun b => samples (fst b) (snd b)) bs) = samples pass_x pass_y
    /\ Forall (fun b => 1 <= shape0 (fst b) <= 2 /\ shape0 (snd b) = shape0 (fst b)) bs.
Proof.
  apply (dataloader_one_pass pass_runner 0 [pass_x] [pass_y] pass_x pass_y 3 [1; 1; 1] []
           eq_refl eq_refl eq_refl eq_refl eq_refl eq_refl eq_refl eq_refl).
  - lia.
  - simpl. lia.
Defined.

Lemma dataloader_empty_partition_witness :
  next 1000 sparse_runner (Created 1) = None
  /\ exhaust 1000 sparse_runner (Created 1) = None.
Proof.
  apply (dataloader_empty_partition sparse_runner 1 [pass_x; empty_x] [pass_y; empty_y]
           empty_x [1; 1; 1] eq_refl eq_refl eq_refl eq_refl).
  simpl. lia.
Defined.

Lemma dataloader_index_out_of_range_witness :
  exists g,
    next 2 pass_runner (Created 1) = Some (Throw IndexError, g)
    /\ forall fuel, next (S fuel) pass_runner g = Some (StopIteration, g).
Proof.
  apply (dataloader_index_out_of_range pass_runner 1 [pass_x] [pass_y] eq_refl eq_refl).
  right. simpl. lia.
Defined.

Lemma dataloader_negative_index_witness :
  batches 5 3 pass_runner (Created (-1))
  = Some (map (batch_at pass_x pass_y 2) (seq 0 5))
  /\ batches 5 3 pass_runner (Created (-1))
     = batches 5 3 pass_runner (Created (Z.of_nat 1 + -1)).
Proof.
  apply (dataloader_negative_index pass_runner (-1) [pass_x] [pass_y] pass_x pass_y 3 [1; 1; 1]
           eq_refl eq_refl eq_refl).
  - simpl. lia.
  - reflexivity.
  - reflexivity.
  - reflexivity.
  - lia.
  - simpl. lia.
Defined.

Lemma init_binds_data_witness :
  (cfg_num_nodes sample_config = Some 2
   /\ cfg_batch_size sample_config = Some 32
   /\ cfg_lr sample_config = Some sample_lr
   /\ cfg_dataset sample_config = Some "mnist"%string
   /\ cfg_net sample_config = Some "simple"%string
   /\ partitioned_x_train (self sample_constructed) = None
   /\ partitioned_y_train (self sample_constructed) = None)
  /\ (forall load,
        (dataset (self sample_constructed) = "mnist"%string /\ load = sample_load_data)
        \/ (dataset (self sample_constructed) = "cifar10"%string /\ load = sample_load_data) ->
        x_train (self sample_constructed) = Some (fst (fst (fst (load tt))))
        /\ y_train (self sample_constructed) = Some (snd (fst (fst (load tt))))
        /\ x_test (self sample_constructed) = Some (fst (snd (fst (load tt))))
        /\ y_test (self sample_constructed) = Some (snd (snd (fst (load tt))))
        /\ env sample_constructed = snd (load tt))
  /\ (dataset (self sample_constructed) <> "mnist"%string ->
      dataset (self sample_constructed) <> "cifar10"%string ->
      x_train (self sample_constructed) = None /\ y_train (self sample_constructed) = None
      /\ x_test (self sample_constructed) = None /\ y_test (self sample_constructed) = None
      /\ env sample_constructed = tt).
Proof.
  apply (init_binds_data unit sample_load_data sample_load_data sample_config false tt
           sample_settings sample_constructed).
  reflexivity.
Defined.

Lemma unsupported_dataset_attribute_error_witness :
  random_split reversing_permutation unsupported_constructed
  = (Raise AttributeError, unsupported_constructed)
  /\ create_skewed_partition_split reversing_permutation default_skew_factor_f64 unsupported_constructed
     = (Raise AttributeError, unsupported_constructed)
  /\ create_partitioned_datasets unsupported_constructed
     = (Raise AttributeError, unsupported_constructed).
Proof.
  apply (unsupported_dataset_attribute_error unit reversing_permutation
           sample_load_data sample_load_data unsupported_config false tt
           unsupported_settings unsupported_constructed default_skew_factor_f64).
  - reflexivity.
  - discriminate.
  - discriminate.
Defined.

Lemma constructed_runner_has_no_partitions_witness :
  next 1 (self (snd (random_split reversing_permutation sample_constructed))) (Created 0)
  = Some (Throw AttributeError, Finished).
Proof.
  apply (constructed_runner_has_no_partitions unit reversing_permutation
           sample_load_data sample_load_data string plain_simple plain_resnet
           sample_config false tt sample_settings sample_constructed
           default_skew_factor_f64 sample_x_train 0).
  - reflexivity.
  - do 4 right. left. reflexivity.
Defined.

Lemma skewed_split_two_dimensional_labels_witness :
  create_skewed_partition_split reversing_permutation default_skew_factor_f64 (State cifar_runner tt)
  = (Raise TypeError, State cifar_runner tt).
Proof.
  apply (skewed_split_two_dimensional_labels unit reversing_permutation
           (State cifar_runner tt) default_skew_factor_f64
           cifar_x_train cifar_y_train cifar_x_test cifar_y_test 2 1 cifar_loaded eq_refl).
  lia.
Defined.

Lemma skewed_split_label_out_of_range_witness :
  create_skewed_partition_split reversing_permutation default_skew_factor_f64 (State wide_label_runner tt)
  = (Raise IndexError, State wide_label_runner tt).
Proof.
  apply (skewed_split_label_out_of_range unit reversing_permutation
           (State wide_label_runner tt) default_skew_factor_f64
           sample_x_train wide_y_train sample_x_test sample_y_test wide_label_loaded eq_refl).
  apply Exists_cons_tl, Exists_cons_hd. lia.
Defined.

Lemma skewed_split_extremes_witness :
  (exists p0 p1 q0 q1,
      fst (create_skewed_partition_split reversing_permutation (f64_of_nat 1)
             (State skewed_runner tt))
        = Ok ([p0; p1], [q0; q1], normalized "mnist" sample_x_test, sample_y_test)
      /\ Permutation (labelled p0 q0)
           (filter (fun p => snd p <? 5) (labelled (normalized "mnist" skewed_x_train)
                                                   skewed_y_train))
      /\ Permutation (labelled p1 q1)
           (filter (fun p => (5 <=? snd p) && (snd p <? 10))
                   (labelled (normalized "mnist" skewed_x_train) skewed_y_train)))
  /\ (exists p0 p1 q0 q1,
        fst (create_skewed_partition_split reversing_permutation (f64_of_nat 0)
               (State skewed_runner tt))
          = Ok ([p0; p1], [q0; q1], normalized "mnist" sample_x_test, sample_y_test)
        /\ Permutation (labelled p0 q0)
             (filter (fun p => (5 <=? snd p) && (snd p <? 10))
                     (labelled (normalized "mnist" skewed_x_train) skewed_y_train))
        /\ Permutation (labelled p1 q1)
             (filter (fun p => snd p <? 5) (labelled (normalized "mnist" skewed_x_train)
                                                     skewed_y_train))).
Proof.
  apply (skewed_split_extremes unit reversing_permutation reversing_permutation_spec
           (State skewed_runner tt) skewed_x_train skewed_y_train sample_x_test sample_y_test
           skewed_loaded eq_refl).
  - repeat constructor.
  - reflexivity.
Defined.

Lemma random_split_zero_nodes_witness :
  random_split reversing_permutation (State (sample_runner_for 0) tt)
  = (Raise (ValueError "number sections must be larger than 0."),
     State (sample_runner_for 0)
           (snd (reversing_permutation (shape0 (normalized "mnist" sample_x_train)) tt))).
Proof.
  apply (random_split_zero_nodes unit reversing_permutation reversing_permutation_spec
           (State (sample_runner_for 0) tt)
           sample_x_train sample_y_train sample_x_test sample_y_test
           (sample_runner_for_loaded 0)).
  reflexivity.
Defined.

Lemma random_split_more_nodes_than_images_witness :
  exists px py,
    fst (random_split reversing_permutation (State (sample_runner_for 6) tt))
      = Ok (px, py, normalized "mnist" sample_x_test, sample_y_test)
    /\ map (@shape0 float32) px = repeat 1 4 ++ repeat 0 (6 - 4)
    /\ map (@shape0 nat) py = repeat 1 4 ++ repeat 0 (6 - 4).
Proof.
  apply (random_split_more_nodes_than_images unit reversing_permutation
           reversing_permutation_spec (State (sample_runner_for 6) tt)
           sample_x_train sample_y_train sample_x_test sample_y_test
           (sample_runner_for_loaded 6)).
  cbv. lia.
Defined.

Lemma random_split_partitions_well_shaped_witness :
  exists px py,
    fst (random_split reversing_permutation sample_state)
      = Ok (px, py, normalized "mnist" sample_x_test, sample_y_test)
    /\ Forall (fun p => well_shaped p /\ shape p = [shape0 p; 2; 2; 1]) px
    /\ Forall (fun q => well_shaped q /\ tl (shape q) = tl (shape sample_y_train)) py.
Proof.
  apply (random_split_partitions_well_shaped unit reversing_permutation
           reversing_permutation_spec sample_state
           sample_x_train sample_y_train sample_x_test sample_y_test 2 1 sample_loaded).
  - simpl. lia.
  - reflexivity.
  - reflexivity.
Defined.
